(** * InEx-Bug harvester: closing-method resolver, issue metrics, bot-close flag

    A shallow embedding of [src/harvest_data.py] and [src/bot_detect.py].

    The Python code works on the values produced by [json.loads]; they are
    modelled by the type [json].  Python exceptions are explicit results
    ([Raise]); the network is an oracle threaded through a small state
    monad that records every request issued. *)

From Stdlib Require Import ZArith List String Ascii Bool Lia Permutation Sorted.
Import ListNotations.
Open Scope string_scope.
Open Scope Z_scope.
Set Warnings "-register-all".

(** ** Values *)

(** The value of a decoded JSON document.  [JNull] is Python's [None], a
    [JDict] is a [dict] in insertion order (its keys are pairwise distinct,
    so the first binding of a key is the binding).  Numbers are integers:
    none of the fields read by the program is fractional.  A [string] is
    read as a sequence of code points below 256. *)
Inductive json : Type :=
| JNull
| JBool (b : bool)
| JInt (n : Z)
| JStr (s : string)
| JList (l : list json)
| JDict (d : list (string * json)).

(** The exceptions the program can meet; every one of them is a subclass of
    [Exception], which is all that the [except] clauses look at. *)
Inductive exn : Type :=
| AttributeError
| TypeError
| ValueError
| KeyError
| IndexError
| HTTPError (status : Z)
| RequestError.

(** The result of running a piece of Python: a value, an exception, or no
    result at all ([Diverge]: a loop that was still running when the fuel
    given to it ran out, or a request that never comes back). *)
Inductive outcome (A : Type) : Type :=
| Ret (a : A)
| Raise (e : exn)
| Diverge.
Arguments Ret {A} a.
Arguments Raise {A} e.
Arguments Diverge {A}.

Definition obind {A B} (o : outcome A) (k : A -> outcome B) : outcome B :=
  match o with
  | Ret a => k a
  | Raise e => Raise e
  | Diverge => Diverge
  end.

Notation "'let?' x := e 'in' k" := (obind e (fun x => k))
  (at level 10, x pattern, e at level 100, k at level 200).

(** ** Python primitives on JSON values *)

(** [bool(v)] *)
Definition truthy (v : json) : bool :=
  match v with
  | JNull => false
  | JBool b => b
  | JInt n => negb (n =? 0)
  | JStr s => negb (s =? "")%string
  | JList l => match l with [] => false | _ => true end
  | JDict d => match d with [] => false | _ => true end
  end.

(** [a or b] *)
Definition py_or (a b : json) : json := if truthy a then a else b.

Fixpoint dict_get (d : list (string * json)) (k : string) : option json :=
  match d with
  | [] => None
  | (k', v) :: d' => if (k' =? k)%string then Some v else dict_get d' k
  end.

(** [o.get(k, default)]: only a dict has the method. *)
Definition py_get (o : json) (k : string) (default : json) : outcome json :=
  match o with
  | JDict d => Ret (match dict_get d k with Some v => v | None => default end)
  | _ => Raise AttributeError
  end.

(** [v == s] for a string literal [s] *)
Definition eq_str (v : json) (s : string) : bool :=
  match v with
  | JStr t => (t =? s)%string
  | _ => false
  end.

(** The integer a number stands for ([True] is 1, [False] is 0). *)
Definition as_int (v : json) : option Z :=
  match v with
  | JInt n => Some n
  | JBool b => Some (if b then 1 else 0)
  | _ => None
  end.

(** [a == b].  Numbers and booleans compare by value, lists element by
    element, dicts as sets of bindings. *)
Fixpoint py_eq (a b : json) {struct a} : bool :=
  match a, b with
  | JNull, JNull => true
  | JStr s, JStr t => (s =? t)%string
  | JList l, JList m =>
      (fix eq_list (l m : list json) {struct l} : bool :=
         match l, m with
         | [], [] => true
         | x :: l', y :: m' => py_eq x y && eq_list l' m'
         | _, _ => false
         end) l m
  | JDict d, JDict e =>
      (List.length d =? List.length e)%nat &&
      (fix sub_dict (d : list (string * json)) {struct d} : bool :=
         match d with
         | [] => true
         | (k, v) :: d' =>
             match dict_get e k with
             | Some w => py_eq v w && sub_dict d'
             | None => false
             end
         end) d
  | _, _ =>
      match as_int a, as_int b with
      | Some x, Some y => x =? y
      | _, _ => false
      end
  end.

(** [a < b].  Strings compare by code points, numbers by value, lists
    lexicographically; any other pair is a [TypeError]. *)
Fixpoint py_lt (a b : json) {struct a} : outcome bool :=
  match a, b with
  | JStr s, JStr t => Ret (String.ltb s t)
  | JList l, JList m =>
      (fix lt_list (l m : list json) {struct l} : outcome bool :=
         match l, m with
         | [], [] => Ret false
         | [], _ :: _ => Ret true
         | _ :: _, [] => Ret false
         | x :: l', y :: m' => if py_eq x y then lt_list l' m' else py_lt x y
         end) l m
  | _, _ =>
      match as_int a, as_int b with
      | Some x, Some y => Ret (x <? y)
      | _, _ => Raise TypeError
      end
  end.

(** [a > b] is the reflected [b < a]. *)
Definition py_gt (a b : json) : outcome bool := py_lt b a.

(** ** Strings *)

Definition code (c : ascii) : N := N_of_ascii c.

(** [c.isspace()] for a code point below 256. *)
Definition is_space (c : ascii) : bool :=
  let n := code c in
  ((9 <=? n) && (n <=? 13) || (28 <=? n) && (n <=? 32)
   || (n =? 133) || (n =? 160))%N.

(** [c.lower()] for a code point below 256. *)
Definition lower_char (c : ascii) : ascii :=
  let n := code c in
  if ((65 <=? n) && (n <=? 90)
      || (192 <=? n) && (n <=? 222) && negb (n =? 215))%N
  then ascii_of_N (n + 32) else c.

Fixpoint lower (s : string) : string :=
  match s with
  | EmptyString => EmptyString
  | String c s' => String (lower_char c) (lower s')
  end.

Fixpoint lstrip (s : string) : string :=
  match s with
  | EmptyString => EmptyString
  | String c s' => if is_space c then lstrip s' else s
  end.

Fixpoint rstrip (s : string) : string :=
  match s with
  | EmptyString => EmptyString
  | String c s' =>
      match rstrip s' with
      | EmptyString => if is_space c then EmptyString else String c EmptyString
      | r => String c r
      end
  end.

(** [s.strip()] *)
Definition strip (s : string) : string := rstrip (lstrip s).

(** ** bot_detect.py *)

Module BotDetect.

Definition bot_names : list string := ["stale[bot]"; "vue-bot"].

Definition is_bot_name (s : string) : bool :=
  existsb (String.eqb s) bot_names.

(** [detect_bot_close(issue)] *)
Definition detect_bot_close (issue : json) : outcome bool :=
  match issue with
  | JDict _ =>
      let? closed_by := py_get issue "closed_by" JNull in
      match closed_by with
      | JDict _ =>
          let? username := py_get closed_by "username" JNull in
          let? uname :=
            (if truthy username then Ret username
             else py_get closed_by "login" JNull) in
          match uname with
          | JStr u => Ret (is_bot_name (lower (strip u)))
          | _ => Ret false
          end
      | _ => Ret false
      end
  | _ => Ret false
  end.

End BotDetect.

(** ** Timestamps *)

(** A [datetime.datetime] as [datetime.fromisoformat] builds it: a point in
    time, counted in seconds, either with a UTC offset ([aware], counted from
    the epoch in UTC) or without one (naive, counted on its own clock).
    GitHub's timestamps have a resolution of one second; sub-second
    timestamps are outside the model. *)
Record datetime : Type := mk_datetime { aware : bool; seconds : Z }.

(** [a < b]: comparing a naive with an aware datetime is a [TypeError]. *)
Definition dt_lt (a b : datetime) : outcome bool :=
  if Bool.eqb (aware a) (aware b) then Ret (seconds a <? seconds b)
  else Raise TypeError.

(** [(a - b).total_seconds()], with the same restriction. *)
Definition dt_diff (a b : datetime) : outcome Z :=
  if Bool.eqb (aware a) (aware b) then Ret (seconds a - seconds b)
  else Raise TypeError.

(** [s.replace("Z", "+00:00")] *)
Fixpoint replace_Z (s : string) : string :=
  match s with
  | EmptyString => EmptyString
  | String c s' =>
      if Ascii.eqb c "Z" then "+00:00" ++ replace_Z s'
      else String c (replace_Z s')
  end.

(** *** A parser for the timestamps GitHub emits

    [github_fromisoformat] reads [YYYY-MM-DDTHH:MM:SS], alone or followed by
    [+00:00], as [datetime.fromisoformat] does, and refuses every other
    string.  It instantiates the parser in the examples, which use only
    timestamps of that shape. *)

Definition digit (c : ascii) : option Z :=
  let n := code c in
  if ((48 <=? n) && (n <=? 57))%N then Some (Z.of_N n - 48) else None.

Fixpoint digits (cs : list ascii) (acc : Z) : option Z :=
  match cs with
  | [] => Some acc
  | c :: cs' =>
      match digit c with
      | Some d => digits cs' (10 * acc + d)
      | None => None
      end
  end.

Definition is_leap (y : Z) : bool :=
  (y mod 4 =? 0) && (negb (y mod 100 =? 0) || (y mod 400 =? 0)).

Definition days_in_month (y m : Z) : Z :=
  if m =? 2 then (if is_leap y then 29 else 28)
  else if (m =? 4) || (m =? 6) || (m =? 9) || (m =? 11) then 30
  else 31.

(** Days from 1970-01-01 to the given date of the proleptic Gregorian
    calendar. *)
Definition days_from_civil (y m d : Z) : Z :=
  let y' := if m <=? 2 then y - 1 else y in
  let era := y' / 400 in
  let yoe := y' - era * 400 in
  let doy := (153 * (if 2 <? m then m - 3 else m + 9) + 2) / 5 + d - 1 in
  let doe := yoe * 365 + yoe / 4 - yoe / 100 + doy in
  era * 146097 + doe - 719468.

Definition civil_seconds (y mo d h mi s : Z) : option Z :=
  if (1 <=? y) && (1 <=? mo) && (mo <=? 12) && (1 <=? d)
     && (d <=? days_in_month y mo) && (h <=? 23) && (mi <=? 59) && (s <=? 59)
  then Some (days_from_civil y mo d * 86400 + h * 3600 + mi * 60 + s)
  else None.

Definition github_fromisoformat (s : string) : option datetime :=
  match list_ascii_of_string s with
  | y1 :: y2 :: y3 :: y4 :: "-"%char :: m1 :: m2 :: "-"%char :: d1 :: d2
    :: "T"%char :: h1 :: h2 :: ":"%char :: i1 :: i2 :: ":"%char :: s1 :: s2
    :: offset =>
      match digits [y1; y2; y3; y4] 0, digits [m1; m2] 0, digits [d1; d2] 0,
            digits [h1; h2] 0, digits [i1; i2] 0, digits [s1; s2] 0 with
      | Some y, Some mo, Some d, Some h, Some mi, Some sec =>
          match civil_seconds y mo d h mi sec with
          | Some t =>
              match offset with
              | [] => Some (mk_datetime false t)
              | _ =>
                  if (string_of_list_ascii offset =? "+00:00")%string
                  then Some (mk_datetime true t) else None
              end
          | None => None
          end
      | _, _, _, _, _, _ => None
      end
  | _ => None
  end.

(** ** Sequences *)

(** [min(l, key=key)]: a left-to-right scan that keeps the first least
    element; the key of each element is computed when the scan reaches it. *)
Fixpoint min_scan (key : json -> outcome json) (best bestk : json)
    (l : list json) : outcome json :=
  match l with
  | [] => Ret best
  | x :: l' =>
      let? k := key x in
      let? b := py_lt k bestk in
      if b then min_scan key x k l' else min_scan key best bestk l'
  end.

Definition py_min (key : json -> outcome json) (l : list json) : outcome json :=
  match l with
  | [] => Raise ValueError
  | x :: l' => let? k := key x in min_scan key x k l'
  end.

(** [max(l, key=key)]: the same scan with [>], keeping the first greatest
    element. *)
Fixpoint max_scan (key : json -> outcome json) (best bestk : json)
    (l : list json) : outcome json :=
  match l with
  | [] => Ret best
  | x :: l' =>
      let? k := key x in
      let? b := py_gt k bestk in
      if b then max_scan key x k l' else max_scan key best bestk l'
  end.

Definition py_max (key : json -> outcome json) (l : list json) : outcome json :=
  match l with
  | [] => Raise ValueError
  | x :: l' => let? k := key x in max_scan key x k l'
  end.

(** [lambda e: e.get("created_at", "")], the key of every sort and scan. *)
Definition created_key (e : json) : outcome json :=
  py_get e "created_at" (JStr "").

(** [[e for e in events if e.get("event") == kind]] *)
Fixpoint events_of_kind (kind : string) (events : list json)
  : outcome (list json) :=
  match events with
  | [] => Ret []
  | e :: es =>
      let? k := py_get e "event" JNull in
      let? r := events_of_kind kind es in
      Ret (if eq_str k kind then e :: r else r)
  end.

(** [[f(x) for x in l]] for an [f] that can raise. *)
Fixpoint map_outcome {A B} (f : A -> outcome B) (l : list A)
  : outcome (list B) :=
  match l with
  | [] => Ret []
  | x :: l' =>
      let? y := f x in
      let? r := map_outcome f l' in
      Ret (y :: r)
  end.

(** [[x for x in l if p(x)]] for a [p] that can raise. *)
Fixpoint filter_outcome {A} (p : A -> outcome bool) (l : list A)
  : outcome (list A) :=
  match l with
  | [] => Ret []
  | x :: l' =>
      let? b := p x in
      let? r := filter_outcome p l' in
      Ret (if b then x :: r else r)
  end.

(** ** Issue metrics *)

(** The float [round(seconds / 86400, 2)], kept as the integer it is
    computed from. *)
Inductive days_float : Type := RoundedDays (of_seconds : Z).

Record timestamp_metrics : Type := mk_timestamp_metrics {
  time_to_close_seconds : option Z;
  time_to_first_comment_seconds : option Z;
  time_to_first_response_seconds : option Z;
  time_open_days : option days_float
}.

Record reopen_metrics : Type := mk_reopen_metrics {
  was_reopened : bool;
  reopen_count : nat;
  time_to_reopen_seconds : option Z;
  final_resolution_time_seconds : option Z;
  reopen_timestamps : list json
}.

Section Timestamps.

(** [datetime.fromisoformat]: [None] stands for its [ValueError]. *)
Variable fromisoformat : string -> option datetime.

(** [parse_timestamp(iso_string)] *)
Definition parse_timestamp (iso_string : json) : outcome (option datetime) :=
  if negb (truthy iso_string) then Ret None
  else
    match iso_string with
    | JStr s =>
        match fromisoformat (replace_Z s) with
        | Some t => Ret (Some t)
        | None => Raise ValueError
        end
    | _ => Raise AttributeError
    end.

(** [calculate_time_diff(start_time, end_time)].  A [datetime] is always
    true, so [not start or not end] asks whether one of them is [None]. *)
Definition calculate_time_diff (start_time end_time : json)
  : outcome (option Z) :=
  let? start := parse_timestamp start_time in
  let? end_ := parse_timestamp end_time in
  match start, end_ with
  | Some s, Some e => let? d := dt_diff e s in Ret (Some d)
  | _, _ => Ret None
  end.

(** [c.get("user", {}).get("login")] *)
Definition user_login (c : json) : outcome json :=
  let? user := py_get c "user" (JDict []) in
  py_get user "login" JNull.

(** [calculate_timestamps(issue, comments)] *)
Definition calculate_timestamps (issue : json) (comments : list json)
  : outcome timestamp_metrics :=
  let? created_at := py_get issue "created_at" JNull in
  let? closed_at := py_get issue "closed_at" JNull in
  (* Time to close *)
  let? close :=
    (if truthy created_at && truthy closed_at then
       let? d := calculate_time_diff created_at closed_at in
       match d with
       | Some s => Ret (Some s, Some (RoundedDays s))
       | None => Raise TypeError
       end
     else Ret (None, None)) in
  (* Time to first comment (any comment) *)
  let? first_comment_time :=
    (match comments with
     | _ :: _ =>
         if truthy created_at then
           let? first_comment := py_min created_key comments in
           let? t := py_get first_comment "created_at" JNull in
           calculate_time_diff created_at t
         else Ret None
     | [] => Ret None
     end) in
  (* Time to first response (comment from someone other than the author) *)
  let? first_response_time :=
    (match comments with
     | _ :: _ =>
         if truthy created_at then
           let? author_username := user_login issue in
           let? other_comments :=
             filter_outcome
               (fun c => let? login := user_login c in
                         Ret (negb (py_eq login author_username)))
               comments in
           match other_comments with
           | _ :: _ =>
               let? first_response := py_min created_key other_comments in
               let? t := py_get first_response "created_at" JNull in
               calculate_time_diff created_at t
           | [] => Ret None
           end
         else Ret None
     | [] => Ret None
     end) in
  Ret {| time_to_close_seconds := fst close;
         time_to_first_comment_seconds := first_comment_time;
         time_to_first_response_seconds := first_response_time;
         time_open_days := snd close |}.

(** [calculate_reopen_metrics(issue, events)] *)
Definition calculate_reopen_metrics (issue : json) (events : list json)
  : outcome reopen_metrics :=
  let? closed_events := events_of_kind "closed" events in
  let? reopened_events := events_of_kind "reopened" events in
  match reopened_events with
  | [] => Ret {| was_reopened := false; reopen_count := 0;
                 time_to_reopen_seconds := None;
                 final_resolution_time_seconds := None;
                 reopen_timestamps := [] |}
  | _ :: _ =>
      let? stamps :=
        map_outcome (fun e => py_get e "created_at" JNull) reopened_events in
      (* Time to first reopen (from first close to first reopen) *)
      let? to_reopen :=
        (match closed_events with
         | _ :: _ =>
             let? first_close := py_min created_key closed_events in
             let? first_reopen := py_min created_key reopened_events in
             let? t_close := py_get first_close "created_at" JNull in
             let? t_reopen := py_get first_reopen "created_at" JNull in
             calculate_time_diff t_close t_reopen
         | [] => Ret None
         end) in
      (* Final resolution time, if currently closed *)
      let? state := py_get issue "state" JNull in
      let? final :=
        (if eq_str state "closed" then
           let? created_at := py_get issue "created_at" JNull in
           let? closed_at := py_get issue "closed_at" JNull in
           if truthy created_at && truthy closed_at
           then calculate_time_diff created_at closed_at
           else Ret None
         else Ret None) in
      Ret {| was_reopened := true;
             reopen_count := List.length reopened_events;
             time_to_reopen_seconds := to_reopen;
             final_resolution_time_seconds := final;
             reopen_timestamps := stamps |}
  end.

End Timestamps.

(** ** More Python primitives *)

(** The elements [for x in v] goes through: those of a list, the keys of a
    dict, the characters of a string. *)
Definition py_iter (v : json) : outcome (list json) :=
  match v with
  | JList l => Ret l
  | JDict d => Ret (map (fun kv => JStr (fst kv)) d)
  | JStr s => Ret (map (fun c => JStr (String c EmptyString))
                       (list_ascii_of_string s))
  | _ => Raise TypeError
  end.

(** [len(v)] *)
Definition py_len (v : json) : outcome Z :=
  match v with
  | JList l => Ret (Z.of_nat (List.length l))
  | JDict d => Ret (Z.of_nat (List.length d))
  | JStr s => Ret (Z.of_nat (String.length s))
  | _ => Raise TypeError
  end.

(** [v[0]] *)
Definition py_index0 (v : json) : outcome json :=
  match v with
  | JList (x :: _) => Ret x
  | JList [] => Raise IndexError
  | JStr (String c _) => Ret (JStr (String c EmptyString))
  | JStr EmptyString => Raise IndexError
  | JDict _ => Raise KeyError
  | _ => Raise TypeError
  end.

(** [v[:7]] is evaluated for a log line only; what matters is whether it
    raises. *)
Definition py_slice_check (v : json) : outcome unit :=
  match v with
  | JStr _ | JList _ => Ret tt
  | _ => Raise TypeError
  end.

(** [a + b] *)
Definition py_add (a b : json) : outcome json :=
  match a, b with
  | JStr s, JStr t => Ret (JStr (s ++ t)%string)
  | JList l, JList m => Ret (JList (l ++ m)%list)
  | _, _ =>
      match as_int a, as_int b with
      | Some x, Some y => Ret (JInt (x + y))
      | _, _ => Raise TypeError
      end
  end.

(** [s.add(v)] on a set kept in insertion order: lists and dicts cannot be
    hashed. *)
Definition set_add (s : list json) (v : json) : outcome (list json) :=
  match v with
  | JList _ | JDict _ => Raise TypeError
  | _ => Ret (if existsb (py_eq v) s then s else (s ++ [v])%list)
  end.

Definition comparable (a b : json) : bool :=
  match py_lt a b, py_lt b a with
  | Ret _, Ret _ => true
  | _, _ => false
  end.

Fixpoint all_comparable (ks : list json) : bool :=
  match ks with
  | [] => true
  | k :: ks' => forallb (comparable k) ks' && all_comparable ks'
  end.

Definition lt_bool (a b : json) : bool :=
  match py_lt a b with
  | Ret true => true
  | _ => false
  end.

(** Insertion of an element that came before those of [l] in the input:
    it goes in front of the elements with an equal key. *)
Fixpoint insert_sorted (reverse : bool) (x : json * json)
    (l : list (json * json)) : list (json * json) :=
  match l with
  | [] => [x]
  | y :: l' =>
      if (if reverse then lt_bool (fst x) (fst y) else lt_bool (fst y) (fst x))
      then y :: insert_sorted reverse x l'
      else x :: l
  end.

(** [sorted(l, key=key, reverse=reverse)]: the keys are computed first, the
    sort is stable in both directions.  The comparisons that CPython's sort
    makes are not modelled one by one: the model raises [TypeError] when two
    keys of the list cannot be ordered, which is what CPython does for keys
    that are strings, numbers or [None]. *)
Definition py_sorted (key : json -> outcome json) (reverse : bool)
    (l : list json) : outcome (list json) :=
  let? keyed := map_outcome (fun x => let? k := key x in Ret (k, x)) l in
  if all_comparable (map fst keyed)
  then Ret (map snd (fold_right (insert_sorted reverse) [] keyed))
  else Raise TypeError.

(** [s.rstrip('/')] *)
Fixpoint rstrip_slash (s : string) : string :=
  match s with
  | EmptyString => EmptyString
  | String c s' =>
      match rstrip_slash s' with
      | EmptyString =>
          if Ascii.eqb c "/" then EmptyString else String c EmptyString
      | r => String c r
      end
  end.

(** [s.split('/')] *)
Fixpoint split_slash (s : string) : list string :=
  match s with
  | EmptyString => [EmptyString]
  | String c s' =>
      if Ascii.eqb c "/" then EmptyString :: split_slash s'
      else
        match split_slash s' with
        | seg :: rest => String c seg :: rest
        | [] => [String c EmptyString]
        end
  end.

(** ** The network *)

(** A request stands for one call of [fetch], on the URL the program
    formats:
    - [GetPull o r n]: [repos/{o}/{r}/pulls/{n}]
    - [GetPullReviews o r n p]: [repos/{o}/{r}/pulls/{n}/reviews?per_page=100&page={p}]
    - [GetCommit o r sha]: [repos/{o}/{r}/commits/{sha}]
    - [GetCommitPulls o r sha]: [repos/{o}/{r}/commits/{sha}/pulls] *)
Inductive request : Type :=
| GetPull (owner repo : string) (pr_number : json)
| GetPullReviews (owner repo : string) (pr_number : json) (page : Z)
| GetCommit (owner repo : string) (commit_sha : json)
| GetCommitPulls (owner repo : string) (commit_sha : json).

(** The state is the list of the calls of [fetch] made so far, oldest
    first.  The HTTP requests one call sends -- one, or more when the API
    answers with a rate limit -- are not told apart. *)
Definition trace : Type := list request.

Definition M (A : Type) : Type := trace -> outcome A * trace.

Definition ret {A} (a : A) : M A := fun tr => (Ret a, tr).

Definition bind {A B} (m : M A) (k : A -> M B) : M B :=
  fun tr =>
    match m tr with
    | (Ret a, tr') => k a tr'
    | (Raise e, tr') => (Raise e, tr')
    | (Diverge, tr') => (Diverge, tr')
    end.

Definition lift {A} (o : outcome A) : M A := fun tr => (o, tr).

(** [try: m  except Exception: handler] *)
Definition try_except {A} (m : M A) (handler : exn -> M A) : M A :=
  fun tr =>
    match m tr with
    | (Raise e, tr') => handler e tr'
    | r => r
    end.

Notation "'let*' x := e 'in' k" := (bind e (fun x => k))
  (at level 10, x pattern, e at level 100, k at level 200).

(** What a [return] or a [continue] inside a strategy does to the function:
    [Done r] returns [r], [Next] goes on. *)
Inductive flow (A : Type) : Type :=
| Next
| Done (result : A).
Arguments Next {A}.
Arguments Done {A} result.

(** [for x in l: body(x)] where the body may return from the function. *)
Fixpoint for_each {A} (body : json -> M (flow A)) (l : list json)
  : M (flow A) :=
  match l with
  | [] => ret Next
  | x :: l' =>
      let* r := body x in
      match r with
      | Done v => ret (Done v)
      | Next => for_each body l'
      end
  end.

(** The verdict of the checks every fetched pull request goes through:
    [Unchecked] when the request is not merged or a timestamp is not there
    (no check applies and the code runs on), [TooEarly] when it was merged
    before the issue was created, [TooFar] when it was merged too far from
    the time the issue was closed, [Valid] otherwise. *)
Inductive verdict : Type := Unchecked | TooEarly | TooFar | Valid.

(** The counters of the review loop of [extract_pr_metrics]. *)
Record review_tally : Type := mk_review_tally {
  reviewers : list json;
  approved : Z;
  changes_requested : Z;
  commented : Z;
  dismissed : Z
}.

Fixpoint fold_outcome {A B} (f : A -> B -> outcome A) (acc : A) (l : list B)
  : outcome A :=
  match l with
  | [] => Ret acc
  | x :: l' => let? acc' := f acc x in fold_outcome f acc' l'
  end.

Section Resolver.

Variable fromisoformat : string -> option datetime.

(** What a call of [fetch] ends with, given the calls made before it: the
    decoded body it returns, the exception it raises, or nothing when it
    never returns. *)
Variable net : trace -> request -> outcome json.

(** The number of pages after which a paginated listing is given up as
    endless. *)
Variable max_pages : nat.

(** [fetch(url)], seen from its caller: the call is recorded and the
    oracle tells how it ends.  The loop inside [fetch], which sleeps and
    asks again while the API answers with a rate limit, is the business of
    the oracle: the trace has one entry for the call, however many requests
    it took. *)
Definition fetch (req : request) : M json :=
  fun tr => (net tr req, (tr ++ [req])%list).

(** The [while True] loop of [fetch_paginated(url)]. *)
Fixpoint fetch_pages (fuel : nat) (url : Z -> request) (page : Z)
    (items : list json) : M (list json) :=
  match fuel with
  | O => lift Diverge
  | S fuel' =>
      let* data := fetch (url page) in
      if negb (truthy data) then ret items
      else
        let* more := lift (py_iter data) in
        let* n := lift (py_len data) in
        if n <? 100 then ret (items ++ more)%list
        else fetch_pages fuel' url (page + 1) (items ++ more)%list
  end.

Definition fetch_paginated (url : Z -> request) : M (list json) :=
  fetch_pages max_pages url 1 [].

(** [fetch_commit_details(owner, repo, commit_sha)] *)
Definition fetch_commit_details (owner repo : string) (commit_sha : json)
  : M json :=
  try_except (fetch (GetCommit owner repo commit_sha)) (fun _ => ret JNull).

(** [fetch_pr_details(owner, repo, pr_number)]: a 404 is skipped silently,
    any other exception with a log line; both give [None]. *)
Definition fetch_pr_details (owner repo : string) (pr_number : json)
  : M json :=
  try_except (fetch (GetPull owner repo pr_number)) (fun _ => ret JNull).

(** [fetch_pr_reviews(owner, repo, pr_number)] *)
Definition fetch_pr_reviews (owner repo : string) (pr_number : json)
  : M (list json) :=
  try_except (fetch_paginated (GetPullReviews owner repo pr_number))
             (fun _ => ret []).

(** The body of [for review in reviews] in [extract_pr_metrics]. *)
Definition count_review (acc : review_tally) (review : json)
  : outcome review_tally :=
  let? reviewer_username := user_login review in
  let? rs := (if truthy reviewer_username
              then set_add (reviewers acc) reviewer_username
              else Ret (reviewers acc)) in
  let? st := py_get review "state" (JStr "") in
  match st with
  | JStr s =>
      let state := lower s in
      let bump (name : string) (n : Z) :=
        if (state =? name)%string then n + 1 else n in
      Ret {| reviewers := rs;
             approved := bump "approved" (approved acc);
             changes_requested :=
               bump "changes_requested" (changes_requested acc);
             commented := bump "commented" (commented acc);
             dismissed := bump "dismissed" (dismissed acc) |}
  | _ => Raise AttributeError
  end.

(** [{"username": p.get("login"), "id": ..., "name": ..., "email": ...}] *)
Definition person_of (p : json) : outcome json :=
  let? login := py_get p "login" JNull in
  let? id := py_get p "id" JNull in
  let? name := py_get p "name" JNull in
  let? email := py_get p "email" JNull in
  Ret (JDict [("username", login); ("id", id); ("name", name);
              ("email", email)]).

(** What [extract_pr_metrics] computes once the pull request and its
    reviews are fetched. *)
Definition pr_metrics_of (pr_data : json) (reviews : list json)
  : outcome json :=
  let? tally := fold_outcome count_review
                  (mk_review_tally [] 0 0 0 0) reviews in
  let? user := py_get pr_data "user" JNull in
  let pr_author := py_or user (JDict []) in
  let? merged_by_field := py_get pr_data "merged_by" JNull in
  let merged_by := py_or merged_by_field (JDict []) in
  let? number := py_get pr_data "number" JNull in
  let? title := py_get pr_data "title" JNull in
  let? html_url := py_get pr_data "html_url" JNull in
  let? merged_at := py_get pr_data "merged_at" JNull in
  let? created_at := py_get pr_data "created_at" JNull in
  let? updated_at := py_get pr_data "updated_at" JNull in
  let? closed_at := py_get pr_data "closed_at" JNull in
  let? state := py_get pr_data "state" JNull in
  let? body := py_get pr_data "body" JNull in
  let? author := person_of pr_author in
  let? merger := (if truthy merged_by then person_of merged_by
                  else Ret JNull) in
  let? commits := py_get pr_data "commits" JNull in
  let? additions := py_get pr_data "additions" JNull in
  let? deletions := py_get pr_data "deletions" JNull in
  let? total_changes :=
    py_add (py_or additions (JInt 0)) (py_or deletions (JInt 0)) in
  let? changed_files := py_get pr_data "changed_files" JNull in
  let? review_comments := py_get pr_data "review_comments" JNull in
  let? comments := py_get pr_data "comments" JNull in
  let? reviewer_usernames :=
    py_sorted (fun v => Ret v) false (reviewers tally) in
  let? head := py_get pr_data "head" (JDict []) in
  let? head_ref := py_get head "ref" JNull in
  let? base := py_get pr_data "base" (JDict []) in
  let? base_ref := py_get base "ref" JNull in
  let? head_sha := py_get head "sha" JNull in
  let? merge_commit_sha := py_get pr_data "merge_commit_sha" JNull in
  Ret (JDict [
    ("number", number);
    ("title", title);
    ("html_url", html_url);
    ("merged", JBool (truthy merged_at));
    ("merged_at", merged_at);
    ("created_at", created_at);
    ("updated_at", updated_at);
    ("closed_at", closed_at);
    ("state", state);
    ("body", body);
    ("author", author);
    ("merged_by", merger);
    ("commits", commits);
    ("additions", additions);
    ("deletions", deletions);
    ("total_changes", total_changes);
    ("changed_files", changed_files);
    ("files_changed", changed_files);
    ("review_comments", review_comments);
    ("comments", comments);
    ("unique_reviewers", JInt (Z.of_nat (List.length (reviewers tally))));
    ("reviewer_usernames", JList reviewer_usernames);
    ("total_reviews", JInt (Z.of_nat (List.length reviews)));
    ("approved_count", JInt (approved tally));
    ("changes_requested_count", JInt (changes_requested tally));
    ("commented_count", JInt (commented tally));
    ("head_ref", head_ref);
    ("base_ref", base_ref);
    ("head_sha", head_sha);
    ("merge_commit_sha", merge_commit_sha)]).

(** [extract_pr_metrics(owner, repo, pr_number)] *)
Definition extract_pr_metrics (owner repo : string) (pr_number : json)
  : M json :=
  let* pr_data := fetch_pr_details owner repo pr_number in
  if negb (truthy pr_data) then ret JNull
  else
    let* reviews := fetch_pr_reviews owner repo pr_number in
    lift (pr_metrics_of pr_data reviews).

(** What [extract_commit_metrics] computes once the commit is fetched. *)
Definition commit_metrics_of (commit_data : json) : outcome json :=
  let? stats := py_get commit_data "stats" (JDict []) in
  let? commit := py_get commit_data "commit" (JDict []) in
  let? author := py_get commit "author" (JDict []) in
  let? committer := py_get commit "committer" (JDict []) in
  let? sha := py_get commit_data "sha" JNull in
  let? message := py_get commit "message" JNull in
  let? html_url := py_get commit_data "html_url" JNull in
  let? author_user := py_get commit_data "author" (JDict []) in
  let? author_login := py_get author_user "login" JNull in
  let? author_name := py_get author "name" JNull in
  let? author_email := py_get author "email" JNull in
  let? author_date := py_get author "date" JNull in
  let? committer_user := py_get commit_data "committer" (JDict []) in
  let? committer_login := py_get committer_user "login" JNull in
  let? committer_name := py_get committer "name" JNull in
  let? committer_email := py_get committer "email" JNull in
  let? committer_date := py_get committer "date" JNull in
  let? additions := py_get stats "additions" JNull in
  let? deletions := py_get stats "deletions" JNull in
  let? total := py_get stats "total" JNull in
  let? files := py_get commit_data "files" (JList []) in
  let? files_changed := py_len files in
  Ret (JDict [
    ("sha", sha);
    ("message", message);
    ("html_url", html_url);
    ("author", JDict [("username", author_login); ("name", author_name);
                      ("email", author_email); ("date", author_date)]);
    ("committer", JDict [("username", committer_login);
                         ("name", committer_name);
                         ("email", committer_email);
                         ("date", committer_date)]);
    ("additions", additions);
    ("deletions", deletions);
    ("total_changes", total);
    ("files_changed", JInt files_changed)]).

(** [extract_commit_metrics(owner, repo, commit_sha)] *)
Definition extract_commit_metrics (owner repo : string) (commit_sha : json)
  : M json :=
  let* commit_data := fetch_commit_details owner repo commit_sha in
  if negb (truthy commit_data) then ret JNull
  else lift (commit_metrics_of commit_data).

(** The checks applied to the metrics of a fetched pull request; the source
    spells them out in each strategy, with [limit] 86400 in the first and
    604800 in the others:
<<
    if pr_metrics and pr_metrics.get("merged"):
        pr_merged_time = parse_timestamp(pr_metrics.get("merged_at"))
        if pr_merged_time and issue_created_time and issue_closed_time:
            if pr_merged_time < issue_created_time: ...
            time_diff = abs((pr_merged_time - issue_closed_time).total_seconds())
            if time_diff > limit: ...
>> *)
Definition validate_pr (limit : Z) (pr_metrics : json)
    (issue_created_time issue_closed_time : option datetime)
  : outcome verdict :=
  if truthy pr_metrics then
    let? merged := py_get pr_metrics "merged" JNull in
    if truthy merged then
      let? merged_at := py_get pr_metrics "merged_at" JNull in
      let? pr_merged_time := parse_timestamp fromisoformat merged_at in
      match pr_merged_time, issue_created_time, issue_closed_time with
      | Some merged_time, Some created_time, Some closed_time =>
          let? before := dt_lt merged_time created_time in
          if before then Ret TooEarly
          else
            let? diff := dt_diff merged_time closed_time in
            if Z.abs diff >? limit then Ret TooFar else Ret Valid
      | _, _, _ => Ret Unchecked
      end
    else Ret Unchecked
  else Ret Unchecked.

(** The pull request an event points to through its source:
<<
    source = event.get("source", {})
    if source.get("type") == "issue":
        pr_number = source.get("issue", {}).get("number")
        if pr_number:
>>
    [Some pr_number] when both tests pass. *)
Definition source_pr (event : json) : outcome (option json) :=
  let? source := py_get event "source" (JDict []) in
  let? type := py_get source "type" JNull in
  if eq_str type "issue" then
    let? issue := py_get source "issue" (JDict []) in
    let? pr_number := py_get issue "number" JNull in
    Ret (if truthy pr_number then Some pr_number else None)
  else Ret None.

Section Issue.

Variables owner repo : string.
Variables issue_created_time issue_closed_time : option datetime.

(** Fetch a candidate and check it. *)
Definition check_pr (limit : Z) (pr_number : json) : M (json * verdict) :=
  let* pr_metrics := extract_pr_metrics owner repo pr_number in
  let* v := lift (validate_pr limit pr_metrics
                    issue_created_time issue_closed_time) in
  ret (pr_metrics, v).

(** Strategy 1: the source of the closed event, within one day. *)
Definition strategy1 (closed_event : json) : M (flow (json * json)) :=
  let* src := lift (source_pr closed_event) in
  match src with
  | Some pr_number =>
      let* c := check_pr 86400 pr_number in
      match snd c with
      | Valid => ret (Done (fst c, JNull))
      | _ => ret Next
      end
  | None => ret Next
  end.

(** The body of the loop of strategy 2; every rejection is a [continue]. *)
Definition strategy2_event (ref_event : json) : M (flow (json * json)) :=
  let* src := lift (source_pr ref_event) in
  match src with
  | Some pr_number =>
      let* c := check_pr 604800 pr_number in
      match snd c with
      | Valid => ret (Done (fst c, JNull))
      | _ => ret Next
      end
  | None => ret Next
  end.

(** Strategy 2: the cross-referenced events, latest first. *)
Definition strategy2 (events : list json) : M (flow (json * json)) :=
  let* cross_ref_events := lift (events_of_kind "cross-referenced" events) in
  let* ordered := lift (py_sorted created_key true cross_ref_events) in
  for_each strategy2_event ordered.

(** The commit-based lookup of strategy 3, a [try] whose handler is
    [continue]. *)
Definition strategy3_commit (ref_event : json) : M (flow (json * json)) :=
  let* ref_commit_id := lift (py_get ref_event "commit_id" JNull) in
  if truthy ref_commit_id then
    try_except
      (let* prs := fetch (GetCommitPulls owner repo ref_commit_id) in
       if truthy prs then
         let* first := lift (py_index0 prs) in
         let* pr_number := lift (py_get first "number" JNull) in
         let* c := check_pr 604800 pr_number in
         match snd c with
         | Valid => ret (Done (fst c, JNull))
         | _ => ret Next
         end
       else ret Next)
      (fun _ => ret Next)
  else ret Next.

(** The body of the loop of strategy 3: a candidate rejected for its merge
    time is a [continue]; in every other case that does not return, the
    code runs on into the commit-based lookup. *)
Definition strategy3_event (ref_event : json) : M (flow (json * json)) :=
  let* src := lift (source_pr ref_event) in
  match src with
  | Some pr_number =>
      let* c := check_pr 604800 pr_number in
      match snd c with
      | Valid => ret (Done (fst c, JNull))
      | TooEarly | TooFar => ret Next
      | Unchecked => strategy3_commit ref_event
      end
  | None => strategy3_commit ref_event
  end.

(** Strategy 3: the referenced events, latest first. *)
Definition strategy3 (events : list json) : M (flow (json * json)) :=
  let* referenced_events := lift (events_of_kind "referenced" events) in
  let* ordered := lift (py_sorted created_key true referenced_events) in
  for_each strategy3_event ordered.

(** The commit the closed event names:
<<
    commit_sha = closed_event.get("commit_id")
    commit_url = closed_event.get("commit_url")
    if not commit_sha and commit_url:
        parts = commit_url.rstrip('/').split('/')
        if len(parts) > 0:
            commit_sha = parts[-1]
>> *)
Definition closing_commit_sha (closed_event : json) : outcome json :=
  let? commit_sha := py_get closed_event "commit_id" JNull in
  let? commit_url := py_get closed_event "commit_url" JNull in
  if negb (truthy commit_sha) && truthy commit_url then
    match commit_url with
    | JStr u =>
        let parts := split_slash (rstrip_slash u) in
        if 0 <? Z.of_nat (List.length parts)
        then Ret (JStr (last parts EmptyString))
        else Ret commit_sha
    | _ => Raise AttributeError
    end
  else Ret commit_sha.

(** Strategy 4: the commit of the closed event, up to the final
    [return None, None]. *)
Definition strategy4 (closed_event : json) : M (json * json) :=
  let* commit_sha := lift (closing_commit_sha closed_event) in
  if truthy commit_sha then
    try_except
      (let* prs := fetch (GetCommitPulls owner repo commit_sha) in
       if truthy prs then
         let* first := lift (py_index0 prs) in
         let* pr_number := lift (py_get first "number" JNull) in
         let* c := check_pr 604800 pr_number in
         match snd c with
         | Valid => ret (fst c, JNull)
         | TooEarly | TooFar => ret (JNull, JNull)
         | Unchecked => ret (JNull, JNull)
         end
       else
         let* _ := lift (py_slice_check commit_sha) in
         let* commit_metrics := extract_commit_metrics owner repo commit_sha in
         ret (JNull, commit_metrics))
      (fun _ => ret (JNull, JNull))
  else ret (JNull, JNull).

End Issue.

(** [find_closing_method(owner, repo, issue_number, issue_created_at,
    issue_closed_at, events)] *)
Definition find_closing_method (owner repo : string) (issue_number : json)
    (issue_created_at issue_closed_at : json) (events : list json)
  : M (json * json) :=
  if negb (truthy issue_closed_at) then ret (JNull, JNull)
  else
    let* issue_created_time :=
      lift (parse_timestamp fromisoformat issue_created_at) in
    let* issue_closed_time :=
      lift (parse_timestamp fromisoformat issue_closed_at) in
    let* closed_events := lift (events_of_kind "closed" events) in
    match closed_events with
    | [] => ret (JNull, JNull)
    | _ :: _ =>
        let* closed_event := lift (py_max created_key closed_events) in
        let* r1 := strategy1 owner repo issue_created_time issue_closed_time
                     closed_event in
        match r1 with
        | Done r => ret r
        | Next =>
            let* r2 := strategy2 owner repo issue_created_time
                         issue_closed_time events in
            match r2 with
            | Done r => ret r
            | Next =>
                let* r3 := strategy3 owner repo issue_created_time
                             issue_closed_time events in
                match r3 with
                | Done r => ret r
                | Next =>
                    strategy4 owner repo issue_created_time
                      issue_closed_time closed_event
                end
            end
        end
    end.

(** The part of [build_output(row)] that fills [closing_pr] and
    [closing_commit]:
<<
    closing_pr = None
    closing_commit = None
    if issue.get("state") == "closed":
        closing_pr, closing_commit = find_closing_method(
            owner, repo, number,
            issue.get("created_at"), issue.get("closed_at"), events)
>> *)
Definition build_output_closing (owner repo : string) (number : json)
    (issue : json) (events : list json) : M (json * json) :=
  let* state := lift (py_get issue "state" JNull) in
  if eq_str state "closed" then
    let* created_at := lift (py_get issue "created_at" JNull) in
    let* closed_at := lift (py_get issue "closed_at" JNull) in
    find_closing_method owner repo number created_at closed_at events
  else ret (JNull, JNull).

End Resolver.

From Stdlib Require OrderedTypeEx DecimalString.

(** ** bot_detect.py: the loop of [main] *)

(** [d[k] = v] on a dict: the value of an existing key is replaced where it
    stands, a new key goes to the end. *)
Fixpoint dict_set (d : list (string * json)) (k : string) (v : json)
  : list (string * json) :=
  match d with
  | [] => [(k, v)]
  | (k', v') :: d' =>
      if (k' =? k)%string then (k, v) :: d'
      else (k', v') :: dict_set d' k v
  end.

(** [o[k] = v] for a string [k]: a list wants an integer index, and nothing
    else among the JSON values takes an assignment. *)
Definition py_setitem (o : json) (k : string) (v : json) : outcome json :=
  match o with
  | JDict d => Ret (JDict (dict_set d k v))
  | _ => Raise TypeError
  end.

(** [o[k]] for a string [k]. *)
Definition py_getitem (o : json) (k : string) : outcome json :=
  match o with
  | JDict d =>
      match dict_get d k with
      | Some v => Ret v
      | None => Raise KeyError
      end
  | _ => Raise TypeError
  end.

Module BotMain.
Import BotDetect.

(** What the loop of [main] has done so far: the records written to the
    output file, oldest first, and the two counters. *)
Record progress : Type := mk_progress {
  written : list json;
  count : Z;
  true_count : Z
}.

(** The body of the loop for a line that [json.loads] decoded:
<<
    issue["is_bot_close"] = detect_bot_close(issue)
    if issue["is_bot_close"]:
        true_count += 1
    count += 1
    outfile.write(json.dumps(issue, ensure_ascii=False) + "\n")
>> *)
Definition flag_issue (issue : json) : outcome json :=
  let? flag := detect_bot_close issue in
  py_setitem issue "is_bot_close" (JBool flag).

Definition process_issue (p : progress) (issue : json) : outcome progress :=
  let? flagged := flag_issue issue in
  let? flag := py_getitem flagged "is_bot_close" in
  Ret {| written := (written p ++ [flagged])%list;
         count := count p + 1;
         true_count := if truthy flag then true_count p + 1
                       else true_count p |}.

(** The loop over the lines of the input file, for an input on which
    [json.loads] returns or raises [JSONDecodeError] and whose records can
    all be written: a line is the value [json.loads] gives, or [None] when
    it raises [JSONDecodeError] (the line is skipped).  An exception ends
    the run: what was written before it stays written.  [run_lines] below
    is the loop on any input. *)
Fixpoint process_lines (p : progress) (lines : list (option json))
  : progress * option exn :=
  match lines with
  | [] => (p, None)
  | None :: rest => process_lines p rest
  | Some issue :: rest =>
      match process_issue p issue with
      | Ret p' => process_lines p' rest
      | Raise e => (p, Some e)
      | Diverge => (p, None)
      end
  end.

Definition main_loop (lines : list (option json)) : progress * option exn :=
  process_lines (mk_progress [] 0 0) lines.

(** What [json.loads(line)] does with a line of the input: it returns a
    value, it raises [JSONDecodeError], or it raises something else -- the
    [ValueError] of an integer of more than 4300 digits, a
    [RecursionError] -- which the [except] clause does not catch. *)
Inductive loaded : Type :=
| Decoded (issue : json)
| Invalid
| Unloadable.

(** How the loop ends: the input is exhausted, the assignment of the flag
    raises, [json.loads] raises something else than [JSONDecodeError], or
    the record cannot be written. *)
Inductive ending : Type :=
| Finished
| IssueRaised (e : exn)
| LoadsRaised
| WriteRaised.

(** The body of the loop up to the write: the record with its flag, and
    the counters. *)
Definition count_issue (p : progress) (issue : json)
  : outcome (json * progress) :=
  let? flagged := flag_issue issue in
  let? flag := py_getitem flagged "is_bot_close" in
  Ret (flagged,
       {| written := written p;
          count := count p + 1;
          true_count := if truthy flag then true_count p + 1
                        else true_count p |}).

Section Run.

(** Whether [outfile.write(json.dumps(issue, ensure_ascii=False) + "\n")]
    goes through: [json.dumps] raises [ValueError] on an integer too long
    to print, and the write [UnicodeEncodeError] on a string that UTF-8
    cannot encode. *)
Variable writable : json -> bool.

(** The loop of [main] on any input.  The counters are advanced before the
    write (the [Diverge] case does not arise: the flag is always
    computed). *)
Fixpoint run_lines (p : progress) (lines : list loaded)
  : progress * ending :=
  match lines with
  | [] => (p, Finished)
  | Invalid :: rest => run_lines p rest
  | Unloadable :: _ => (p, LoadsRaised)
  | Decoded issue :: rest =>
      match count_issue p issue with
      | Ret (flagged, counted) =>
          if writable flagged then
            run_lines {| written := (written counted ++ [flagged])%list;
                         count := count counted;
                         true_count := true_count counted |} rest
          else (counted, WriteRaised)
      | Raise e => (p, IssueRaised e)
      | Diverge => (p, Finished)
      end
  end.


End Run.

End BotMain.

(** ** harvest_data.py: URLs *)

(** [l[-k]] for [k >= 1]. *)
Definition py_index_from_end {A} (l : list A) (k : nat) : outcome A :=
  match nth_error (rev l) (k - 1) with
  | Some x => Ret x
  | None => Raise IndexError
  end.

Definition is_digit (c : ascii) : bool :=
  let n := code c in ((48 <=? n) && (n <=? 57))%N.

(** The digits of a decimal literal, underscores dropped; [None] when an
    underscore is not between two digits or a character is neither.
    [after_digit] tells whether the character before was a digit. *)
Fixpoint literal_digits (after_digit : bool) (cs : list ascii)
  : option (list ascii) :=
  match cs with
  | [] => if after_digit then Some [] else None
  | c :: cs' =>
      if is_digit c then
        match literal_digits true cs' with
        | Some ds => Some (c :: ds)
        | None => None
        end
      else if Ascii.eqb c "_" && after_digit then
        match cs' with
        | d :: _ => if is_digit d then literal_digits false cs' else None
        | [] => None
        end
      else None
  end.

(** The whitespace [int] drops around a literal: the six ASCII characters
    of C's [isspace], and the two spaces above 127 (U+0085, U+00A0), which
    are turned into blanks first.  The separators U+001C to U+001F, which
    [str.strip] drops, are not among them. *)
Definition is_int_space (c : ascii) : bool :=
  let n := code c in
  ((9 <=? n) && (n <=? 13) || (n =? 32) || (n =? 133) || (n =? 160))%N.

Fixpoint int_lstrip (s : string) : string :=
  match s with
  | EmptyString => EmptyString
  | String c s' => if is_int_space c then int_lstrip s' else s
  end.

Fixpoint int_rstrip (s : string) : string :=
  match s with
  | EmptyString => EmptyString
  | String c s' =>
      match int_rstrip s' with
      | EmptyString =>
          if is_int_space c then EmptyString else String c EmptyString
      | r => String c r
      end
  end.

(** [int(s)] as CPython 3.11 and later have it: surrounding whitespace is
    dropped, a sign may come first, single underscores may stand between
    digits, and a literal of more than 4300 digits is refused. *)
Definition py_int (s : string) : outcome Z :=
  let body := list_ascii_of_string (int_rstrip (int_lstrip s)) in
  let signed :=
    match body with
    | "-"%char :: rest => (true, rest)
    | "+"%char :: rest => (false, rest)
    | _ => (false, body)
    end in
  match literal_digits false (snd signed) with
  | Some ds =>
      if (4300 <? List.length ds)%nat then Raise ValueError
      else
        match digits ds 0 with
        | Some n => Ret (if fst signed then - n else n)
        | None => Raise ValueError
        end
  | None => Raise ValueError
  end.

(** [parse_url(url)] *)
Definition parse_url (url : string) : outcome (string * string * Z) :=
  let parts := split_slash (strip url) in
  let? owner := py_index_from_end parts 4 in
  let? repo := py_index_from_end parts 3 in
  let? last_part := py_index_from_end parts 1 in
  let? number := py_int last_part in
  Ret (owner, repo, number).

(** ** harvest_data.py: participants *)

Record participant_metrics : Type := mk_participant_metrics {
  total_participants : nat;
  unique_commenters : nat;
  maintainer_participants : nat;
  has_maintainer_response : bool;
  participant_usernames : list json;
  commenter_usernames : list json;
  maintainer_usernames : list json
}.

(** The three sets of [calculate_participants], in insertion order. *)
Record participant_sets : Type := mk_participant_sets {
  participants : list json;
  commenters : list json;
  maintainers : list json
}.

Definition maintainer_tiers : list string :=
  ["OWNER"; "MEMBER"; "COLLABORATOR"; "CONTRIBUTOR"].

(** [assoc in ("OWNER", "MEMBER", "COLLABORATOR", "CONTRIBUTOR")] *)
Definition is_maintainer_tier (assoc : json) : bool :=
  existsb (eq_str assoc) maintainer_tiers.

(** The body of [for comment in comments]. *)
Definition add_commenter (sets : participant_sets) (comment : json)
  : outcome participant_sets :=
  let? username := user_login comment in
  if truthy username then
    let? ps := set_add (participants sets) username in
    let? cs := set_add (commenters sets) username in
    let? assoc := py_get comment "author_association" (JStr "") in
    if is_maintainer_tier assoc then
      let? ms := set_add (maintainers sets) username in
      Ret (mk_participant_sets ps cs ms)
    else Ret (mk_participant_sets ps cs (maintainers sets))
  else Ret sets.

(** The sets when the loop is over. *)
Definition participant_sets_of (issue : json) (comments : list json)
  : outcome participant_sets :=
  let? author_username := user_login issue in
  let? ps := (if truthy author_username then set_add [] author_username
              else Ret []) in
  fold_outcome add_commenter (mk_participant_sets ps [] []) comments.

(** [calculate_participants(issue, comments)] *)
Definition calculate_participants (issue : json) (comments : list json)
  : outcome participant_metrics :=
  let? sets := participant_sets_of issue comments in
  let? participant_names :=
    py_sorted (fun v => Ret v) false (participants sets) in
  let? commenter_names :=
    py_sorted (fun v => Ret v) false (commenters sets) in
  let? maintainer_names :=
    py_sorted (fun v => Ret v) false (maintainers sets) in
  Ret {| total_participants := List.length (participants sets);
         unique_commenters := List.length (commenters sets);
         maintainer_participants := List.length (maintainers sets);
         has_maintainer_response :=
           (0 <? List.length (maintainers sets))%nat;
         participant_usernames := participant_names;
         commenter_usernames := commenter_names;
         maintainer_usernames := maintainer_names |}.

(** ** harvest_data.py: the transcript of the comments *)

(** A line feed. *)
Definition nl : string := String (ascii_of_nat 10) EmptyString.

Section Transcript.

Variable fromisoformat : string -> option datetime.

(** [timestamp.strftime("%Y-%m-%d %H:%MZ")].  The fields printed are those
    of the clock the datetime counts on: UTC for GitHub's timestamps. *)
Variable strftime : datetime -> string.

(** [str(v)] for a value that is not a string. *)
Variable py_str : json -> string.

(** What an f-string puts in the place of [{v}]. *)
Definition format_value (v : json) : string :=
  match v with
  | JStr s => s
  | _ => py_str v
  end.

(** The body of the loop of [build_comments_text]:
<<
    timestamp = parse_timestamp(comment.get("created_at"))
    if timestamp:
        ts_str = timestamp.strftime("%Y-%m-%d %H:%MZ")
    else:
        ts_str = "0000-00-00 00:00Z"
    author = comment.get("user") or {}
    username = author.get("login") or "unknown"
    assoc = comment.get("author_association") or "UNKNOWN"
    body = comment.get("body") or ""
    blocks.append(f"[{ts_str}] [{assoc}] {username}:\n{body}")
>> *)
Definition comment_block (comment : json) : outcome string :=
  let? created_at := py_get comment "created_at" JNull in
  let? timestamp := parse_timestamp fromisoformat created_at in
  let ts_str := match timestamp with
                | Some t => strftime t
                | None => "0000-00-00 00:00Z"
                end in
  let? user := py_get comment "user" JNull in
  let author := py_or user (JDict []) in
  let? login := py_get author "login" JNull in
  let username := py_or login (JStr "unknown") in
  let? association := py_get comment "author_association" JNull in
  let assoc := py_or association (JStr "UNKNOWN") in
  let? text := py_get comment "body" JNull in
  let body := py_or text (JStr "") in
  Ret ("[" ++ ts_str ++ "] [" ++ format_value assoc ++ "] "
       ++ format_value username ++ ":" ++ nl ++ format_value body)%string.

(** [build_comments_text(comments)] *)
Definition build_comments_text (comments : list json) : outcome string :=
  match comments with
  | [] => Ret ""
  | _ :: _ =>
      let? ordered := py_sorted created_key false comments in
      let? blocks := map_outcome comment_block ordered in
      Ret (String.concat (nl ++ nl ++ "---" ++ nl ++ nl) blocks)
  end.

End Transcript.

(** ** harvest_data.py: the URLs *)

Section Urls.

(** [str(v)] for a value that is not a string. *)
Variable py_str : json -> string.

(** The URL a call of [fetch] is made on, as the f-strings build it:
<<
    f"https://api.github.com/repos/{owner}/{repo}/pulls/{pr_number}"
    f"https://api.github.com/repos/{owner}/{repo}/pulls/{pr_number}/reviews"
      and then f"{url}?per_page=100&page={page}"
    f"https://api.github.com/repos/{owner}/{repo}/commits/{commit_sha}"
    f"https://api.github.com/repos/{owner}/{repo}/commits/{commit_sha}/pulls"
>>
    The number of the pull request and the commit come from the timeline
    or from the API and are put into the URL as they are. *)
Definition url_of (req : request) : string :=
  match req with
  | GetPull owner repo pr_number =>
      "https://api.github.com/repos/" ++ owner ++ "/" ++ repo ++ "/pulls/"
      ++ format_value py_str pr_number
  | GetPullReviews owner repo pr_number page =>
      "https://api.github.com/repos/" ++ owner ++ "/" ++ repo ++ "/pulls/"
      ++ format_value py_str pr_number ++ "/reviews"
      ++ "?per_page=100&page=" ++ py_str (JInt page)
  | GetCommit owner repo commit_sha =>
      "https://api.github.com/repos/" ++ owner ++ "/" ++ repo ++ "/commits/"
      ++ format_value py_str commit_sha
  | GetCommitPulls owner repo commit_sha =>
      "https://api.github.com/repos/" ++ owner ++ "/" ++ repo ++ "/commits/"
      ++ format_value py_str commit_sha ++ "/pulls"
  end%string.

End Urls.

(** ** Vocabulary of the properties *)

Module BotDetectSpec.
Import BotDetect.

(** The name a closer goes by: its [username], or its [login] when the
    [username] is not there or is a false value ([None], the empty string,
    zero, [False], an empty list or dict). *)
Definition closer_name (closed_by : list (string * json)) : option json :=
  match dict_get closed_by "username" with
  | Some v => if truthy v then Some v else dict_get closed_by "login"
  | None => dict_get closed_by "login"
  end.

(** An issue closed by one of the two bots. *)
Definition closed_by_bot (issue : json) : Prop :=
  exists d cb u,
    issue = JDict d /\
    dict_get d "closed_by" = Some (JDict cb) /\
    closer_name cb = Some (JStr u) /\
    (lower (strip u) = "stale[bot]" \/ lower (strip u) = "vue-bot").

(** The same with the [login] consulted only when the [username] is absent:
    the key is missing or its value is null. *)
Definition closer_name_when_absent (closed_by : list (string * json))
  : option json :=
  match dict_get closed_by "username" with
  | Some JNull | None => dict_get closed_by "login"
  | Some v => Some v
  end.

Definition closed_by_bot_when_absent (issue : json) : Prop :=
  exists d cb u,
    issue = JDict d /\
    dict_get d "closed_by" = Some (JDict cb) /\
    closer_name_when_absent cb = Some (JStr u) /\
    (lower (strip u) = "stale[bot]" \/ lower (strip u) = "vue-bot").

(** An issue whose closer has an empty [username] and a bot's [login]. *)
Definition empty_username_issue : json :=
  JDict [("number", JInt 12);
         ("closed_by", JDict [("username", JStr "");
                              ("login", JStr "vue-bot")])].

End BotDetectSpec.

Module MetricsSpec.

(** What a comment or an event carries, read without raising. *)
Definition created_of (c : json) : json :=
  match py_get c "created_at" JNull with
  | Ret v => v
  | _ => JNull
  end.

Definition login_of (c : json) : json :=
  match user_login c with
  | Ret l => l
  | _ => JNull
  end.

Definition time_of (fromisoformat : string -> option datetime) (c : json)
  : option datetime :=
  match parse_timestamp fromisoformat (created_of c) with
  | Ret t => t
  | _ => None
  end.

(** A comment written by someone else than [author]. *)
Definition by_other (author : json) (c : json) : bool :=
  negb (py_eq (login_of c) author).

(** [c] is an object created at the timestamp [s], which reads as [t]. *)
Definition stamped (fromisoformat : string -> option datetime)
    (c : json) (s : string) (t : datetime) : Prop :=
  py_get c "created_at" JNull = Ret (JStr s) /\
  s <> "" /\
  fromisoformat (replace_Z s) = Some t.

(** A comment as the API sends it: an object whose [user], when there, is
    an object, with a creation timestamp on the clock of [t0]. *)
Definition well_formed_comment (fromisoformat : string -> option datetime)
    (t0 : datetime) (c : json) : Prop :=
  (exists l, user_login c = Ret l) /\
  exists s t, stamped fromisoformat c s t /\ aware t = aware t0.

(** The timestamps of [l] sort as strings the way they sort in time, as
    zero-padded UTC timestamps do. *)
Definition chronological (fromisoformat : string -> option datetime)
    (l : list json) : Prop :=
  forall c1 c2 s1 s2 t1 t2,
    In c1 l -> In c2 l ->
    stamped fromisoformat c1 s1 t1 -> stamped fromisoformat c2 s2 t2 ->
    (String.ltb s1 s2 = true <-> seconds t1 < seconds t2).

(** The closing timestamp of an issue is absent or on the clock of [t0]. *)
Definition closed_at_ok (fromisoformat : string -> option datetime)
    (t0 : datetime) (issue : json) : Prop :=
  exists closed,
    py_get issue "closed_at" JNull = Ret closed /\
    (truthy closed = false \/
     exists t, parse_timestamp fromisoformat closed = Ret (Some t) /\
               aware t = aware t0).

(** *** Examples *)

Definition user (login : string) : json := JDict [("login", JStr login)].

Definition comment (id : Z) (login : string) (created_at : json) : json :=
  JDict [("id", JInt id); ("user", user login); ("created_at", created_at);
         ("body", JStr "...")].

Definition event (kind : string) (created_at : json) : json :=
  JDict [("event", JStr kind); ("created_at", created_at)].

(** alice's issue, created at t = 0. *)
Definition alice_issue : json :=
  JDict [("number", JInt 3); ("state", JStr "open");
         ("created_at", JStr "2024-05-01T10:00:00Z");
         ("closed_at", JNull); ("user", user "alice")].

(** alice comments at t = 0, bob at t = 100. *)
Definition alice_bob_comments : list json :=
  [comment 1 "alice" (JStr "2024-05-01T10:00:00Z");
   comment 2 "bob" (JStr "2024-05-01T10:01:40Z")].

(** Two comments, the second with a null timestamp. *)
Definition comments_null_time : list json :=
  [comment 1 "bob" (JStr "2024-05-01T10:01:40Z");
   comment 2 "carol" JNull].

(** A closed issue and a timeline whose first reopening has a null
    timestamp. *)
Definition reopened_issue : json :=
  JDict [("number", JInt 4); ("state", JStr "closed");
         ("created_at", JStr "2024-05-01T10:00:00Z");
         ("closed_at", JStr "2024-05-03T10:00:00Z"); ("user", user "alice")].

Definition events_null_time : list json :=
  [event "closed" (JStr "2024-05-01T12:00:00Z");
   event "reopened" JNull;
   event "closed" (JStr "2024-05-02T12:00:00Z");
   event "reopened" (JStr "2024-05-02T13:00:00Z");
   event "closed" (JStr "2024-05-03T10:00:00Z")].

End MetricsSpec.

Module ResolverSpec.

(** The merge time of fetched pull-request metrics, when it reads. *)
Definition merged_time (fromisoformat : string -> option datetime)
    (pr_metrics : json) : option datetime :=
  match py_get pr_metrics "merged_at" JNull with
  | Ret merged_at =>
      match parse_timestamp fromisoformat merged_at with
      | Ret t => t
      | _ => None
      end
  | _ => None
  end.

(** The pull request [pr] was merged at or after the creation time
    [created], on the same clock. *)
Definition merged_since (fromisoformat : string -> option datetime)
    (created : option datetime) (pr : json) : Prop :=
  exists m c,
    merged_time fromisoformat pr = Some m /\ created = Some c /\
    aware m = aware c /\ seconds c <= seconds m.

(** The result [r] of a strategy is a pull request that went through the
    checks with the window [limit], and no commit. *)
Definition accepted (fromisoformat : string -> option datetime) (limit : Z)
    (created closed : option datetime) (r : json * json) : Prop :=
  snd r = JNull /\
  validate_pr fromisoformat limit (fst r) created closed = Ret Valid.

(** The distance in seconds between two times. *)
Definition gap (a b : datetime) : Z := Z.abs (seconds a - seconds b).

(** A request made for the pull request [pr_number]. *)
Definition about_pull (owner repo : string) (pr_number : json)
    (req : request) : Prop :=
  req = GetPull owner repo pr_number \/
  exists page, req = GetPullReviews owner repo pr_number page.

(** The source of the event has the shape of a pull request. *)
Definition pr_shaped (event : json) : Prop :=
  exists n, source_pr event = Ret (Some n).

(** The wording of step (b) of strategy 3: no commit-based lookup is made
    for a referenced event whose source has the shape of a pull request. *)
Definition commit_lookup_only_without_pr (owner repo : string)
    (events : list json) (requests : trace) : Prop :=
  forall e sha,
    In e events ->
    py_get e "event" JNull = Ret (JStr "referenced") ->
    pr_shaped e ->
    py_get e "commit_id" JNull = Ret sha ->
    ~ In (GetCommitPulls owner repo sha) requests.

(** No segment of a path has a slash in it. *)
Fixpoint no_slash (s : string) : bool :=
  match s with
  | EmptyString => true
  | String c s' => negb (Ascii.eqb c "/") && no_slash s'
  end.

(** *** An example repository *)

Definition created_at_ex : json := JStr "2024-05-01T10:00:00Z".
Definition closed_at_ex : json := JStr "2024-05-03T10:00:00Z".
Definition created_time_ex : datetime := mk_datetime true 1714557600.
Definition closed_time_ex : datetime := mk_datetime true 1714730400.

Definition pull (number : Z) (merged_at : json) : json :=
  JDict [("number", JInt number); ("title", JStr "Fix the bug");
         ("state", JStr "closed"); ("merged_at", merged_at);
         ("user", JDict [("login", JStr "bob"); ("id", JInt 2)]);
         ("additions", JInt 10); ("deletions", JInt 4);
         ("head", JDict [("ref", JStr "fix"); ("sha", JStr "abc123")]);
         ("base", JDict [("ref", JStr "main")])].

Definition review (login state : string) : json :=
  JDict [("user", JDict [("login", JStr login)]); ("state", JStr state)].

Definition commit_def456 : json :=
  JDict [("sha", JStr "def456");
         ("commit", JDict [("message", JStr "Fix the bug, closes #3");
                           ("author", JDict [("name", JStr "Bob");
                                             ("date", JStr "2024-05-03T10:00:00Z")])]);
         ("author", JDict [("login", JStr "bob")]);
         ("stats", JDict [("additions", JInt 3); ("deletions", JInt 1);
                          ("total", JInt 4)]);
         ("files", JList [JDict [("filename", JStr "a.js")]])].

(** The API of the example: pull request 7 was merged a minute before the
    issue was closed, 8 was never merged, 9 was merged exactly one day
    before the close, 10 was merged before the issue was created, 11 was
    merged a second more than one day before the close. *)
Definition github (_ : trace) (req : request) : outcome json :=
  match req with
  | GetPull "octo" "repo" (JInt 7) =>
      Ret (pull 7 (JStr "2024-05-03T09:59:00Z"))
  | GetPull "octo" "repo" (JInt 8) => Ret (pull 8 JNull)
  | GetPull "octo" "repo" (JInt 9) =>
      Ret (pull 9 (JStr "2024-05-02T10:00:00Z"))
  | GetPull "octo" "repo" (JInt 10) =>
      Ret (pull 10 (JStr "2024-04-30T10:00:00Z"))
  | GetPull "octo" "repo" (JInt 11) =>
      Ret (pull 11 (JStr "2024-05-02T09:59:59Z"))
  | GetPullReviews "octo" "repo" (JInt 7) 1 =>
      Ret (JList [review "carol" "APPROVED"])
  | GetPullReviews "octo" "repo" (JInt _) 1 => Ret (JList [])
  | GetCommitPulls "octo" "repo" (JStr "abc123") =>
      Ret (JList [JDict [("number", JInt 9)]])
  | GetCommitPulls "octo" "repo" (JStr "bad999") =>
      Ret (JList [JDict [("number", JInt 10)]])
  | GetCommitPulls "octo" "repo" (JStr "def456") => Ret (JList [])
  | GetCommit "octo" "repo" (JStr "def456") => Ret commit_def456
  | _ => Raise (HTTPError 404)
  end.

Definition issue_source (number : Z) : json :=
  JDict [("type", JStr "issue"); ("issue", JDict [("number", JInt number)])].

(** The closing of the issue, pointing at pull request [number]. *)
Definition closed_by_pull (number : Z) : json :=
  JDict [("event", JStr "closed"); ("created_at", closed_at_ex);
         ("source", issue_source number)].

(** The closing of the issue by the commit [sha]. *)
Definition closed_by_commit (sha : string) : json :=
  JDict [("event", JStr "closed"); ("created_at", closed_at_ex);
         ("commit_id", JNull);
         ("commit_url",
          JStr ("https://api.github.com/repos/octo/repo/commits/" ++ sha))].

(** A plain closing of the issue. *)
Definition closed_plain : json :=
  JDict [("event", JStr "closed"); ("created_at", closed_at_ex)].

Definition cross_referenced (number : Z) : json :=
  JDict [("event", JStr "cross-referenced");
         ("created_at", JStr "2024-05-02T08:00:00Z");
         ("source", issue_source number)].

(** A referenced event that has both a source with the shape of a pull
    request (number 8, never merged) and a commit. *)
Definition referenced_by_8_and_commit : json :=
  JDict [("event", JStr "referenced");
         ("created_at", JStr "2024-05-02T09:00:00Z");
         ("source", issue_source 8);
         ("commit_id", JStr "abc123")].

Definition reopened_ex : json :=
  JDict [("event", JStr "reopened");
         ("created_at", JStr "2024-05-02T12:00:00Z")].

(** The metrics the resolver computes for pull request [number] of the
    example. *)
Definition metrics_of_pull (number : Z) : json :=
  match extract_pr_metrics github 5 "octo" "repo" (JInt number) [] with
  | (Ret pm, _) => pm
  | _ => JNull
  end.

(** The requests made for pull request [number] of the example. *)
Definition requests_of_pull (number : Z) : trace :=
  [GetPull "octo" "repo" (JInt number);
   GetPullReviews "octo" "repo" (JInt number) 1].

(** The metrics the resolver computes for the commit [sha] of the example. *)
Definition metrics_of_commit (sha : string) : json :=
  match extract_commit_metrics github "octo" "repo" (JStr sha) [] with
  | (Ret cm, _) => cm
  | _ => JNull
  end.

(** The sort key of an event, read without raising. *)
Definition key_of (e : json) : json :=
  match created_key e with
  | Ret k => k
  | _ => JNull
  end.

(** [a] may stand before [b] in a list sorted latest first: the timestamp of
    [a] is not below that of [b]. *)
Definition later_or_same (a b : json) : Prop :=
  forall sa sb,
    created_key a = Ret (JStr sa) -> created_key b = Ret (JStr sb) ->
    String.ltb sa sb = false.

(** A key that is a string. *)
Definition is_str (k : json) : Prop := exists s, k = JStr s.

(** The same on events paired with their keys. *)
Definition keyed_later_or_same (a b : json * json) : Prop :=
  lt_bool (fst a) (fst b) = false.

End ResolverSpec.

(** ** Vocabulary of the further properties *)

Module BotMainSpec.
Import BotDetect BotMain.

(** A string of whitespace. *)
Fixpoint all_space (s : string) : bool :=
  match s with
  | EmptyString => true
  | String c s' => is_space c && all_space s'
  end.

(** The flag of an issue, read without raising. *)
Definition bot_flag (issue : json) : bool :=
  match detect_bot_close issue with
  | Ret b => b
  | _ => false
  end.

(** An object with its flag set. *)
Definition flagged (issue : json) : json :=
  match issue with
  | JDict d => JDict (dict_set d "is_bot_close" (JBool (bot_flag issue)))
  | _ => issue
  end.

(** The lines that [json.loads] decodes. *)
Definition decoded (lines : list (option json)) : list json :=
  flat_map (fun l => match l with Some v => [v] | None => [] end) lines.

Definition is_object (v : json) : Prop := exists d, v = JDict d.

(** Every decodable line holds an object. *)
Definition object_lines (lines : list (option json)) : Prop :=
  forall v, In (Some v) lines -> is_object v.


(** *** Examples *)

Definition closed_by_name (number : Z) (name : string) : json :=
  JDict [("number", JInt number);
         ("closed_by", JDict [("username", JStr name)])].

Definition bot_lines : list (option json) :=
  [Some (closed_by_name 1 "  Stale[BOT] ");
   None;
   Some (closed_by_name 2 "alice");
   Some (JDict [("number", JInt 3); ("closed_by", JNull)])].


End BotMainSpec.

Module UrlSpec.

(** A non-empty string of decimal digits. *)
Definition digit_string (s : string) : Prop :=
  s <> "" /\ forallb is_digit (list_ascii_of_string s) = true.

(** The number a string of digits reads as. *)
Definition decimal_value (s : string) : Z :=
  match digits (list_ascii_of_string s) 0 with
  | Some n => n
  | None => 0
  end.

(** The URL of item [num] of a repository, as in
    [https://github.com/{owner}/{repo}/issues/{num}]. *)
Definition item_url (prefix owner repo kind num : string) : string :=
  prefix ++ "/" ++ owner ++ "/" ++ repo ++ "/" ++ kind ++ "/" ++ num.

(** The number of slashes of a string. *)
Fixpoint count_slash (s : string) : nat :=
  match s with
  | EmptyString => O
  | String c s' => if Ascii.eqb c "/" then S (count_slash s')
                   else count_slash s'
  end.

End UrlSpec.

Module ParticipantsSpec.

(** A value that can be hashed: not a list, not a dict. *)
Definition scalar (v : json) : bool :=
  match v with
  | JList _ | JDict _ => false
  | _ => true
  end.

(** Two scalars are equal for Python exactly when they have the same
    canonical form: [True] is 1 and [False] is 0. *)
Definition canon (v : json) : json :=
  match v with
  | JBool b => JInt (if b then 1 else 0)
  | _ => v
  end.

(** [u in names] *)
Definition py_in (u : json) (names : list json) : bool :=
  existsb (py_eq u) names.

(** A set of the model: scalars, no two of them equal. *)
Definition wf_set (s : list json) : Prop :=
  Forall (fun v => scalar v = true) s /\ NoDup (map canon s).

(** What the loop of [calculate_participants] keeps true. *)
Definition sets_ok (sets : participant_sets) : Prop :=
  wf_set (participants sets) /\ wf_set (commenters sets) /\
  wf_set (maintainers sets) /\
  incl (map canon (maintainers sets)) (map canon (commenters sets)) /\
  incl (map canon (commenters sets)) (map canon (participants sets)).

(** A comment with a username, written by a maintainer. *)
Definition maintainer_comment (c : json) : bool :=
  match user_login c, py_get c "author_association" (JStr "") with
  | Ret u, Ret assoc => truthy u && is_maintainer_tier assoc
  | _, _ => false
  end.

(** A comment of a deleted account: its [user] is null. *)
Definition null_user (c : json) : Prop :=
  exists d, c = JDict d /\ dict_get d "user" = Some JNull.

(** *** Example: alice's issue, a comment of bob, a member, and one of
    carol *)

Definition comment_by (login assoc : string) : json :=
  JDict [("user", JDict [("login", JStr login)]);
         ("author_association", JStr assoc);
         ("created_at", JStr "2024-05-01T10:01:40Z")].

Definition issue_by_alice : json :=
  JDict [("number", JInt 3); ("user", JDict [("login", JStr "alice")])].

Definition bob_carol_comments : list json :=
  [comment_by "bob" "MEMBER"; comment_by "carol" "NONE"].

Definition ghost_comment : json :=
  JDict [("user", JNull); ("author_association", JStr "NONE")].

End ParticipantsSpec.

Module FetchSpec.

(** The page numbers [first], [first + 1], ... of [n] pages. *)
Fixpoint page_numbers (first : Z) (n : nat) : list Z :=
  match n with
  | O => []
  | S n' => first :: page_numbers (first + 1) n'
  end.

(** Asked for the pages of the listing [url] one after the other, from the
    page [page] on and after the requests [tr], the API answers with the
    lists [pages]. *)
Fixpoint serves (net : trace -> request -> outcome json)
    (url : Z -> request) (tr : trace) (page : Z) (pages : list (list json))
  : Prop :=
  match pages with
  | [] => True
  | p :: ps =>
      net tr (url page) = Ret (JList p) /\
      serves net url (tr ++ [url page])%list (page + 1) ps
  end.

(** A page with all of its 100 entries (or more). *)
Definition full_page (p : list json) : Prop := (100 <= List.length p)%nat.

(** *** Example: a listing of 101 reviews, served in two pages *)

Definition two_pages (_ : trace) (req : request) : outcome json :=
  match req with
  | GetPullReviews "octo" "repo" (JInt 7) 1 =>
      Ret (JList (repeat (ResolverSpec.review "carol" "COMMENTED") 100))
  | GetPullReviews "octo" "repo" (JInt 7) 2 =>
      Ret (JList [ResolverSpec.review "dave" "APPROVED"])
  | GetPull "octo" "repo" (JInt 7) =>
      Ret (ResolverSpec.pull 7 (JStr "2024-05-03T09:59:00Z"))
  | _ => Raise (HTTPError 502)
  end.

(** A listing whose first page comes and whose second page fails. *)
Definition two_pages_then_error (_ : trace) (req : request) : outcome json :=
  match req with
  | GetPullReviews "octo" "repo" (JInt 8) 1 =>
      Ret (JList (repeat (ResolverSpec.review "carol" "COMMENTED") 100))
  | GetPull "octo" "repo" (JInt 8) =>
      Ret (ResolverSpec.pull 8 (JStr "2024-05-03T09:59:00Z"))
  | _ => Raise (HTTPError 502)
  end.

End FetchSpec.

Module PrMetricsSpec.

(** A field of computed metrics, read without raising. *)
Definition field (m : json) (k : string) : json :=
  match py_get m k JNull with
  | Ret v => v
  | _ => JNull
  end.

(** What the review loop keeps true after [n] reviews: no counter is
    negative, the four of them count at most [n] reviews, and there are at
    most [n] reviewers, no two of them equal. *)
Definition tally_ok (n : nat) (t : review_tally) : Prop :=
  0 <= approved t /\ 0 <= changes_requested t /\ 0 <= commented t /\
  0 <= dismissed t /\
  approved t + changes_requested t + commented t + dismissed t
  <= Z.of_nat n /\
  (List.length (reviewers t) <= n)%nat /\
  ParticipantsSpec.wf_set (reviewers t).

(** *** Example: a pull request with a review of a deleted account *)

Definition ghost_review : json :=
  JDict [("user", JNull); ("state", JStr "COMMENTED")].

Definition ghost_review_api (_ : trace) (req : request) : outcome json :=
  match req with
  | GetPull "octo" "repo" (JInt 7) =>
      Ret (ResolverSpec.pull 7 (JStr "2024-05-03T09:59:00Z"))
  | GetPullReviews "octo" "repo" (JInt 7) 1 =>
      Ret (JList [ResolverSpec.review "carol" "APPROVED"; ghost_review])
  | _ => Raise (HTTPError 404)
  end.

End PrMetricsSpec.

Module CommitMetricsSpec.

(** The fields of a commit that [extract_commit_metrics] reads with an
    empty dict as default and then reads into. *)
Definition nested_fields : list string :=
  ["stats"; "commit"; "author"; "committer"].

(** *** Example: a commit whose author has no account *)

Definition commit_no_account : json :=
  JDict [("sha", JStr "fed789");
         ("commit", JDict [("message", JStr "Fix the bug, closes #3");
                           ("author", JDict [("name", JStr "Eve")])]);
         ("author", JNull);
         ("committer", JDict [("login", JStr "web-flow")])].

Definition no_account_api (_ : trace) (req : request) : outcome json :=
  match req with
  | GetCommitPulls "octo" "repo" (JStr "fed789") => Ret (JList [])
  | GetCommit "octo" "repo" (JStr "fed789") => Ret commit_no_account
  | _ => Raise (HTTPError 404)
  end.

(** A closed event whose [commit_url] is not a string. *)
Definition closed_odd_url : json :=
  JDict [("event", JStr "closed");
         ("created_at", ResolverSpec.closed_at_ex);
         ("commit_url", JInt 5)].

End CommitMetricsSpec.

Module TimeSpec.
Import MetricsSpec.

(** The time a field of an object reads as, when it does. *)
Definition stamp_of (fromisoformat : string -> option datetime)
    (o : json) (k : string) : option datetime :=
  match py_get o k JNull with
  | Ret v =>
      match parse_timestamp fromisoformat v with
      | Ret t => t
      | _ => None
      end
  | _ => None
  end.

(** The kind of an event, read without raising. *)
Definition kind_of (e : json) : json :=
  match py_get e "event" JNull with
  | Ret k => k
  | _ => JNull
  end.

Definition of_kind (kind : string) (e : json) : bool :=
  eq_str (kind_of e) kind.

(** The issue is in the state [closed]. *)
Definition is_closed (issue : json) : bool :=
  match py_get issue "state" JNull with
  | Ret s => eq_str s "closed"
  | _ => false
  end.

(** An event with a creation timestamp on the clock [clock]. *)
Definition well_formed_event (fromisoformat : string -> option datetime)
    (clock : bool) (e : json) : Prop :=
  exists s t, stamped fromisoformat e s t /\ aware t = clock.

(** An issue is an object whose creation and closing timestamps, when both
    are there, read as times on the same clock. *)
Definition issue_times_ok (fromisoformat : string -> option datetime)
    (issue : json) : Prop :=
  exists d, issue = JDict d /\
    forall created closed,
      py_get issue "created_at" JNull = Ret created ->
      py_get issue "closed_at" JNull = Ret closed ->
      truthy created = true -> truthy closed = true ->
      exists t0 tz,
        parse_timestamp fromisoformat created = Ret (Some t0) /\
        parse_timestamp fromisoformat closed = Ret (Some tz) /\
        aware tz = aware t0.

(** *** Example: an issue closed, reopened a day later, closed again *)

Definition reopened_timeline : list json :=
  [event "closed" (JStr "2024-05-01T12:00:00Z");
   event "reopened" (JStr "2024-05-02T12:00:00Z");
   event "closed" (JStr "2024-05-03T10:00:00Z")].

(** An open issue that was never reopened, with an event that has no
    timestamp. *)
Definition labeled_timeline : list json :=
  [JDict [("event", JStr "labeled"); ("created_at", JNull)];
   event "closed" (JStr "2024-05-03T10:00:00Z")].

End TimeSpec.

Module TraceSpec.

(** A request made to the repository [owner]/[repo]. *)
Definition in_repo (owner repo : string) (req : request) : Prop :=
  match req with
  | GetPull o r _ | GetPullReviews o r _ _
  | GetCommit o r _ | GetCommitPulls o r _ => o = owner /\ r = repo
  end.

(** What the URL of every request to the repository [owner]/[repo]
    begins with. *)
Definition repo_root (owner repo : string) : string :=
  ("https://api.github.com/repos/" ++ owner ++ "/" ++ repo ++ "/")%string.

(** Whatever the state it starts in, the computation [m] only adds requests
    to the trace, and every request it adds satisfies [P]. *)
Definition extends (P : request -> Prop) {A} (m : M A) : Prop :=
  forall tr, exists calls,
    snd (m tr) = (tr ++ calls)%list /\ Forall P calls.

End TraceSpec.

Module TranscriptSpec.

(** *** A formatter for the examples *)

(** The date of the proleptic Gregorian calendar that is [z] days after
    1970-01-01. *)
Definition civil_from_days (z : Z) : Z * Z * Z :=
  let z := z + 719468 in
  let era := z / 146097 in
  let doe := z - era * 146097 in
  let yoe := (doe - doe / 1460 + doe / 36524 - doe / 146096) / 365 in
  let doy := doe - (365 * yoe + yoe / 4 - yoe / 100) in
  let mp := (5 * doy + 2) / 153 in
  let d := doy - (153 * mp + 2) / 5 + 1 in
  let m := if mp <? 10 then mp + 3 else mp - 9 in
  (yoe + era * 400 + (if m <=? 2 then 1 else 0), m, d).

Definition digit_char (n : Z) : ascii := ascii_of_N (48 + Z.to_N (n mod 10)).

Definition pad2 (n : Z) : string :=
  String (digit_char (n / 10)) (String (digit_char n) EmptyString).

(** [strftime("%Y-%m-%d %H:%MZ")] on the UTC clock, for the years 1000 to
    9999. *)
Definition utc_strftime (t : datetime) : string :=
  let rest := seconds t mod 86400 in
  let '(y, m, d) := civil_from_days (seconds t / 86400) in
  (pad2 (y / 100) ++ pad2 y ++ "-" ++ pad2 m ++ "-" ++ pad2 d ++ " "
   ++ pad2 (rest / 3600) ++ ":" ++ pad2 (rest / 60 mod 60) ++ "Z")%string.

(** [str(v)] for the scalars; the examples format no list and no dict. *)
Definition scalar_str (v : json) : string :=
  match v with
  | JNull => "None"
  | JBool true => "True"
  | JBool false => "False"
  | JInt n => DecimalString.NilZero.string_of_int (Z.to_int n)
  | JStr s => s
  | _ => ""
  end.

(** *** Example: two comments, given latest first *)

Definition said (login body created_at : string) : json :=
  JDict [("user", JDict [("login", JStr login)]);
         ("author_association", JStr "MEMBER");
         ("created_at", JStr created_at); ("body", JStr body)].

Definition late_first : list json :=
  [said "bob" "Fixed." "2024-05-01T10:01:40Z";
   said "alice" "It crashes." "2024-05-01T10:00:00Z"].

Definition early_first : list json :=
  [said "alice" "It crashes." "2024-05-01T10:00:00Z";
   said "bob" "Fixed." "2024-05-01T10:01:40Z"].

End TranscriptSpec.

Module CommitSpec.

(** The binding of [k] in the object [o], if there is one. *)
Definition lookup (o : json) (k : string) : option json :=
  match o with
  | JDict d => dict_get d k
  | _ => None
  end.

(** The value under [k] in [o]; null when there is none. *)
Definition sub (o : json) (k : string) : json :=
  match lookup o k with
  | Some v => v
  | None => JNull
  end.





End CommitSpec.

(** * Properties *)

(** ** bot_detect.py *)

Module BotDetectProofs.
Import BotDetect BotDetectSpec.

Lemma is_bot_name_iff (s : string) :
  is_bot_name s = true <-> s = "stale[bot]" \/ s = "vue-bot".
Proof.
  unfold is_bot_name, bot_names; cbn [existsb].
  rewrite !orb_true_iff, !String.eqb_eq. intuition congruence.
Qed.

Lemma closer_name_get {A} (cb : list (string * json)) (k : json -> outcome A) :
  (let? username := py_get (JDict cb) "username" JNull in
   let? uname := (if truthy username then Ret username
                  else py_get (JDict cb) "login" JNull) in
   k uname)
  = k (match closer_name cb with Some v => v | None => JNull end).
Proof.
  unfold closer_name; cbn.
  destruct (dict_get cb "username") as [v|]; cbn.
  - destruct (truthy v); reflexivity.
  - reflexivity.
Qed.

(** C10, as the code has it: [detect_bot_close] returns on every value, and
    returns [True] exactly for an object whose [closed_by] is an object
    whose name -- the [username], or the [login] when the [username] is
    missing or false -- is a string that, stripped and lowercased, is
    ['stale[bot]'] or ['vue-bot']. *)
Theorem detect_bot_close_spec (issue : json) :
  (exists b, detect_bot_close issue = Ret b) /\
  (detect_bot_close issue = Ret true <-> closed_by_bot issue).
Proof.
  unfold detect_bot_close, closed_by_bot.
  destruct issue as [| b | n | s | l | d];
    try (split; [eexists; reflexivity
                | split; [discriminate | intros (? & ? & ? & ? & _); discriminate]]).
  cbn [py_get obind].
  destruct (dict_get d "closed_by") as [cby|] eqn:Hcb.
  2:{ split; [eexists; reflexivity|].
      split; [discriminate|]. intros (d' & cb & u & [= <-] & H & _). congruence. }
  destruct cby as [| b | n | s | l | cb];
    try (split; [eexists; reflexivity
                | split; [discriminate
                         | intros (d' & cb & u & [= <-] & H & _); congruence]]).
  cbv beta iota. rewrite closer_name_get.
  destruct (closer_name cb) as [v|] eqn:Hname.
  2:{ split; [eexists; reflexivity|].
      split; [discriminate|].
      intros (d' & cb' & u & [= <-] & H & H' & _). congruence. }
  destruct v as [| b | n | s | l | o];
    try (split; [eexists; reflexivity
                | split; [discriminate
                         | intros (d' & cb' & u & [= <-] & H & H' & _);
                           congruence]]).
  split; [eexists; reflexivity|].
  split.
  - intros [= H]. apply is_bot_name_iff in H.
    exists d, cb, s. auto.
  - intros (d' & cb' & u & [= <-] & H & H' & Hu).
    assert (cb' = cb) by congruence; subst cb'.
    assert (u = s) by congruence; subst u.
    f_equal. apply is_bot_name_iff. exact Hu.
Qed.

(** C10, as it is worded, fails: with an empty [username] the code turns to
    the [login], and flags an issue that the wording does not. *)
Lemma detect_bot_close_empty_username :
  detect_bot_close empty_username_issue = Ret true /\
  ~ closed_by_bot_when_absent empty_username_issue.
Proof.
  split; [reflexivity|].
  intros (d & cb & u & Hd & Hcb & Hname & Hu).
  injection Hd as <-. cbn in Hcb. injection Hcb as <-.
  cbn in Hname. injection Hname as <-.
  cbn in Hu. destruct Hu; discriminate.
Qed.

End BotDetectProofs.

(** ** Issue metrics *)

Module MetricsProofs.
Import MetricsSpec.

Section WithParser.

Variable fromisoformat : string -> option datetime.

#[local] Abbreviation parse_timestamp := (parse_timestamp fromisoformat).
#[local] Abbreviation calculate_time_diff := (calculate_time_diff fromisoformat).
#[local] Abbreviation calculate_timestamps := (calculate_timestamps fromisoformat).
#[local] Abbreviation stamped := (stamped fromisoformat).
#[local] Abbreviation time_of := (time_of fromisoformat).

Lemma parse_timestamp_null : parse_timestamp JNull = Ret None.
Proof. reflexivity. Qed.

Lemma parse_timestamp_falsy (v : json) :
  truthy v = false -> parse_timestamp v = Ret None.
Proof. unfold parse_timestamp. now intros ->. Qed.

Lemma parse_timestamp_some (v : json) (t : datetime) :
  parse_timestamp v = Ret (Some t) ->
  exists s, v = JStr s /\ truthy v = true /\
            fromisoformat (replace_Z s) = Some t.
Proof.
  unfold parse_timestamp.
  destruct (truthy v) eqn:Hv; cbn; [|discriminate].
  destruct v; try discriminate.
  destruct (fromisoformat (replace_Z s)) eqn:Hs; [|discriminate].
  intros [= ->]. eauto.
Qed.

Lemma parse_timestamp_stamp (s : string) (t : datetime) :
  s <> "" -> fromisoformat (replace_Z s) = Some t ->
  parse_timestamp (JStr s) = Ret (Some t).
Proof.
  intros Hs Ht. unfold parse_timestamp; cbn.
  destruct (String.eqb_spec s ""); [contradiction|]. cbn. now rewrite Ht.
Qed.

(** A missing end of the interval gives no difference, and no exception. *)
Lemma calculate_time_diff_absent_end (a b : json) (x : option datetime) :
  parse_timestamp a = Ret x -> truthy b = false ->
  calculate_time_diff a b = Ret None.
Proof.
  intros Ha Hb. unfold calculate_time_diff.
  rewrite Ha, (parse_timestamp_falsy b Hb). cbn. now destruct x.
Qed.

Lemma calculate_time_diff_absent_start (a b : json) (x : option datetime) :
  truthy a = false -> parse_timestamp b = Ret x ->
  calculate_time_diff a b = Ret None.
Proof.
  intros Ha Hb. unfold calculate_time_diff.
  now rewrite (parse_timestamp_falsy a Ha), Hb.
Qed.

Lemma calculate_time_diff_present (a b : json) (ta tb : datetime) :
  parse_timestamp a = Ret (Some ta) -> parse_timestamp b = Ret (Some tb) ->
  aware tb = aware ta ->
  calculate_time_diff a b = Ret (Some (seconds tb - seconds ta)).
Proof.
  intros Ha Hb Haw. unfold calculate_time_diff.
  rewrite Ha, Hb. cbn [obind]. unfold dt_diff.
  now rewrite Haw, Bool.eqb_reflx.
Qed.

(** An issue without a creation timestamp has no temporal metric, whatever
    its comments are. *)
Lemma calculate_timestamps_no_creation (d : list (string * json))
    (comments : list json) :
  truthy (match dict_get d "created_at" with Some v => v | None => JNull end)
    = false ->
  calculate_timestamps (JDict d) comments
  = Ret (mk_timestamp_metrics None None None None).
Proof.
  intros H. unfold calculate_timestamps. cbn [py_get obind].
  rewrite H. cbn. now destruct comments.
Qed.

Lemma stamped_key (c : json) (s : string) (t : datetime) :
  stamped c s t -> created_key c = Ret (JStr s).
Proof.
  intros (Hget & Hs & _). unfold created_key.
  destruct c; try discriminate. cbn in *.
  destruct (dict_get d "created_at"); [assumption|discriminate].
Qed.

Lemma stamped_time (c : json) (s : string) (t : datetime) :
  stamped c s t -> time_of c = Some t.
Proof.
  intros (Hget & Hs & Ht). unfold time_of, MetricsSpec.time_of, created_of.
  rewrite Hget. now rewrite (parse_timestamp_stamp s t).
Qed.

Lemma stamped_fun (c : json) (s s' : string) (t t' : datetime) :
  stamped c s t -> stamped c s' t' -> s = s' /\ t = t'.
Proof.
  intros (H1 & _ & H2) (H1' & _ & H2').
  assert (s = s') by congruence. subst. split; congruence.
Qed.

(** The scan of [min] over comments with well-formed timestamps returns one
    of them, and none is earlier. *)
Lemma min_scan_least (l : list json) :
  forall best sb tb,
    stamped best sb tb ->
    Forall (fun c => exists s t, stamped c s t) l ->
    chronological fromisoformat (best :: l) ->
    exists m sm tm,
      min_scan created_key best (JStr sb) l = Ret m /\
      In m (best :: l) /\ stamped m sm tm /\
      seconds tm <= seconds tb /\
      forall c s t, In c l -> stamped c s t -> seconds tm <= seconds t.
Proof.
  induction l as [|x l IH]; intros best sb tb Hbest Hl Hchron.
  - exists best, sb, tb. cbn.
    refine (conj eq_refl (conj _ (conj Hbest (conj _ _))));
      [now left | lia | now intros ? ? ? []].
  - inversion Hl as [|? ? (sx & tx & Hx) Hl']; subst.
    cbn [min_scan]. rewrite (stamped_key x sx tx Hx). cbn [obind py_lt].
    assert (Hord : String.ltb sx sb = true <-> seconds tx < seconds tb).
    { apply (Hchron x best); cbn; auto. }
    destruct (String.ltb sx sb) eqn:Hlt.
    + assert (seconds tx < seconds tb) by now apply Hord.
      destruct (IH x sx tx Hx Hl') as (m & sm & tm & Hm & Hin & Hst & Hle & Hall).
      { intros c1 c2 ? ? ? ? H1 H2. apply Hchron; now right. }
      exists m, sm, tm.
      refine (conj Hm (conj _ (conj Hst (conj _ _)))); [now right | lia |].
      intros c s t [<-|Hc] Hc'.
      * destruct (stamped_fun _ _ _ _ _ Hx Hc') as [_ <-]. lia.
      * eauto.
    + assert (~ seconds tx < seconds tb).
      { intros Hc. apply Hord in Hc. discriminate. }
      destruct (IH best sb tb Hbest Hl') as (m & sm & tm & Hm & Hin & Hst & Hle & Hall).
      { intros c1 c2 ? ? ? ? H1 H2. apply Hchron.
        - destruct H1; [now left | now right; right].
        - destruct H2; [now left | now right; right]. }
      exists m, sm, tm.
      refine (conj Hm (conj _ (conj Hst (conj Hle _)))).
      { destruct Hin; [now left | now right; right]. }
      intros c s t [<-|Hc] Hc'.
      * destruct (stamped_fun _ _ _ _ _ Hx Hc') as [_ <-]. lia.
      * eauto.
Qed.

Lemma py_min_least (l : list json) :
  l <> [] ->
  Forall (fun c => exists s t, stamped c s t) l ->
  chronological fromisoformat l ->
  exists m sm tm,
    py_min created_key l = Ret m /\ In m l /\ stamped m sm tm /\
    forall c s t, In c l -> stamped c s t -> seconds tm <= seconds t.
Proof.
  destruct l as [|x l]; [congruence|]. intros _ Hl Hchron.
  inversion Hl as [|? ? (sx & tx & Hx) Hl']; subst.
  destruct (min_scan_least l x sx tx Hx Hl' Hchron)
    as (m & sm & tm & Hm & Hin & Hst & Hle & Hall).
  exists m, sm, tm. cbn [py_min]. rewrite (stamped_key x sx tx Hx). cbn [obind].
  refine (conj Hm (conj Hin (conj Hst _))).
  intros c s t [<-|Hc] Hc'.
  - destruct (stamped_fun _ _ _ _ _ Hx Hc') as [_ <-]. lia.
  - eauto.
Qed.

Lemma filter_by_other (author : json) (comments : list json) :
  Forall (fun c => exists l, user_login c = Ret l) comments ->
  filter_outcome
    (fun c => let? login := user_login c in
              Ret (negb (py_eq login author))) comments
  = Ret (filter (by_other author) comments).
Proof.
  induction 1 as [|c l (lg & Hc) _ IH]; [reflexivity|].
  cbn [filter_outcome filter]. rewrite IH, Hc. cbn [obind].
  unfold by_other, login_of. now rewrite Hc.
Qed.

Lemma well_formed_stamped (t0 : datetime) (l : list json) :
  Forall (well_formed_comment fromisoformat t0) l ->
  Forall (fun c => exists s t, stamped c s t) l.
Proof.
  apply Forall_impl. intros c (_ & s & t & H & _). eauto.
Qed.

Lemma chronological_incl (l l' : list json) :
  incl l' l -> chronological fromisoformat l -> chronological fromisoformat l'.
Proof.
  intros Hincl H c1 c2 s1 s2 t1 t2 H1 H2. apply H; auto.
Qed.

(** The time from the creation of the issue to the first of a non-empty
    list of well-formed comments. *)
Lemma first_of_comments (created : json) (t0 : datetime) (l : list json) :
  parse_timestamp created = Ret (Some t0) ->
  l <> [] ->
  Forall (well_formed_comment fromisoformat t0) l ->
  chronological fromisoformat l ->
  exists c t,
    In c l /\ time_of c = Some t /\
    (forall c' t', In c' l -> time_of c' = Some t' ->
                   seconds t <= seconds t') /\
    (let? first := py_min created_key l in
     let? stamp := py_get first "created_at" JNull in
     calculate_time_diff created stamp)
    = Ret (Some (seconds t - seconds t0)).
Proof.
  intros Hcreated Hne Hwf Hchron.
  destruct (py_min_least l Hne (well_formed_stamped t0 l Hwf) Hchron)
    as (m & sm & tm & Hmin & Hin & Hst & Hall).
  exists m, tm. split; [exact Hin|]. split; [now apply (stamped_time m sm)|].
  split.
  - intros c' t' Hc' Ht'.
    rewrite Forall_forall in Hwf.
    destruct (Hwf c' Hc') as (_ & s & t & Hs & _).
    rewrite (stamped_time c' s t Hs) in Ht'. injection Ht' as <-. eauto.
  - rewrite Hmin. cbn [obind]. destruct Hst as (Hget & Hsm & Htm).
    rewrite Hget. cbn [obind].
    apply calculate_time_diff_present; auto.
    + now apply parse_timestamp_stamp.
    + rewrite Forall_forall in Hwf.
      destruct (Hwf m Hin) as (_ & s & t & Hs & Haw).
      destruct (stamped_fun m s sm t tm Hs (conj Hget (conj Hsm Htm)))
        as [_ <-].
      exact Haw.
Qed.

(** The general part of C9. *)
Lemma first_response_least (issue : json) (comments : list json)
    (created : json) (t0 : datetime) (author : json) :
  py_get issue "created_at" JNull = Ret created ->
  parse_timestamp created = Ret (Some t0) ->
  closed_at_ok fromisoformat t0 issue ->
  user_login issue = Ret author ->
  Forall (well_formed_comment fromisoformat t0) comments ->
  chronological fromisoformat comments ->
  exists m,
    calculate_timestamps issue comments = Ret m /\
    match filter (by_other author) comments with
    | [] => time_to_first_response_seconds m = None
    | (_ :: _) as others =>
        exists c t,
          In c others /\ time_of c = Some t /\
          (forall c' t', In c' others -> time_of c' = Some t' ->
                         seconds t <= seconds t') /\
          time_to_first_response_seconds m = Some (seconds t - seconds t0)
    end.
Proof.
  intros Hcreated Hparse (closed & Hclosed & Hok) Hauthor Hwf Hchron.
  destruct (parse_timestamp_some created t0 Hparse)
    as (s0 & -> & Htruthy & Hs0).
  unfold calculate_timestamps. rewrite Hcreated, Hclosed. cbn [obind].
  rewrite Htruthy. cbn [andb].
  assert (Hclose : exists p,
    (if truthy closed
     then let? d := calculate_time_diff (JStr s0) closed in
          match d with
          | Some s => Ret (Some s, Some (RoundedDays s))
          | None => Raise TypeError
          end
     else Ret (None, None)) = Ret p).
  { destruct Hok as [-> | (t & Ht & Haw)]; [eauto|].
    destruct (parse_timestamp_some closed t Ht) as (? & _ & -> & _).
    rewrite (calculate_time_diff_present (JStr s0) closed t0 t Hparse Ht Haw).
    cbn. eauto. }
  destruct Hclose as (p & ->). cbn [obind].
  destruct comments as [|c0 comments'].
  { cbn. eexists. split; reflexivity. }
  cbv iota.
  remember (c0 :: comments') as comments eqn:Hcomments.
  assert (Hne : comments <> []) by (rewrite Hcomments; discriminate).
  destruct (first_of_comments (JStr s0) t0 comments Hparse Hne Hwf Hchron)
    as (c1 & t1 & _ & _ & _ & Hfirst).
  rewrite Hfirst.
  cbn [obind]. rewrite Hauthor. cbn [obind].
  rewrite filter_by_other
    by (revert Hwf; apply Forall_impl; now intros ? [? _]).
  cbn [obind].
  assert (Hincl : incl (filter (by_other author) comments) comments).
  { intros x Hx. now apply filter_In in Hx. }
  pose proof (incl_Forall Hincl Hwf) as Hwf'.
  pose proof (chronological_incl _ _ Hincl Hchron) as Hchron'.
  destruct (filter (by_other author) comments) as [|o others'].
  { eexists. split; reflexivity. }
  cbv iota.
  remember (o :: others') as others eqn:Hothers.
  assert (Hne' : others <> []) by (rewrite Hothers; discriminate).
  destruct (first_of_comments (JStr s0) t0 others Hparse Hne' Hwf' Hchron')
    as (c2 & t2 & Hin2 & Ht2 & Hleast & Hresp).
  rewrite Hresp.
  cbn [obind]. eexists. split; [reflexivity|].
  exists c2, t2. subst others. cbn. auto.
Qed.

End WithParser.

(** C9: with a creation timestamp on the issue and comments as the API
    sends them, [time_to_first_response_seconds] is absent when every
    comment is the author's, and otherwise is the time in seconds from the
    creation of the issue to the earliest of the comments that are not the
    author's.  For alice's issue created at t = 0, with a comment of alice
    at t = 0 and one of bob at t = 100, it is 100. *)
Theorem first_response_excludes_author :
  (forall fromisoformat issue comments created t0 author,
     py_get issue "created_at" JNull = Ret created ->
     parse_timestamp fromisoformat created = Ret (Some t0) ->
     closed_at_ok fromisoformat t0 issue ->
     user_login issue = Ret author ->
     Forall (well_formed_comment fromisoformat t0) comments ->
     chronological fromisoformat comments ->
     exists m,
       calculate_timestamps fromisoformat issue comments = Ret m /\
       match filter (by_other author) comments with
       | [] => time_to_first_response_seconds m = None
       | (_ :: _) as others =>
           exists c t,
             In c others /\ time_of fromisoformat c = Some t /\
             (forall c' t', In c' others ->
                            time_of fromisoformat c' = Some t' ->
                            seconds t <= seconds t') /\
             time_to_first_response_seconds m
             = Some (seconds t - seconds t0)
       end) /\
  calculate_timestamps github_fromisoformat alice_issue alice_bob_comments
  = Ret {| time_to_close_seconds := None;
           time_to_first_comment_seconds := Some 0;
           time_to_first_response_seconds := Some 100;
           time_open_days := None |}.
Proof.
  split; [|reflexivity].
  intros. eapply first_response_least; eauto.
Qed.

Lemma alice_bob_chronological :
  chronological github_fromisoformat alice_bob_comments.
Proof.
  intros c1 c2 s1 s2 t1 t2 H1 H2 (G1 & _ & T1) (G2 & _ & T2).
  cbn in H1, H2.
  destruct H1 as [<-|[<-|[]]]; destruct H2 as [<-|[<-|[]]];
    cbn in G1, G2; injection G1 as <-; injection G2 as <-;
    vm_compute in T1, T2; injection T1 as <-; injection T2 as <-;
    vm_compute; split; (discriminate || reflexivity || auto).
Qed.

(** The general part of [first_response_excludes_author] at alice's issue. *)
Lemma first_response_excludes_author_witness :
  exists m,
    calculate_timestamps github_fromisoformat alice_issue alice_bob_comments
    = Ret m /\
    exists c t,
      In c [comment 2 "bob" (JStr "2024-05-01T10:01:40Z")] /\
      time_of github_fromisoformat c = Some t /\
      (forall c' t',
          In c' [comment 2 "bob" (JStr "2024-05-01T10:01:40Z")] ->
          time_of github_fromisoformat c' = Some t' ->
          seconds t <= seconds t') /\
      time_to_first_response_seconds m = Some (seconds t - 1714557600).
Proof.
  apply (proj1 first_response_excludes_author github_fromisoformat
           alice_issue alice_bob_comments
           (JStr "2024-05-01T10:00:00Z") (mk_datetime true 1714557600)
           (JStr "alice")).
  - reflexivity.
  - reflexivity.
  - exists JNull. split; [reflexivity | now left].
  - reflexivity.
  - repeat constructor;
      (eexists; reflexivity) ||
      (do 2 eexists; split;
       [split; [reflexivity | split; [discriminate | reflexivity]]
       | reflexivity]).
  - exact alice_bob_chronological.
Defined.

(** C6 fails on the code: a null timestamp on a comment or on an event, next
    to another comment or event of the kind, makes [min] compare [None] with
    a string, and both calculators raise [TypeError]. *)
Theorem null_timestamps_raise :
  calculate_timestamps github_fromisoformat alice_issue comments_null_time
  = Raise TypeError /\
  calculate_reopen_metrics github_fromisoformat reopened_issue
    events_null_time
  = Raise TypeError.
Proof. split; reflexivity. Qed.

End MetricsProofs.

(** ** The closing-method resolver *)

Module ResolverProofs.
Import ResolverSpec.
#[local] Open Scope list_scope.

(** *** The monad *)

Lemma obind_ret_inv {A B} (o : outcome A) (k : A -> outcome B) (b : B) :
  obind o k = Ret b -> exists a, o = Ret a /\ k a = Ret b.
Proof. destruct o; cbn; try discriminate. eauto. Qed.

Lemma bind_ret_inv {A B} (m : M A) (k : A -> M B) (tr tr' : trace) (b : B) :
  bind m k tr = (Ret b, tr') ->
  exists a tr1, m tr = (Ret a, tr1) /\ k a tr1 = (Ret b, tr').
Proof.
  unfold bind. destruct (m tr) as [[a|e|] tr1]; try discriminate. eauto.
Qed.

Lemma lift_ret_inv {A} (o : outcome A) (tr tr' : trace) (a : A) :
  lift o tr = (Ret a, tr') -> o = Ret a /\ tr' = tr.
Proof. unfold lift. intros [= -> ->]. auto. Qed.

Lemma ret_inv {A} (a b : A) (tr tr' : trace) :
  ret a tr = (Ret b, tr') -> a = b /\ tr' = tr.
Proof. unfold ret. intros [= -> ->]. auto. Qed.

Lemma try_except_ret_inv {A} (m : M A) (h : exn -> M A) (tr tr' : trace)
    (a : A) :
  try_except m h tr = (Ret a, tr') ->
  m tr = (Ret a, tr') \/
  exists e tr1, m tr = (Raise e, tr1) /\ h e tr1 = (Ret a, tr').
Proof.
  unfold try_except. destruct (m tr) as [[x|e|] tr1]; try discriminate; eauto.
Qed.

Lemma bind_ret {A B} (m : M A) (k : A -> M B) (tr tr1 : trace) (a : A) :
  m tr = (Ret a, tr1) -> bind m k tr = k a tr1.
Proof. unfold bind. now intros ->. Qed.

Lemma bind_lift {A B} (o : outcome A) (k : A -> M B) (tr : trace) (a : A) :
  o = Ret a -> bind (lift o) k tr = k a tr.
Proof. intros ->. reflexivity. Qed.

(** Take a successful run of a sequence of steps apart: [step] splits the
    first step off, [finish] reads a final [ret]. *)
Ltac step H x tr Hx :=
  apply bind_ret_inv in H; destruct H as (x & tr & Hx & H);
  try (apply lift_ret_inv in Hx; destruct Hx as [Hx ->]).

Ltac finish H :=
  first [ apply ret_inv in H; destruct H as [H ->]
        | apply lift_ret_inv in H; destruct H as [H ->] ].

Section WithWorld.

Variable fromisoformat : string -> option datetime.
Variable net : trace -> request -> outcome json.
Variable max_pages : nat.

#[local] Abbreviation parse_timestamp := (parse_timestamp fromisoformat).
#[local] Abbreviation validate_pr := (validate_pr fromisoformat).
#[local] Abbreviation merged_since := (merged_since fromisoformat).
#[local] Abbreviation merged_time := (merged_time fromisoformat).
#[local] Abbreviation extract_pr_metrics :=
  (extract_pr_metrics net max_pages).
#[local] Abbreviation extract_commit_metrics := (extract_commit_metrics net).
#[local] Abbreviation check_pr := (check_pr fromisoformat net max_pages).
#[local] Abbreviation strategy1 := (strategy1 fromisoformat net max_pages).
#[local] Abbreviation strategy2_event :=
  (strategy2_event fromisoformat net max_pages).
#[local] Abbreviation strategy2 := (strategy2 fromisoformat net max_pages).
#[local] Abbreviation strategy3_commit :=
  (strategy3_commit fromisoformat net max_pages).
#[local] Abbreviation strategy3_event :=
  (strategy3_event fromisoformat net max_pages).
#[local] Abbreviation strategy3 := (strategy3 fromisoformat net max_pages).
#[local] Abbreviation strategy4 := (strategy4 fromisoformat net max_pages).
#[local] Abbreviation find_closing_method :=
  (find_closing_method fromisoformat net max_pages).
#[local] Abbreviation build_output_closing :=
  (build_output_closing fromisoformat net max_pages).

(** *** What an accepted candidate has gone through *)

Lemma validate_pr_valid (limit : Z) (pm : json) (ct zt : option datetime) :
  validate_pr limit pm ct zt = Ret Valid ->
  truthy pm = true /\
  exists m c z,
    merged_time pm = Some m /\ ct = Some c /\ zt = Some z /\
    aware m = aware c /\ seconds c <= seconds m /\
    aware m = aware z /\ gap m z <= limit.
Proof.
  unfold validate_pr, merged_time.
  destruct (truthy pm); [|discriminate]. intros H. split; [reflexivity|].
  apply obind_ret_inv in H. destruct H as (merged & Hmerged & H).
  destruct (truthy merged); [|discriminate].
  apply obind_ret_inv in H. destruct H as (merged_at & Hat & H).
  apply obind_ret_inv in H. destruct H as (mt & Hmt & H).
  destruct mt as [m|]; [|discriminate].
  destruct ct as [c|]; [|discriminate].
  destruct zt as [z|]; [|discriminate].
  apply obind_ret_inv in H. destruct H as (before & Hbefore & H).
  destruct before; [discriminate|].
  apply obind_ret_inv in H. destruct H as (diff & Hdiff & H).
  destruct (Z.abs diff >? limit) eqn:Hgap; [discriminate|].
  unfold dt_lt in Hbefore. unfold dt_diff in Hdiff.
  destruct (Bool.eqb (aware m) (aware c)) eqn:Hmc; [|discriminate].
  destruct (Bool.eqb (aware m) (aware z)) eqn:Hmz; [|discriminate].
  apply Bool.eqb_prop in Hmc, Hmz.
  injection Hbefore as Hbefore. injection Hdiff as <-.
  exists m, c, z. rewrite Hat, Hmt. unfold gap.
  repeat split; auto; lia.
Qed.

#[local] Abbreviation accepted := (accepted fromisoformat).

Section Issue.

Variables owner repo : string.
Variables ct zt : option datetime.

Lemma check_pr_valid (limit : Z) (n : json) (tr tr' : trace)
    (c : json * verdict) :
  check_pr owner repo ct zt limit n tr = (Ret c, tr') ->
  snd c = Valid ->
  validate_pr limit (fst c) ct zt = Ret Valid.
Proof.
  unfold check_pr. intros H Hv.
  step H pm tr1 Hpm. step H v tr2 Hval. finish H.
  subst c. cbn in *. now subst.
Qed.

(** The shape shared by the three places where a candidate taken from the
    source of an event is accepted. *)
Lemma accept_done (limit : Z) (n : json) (tr tr' : trace)
    (r : json * json) (k : M (flow (json * json))) :
  (forall tr1 tr2, k tr1 = (Ret (Done r), tr2) -> accepted limit ct zt r) ->
  (let* c := check_pr owner repo ct zt limit n in
   match snd c with
   | Valid => ret (Done (fst c, JNull))
   | TooEarly | TooFar => ret Next
   | Unchecked => k
   end) tr = (Ret (Done r), tr') ->
  accepted limit ct zt r.
Proof.
  intros Hk H. step H c tr1 Hc.
  destruct (snd c) eqn:Hv; try (finish H; discriminate); [eauto|].
  finish H. injection H as <-. split; [reflexivity|]. cbn.
  eapply check_pr_valid; eauto.
Qed.

Lemma ret_next_not_done {A} (r : A) (tr1 tr2 : trace) :
  ret (@Next A) tr1 = (Ret (Done r), tr2) -> False.
Proof. discriminate. Qed.

Lemma strategy1_done (e : json) (tr tr' : trace) (r : json * json) :
  strategy1 owner repo ct zt e tr = (Ret (Done r), tr') ->
  accepted 86400 ct zt r.
Proof.
  unfold strategy1. intros H. step H src tr1 Hsrc.
  destruct src as [n|]; [|discriminate].
  eapply (accept_done 86400 n tr tr' r (ret Next));
    [intros ? ? []%ret_next_not_done | exact H].
Qed.

Lemma strategy2_event_done (e : json) (tr tr' : trace) (r : json * json) :
  strategy2_event owner repo ct zt e tr = (Ret (Done r), tr') ->
  accepted 604800 ct zt r.
Proof.
  unfold strategy2_event. intros H. step H src tr1 Hsrc.
  destruct src as [n|]; [|discriminate].
  eapply (accept_done 604800 n tr tr' r (ret Next));
    [intros ? ? []%ret_next_not_done | exact H].
Qed.

Lemma for_each_done {A} (P : A -> Prop) (body : json -> M (flow A)) :
  (forall x tr tr' r, body x tr = (Ret (Done r), tr') -> P r) ->
  forall l tr tr' r, for_each body l tr = (Ret (Done r), tr') -> P r.
Proof.
  intros Hbody. induction l as [|x l IH]; intros tr tr' r H; cbn in H.
  - discriminate.
  - step H f tr1 Hf. destruct f as [|v].
    + eauto.
    + finish H. injection H as <-. eauto.
Qed.

Lemma strategy2_done (events : list json) (tr tr' : trace)
    (r : json * json) :
  strategy2 owner repo ct zt events tr = (Ret (Done r), tr') ->
  accepted 604800 ct zt r.
Proof.
  unfold strategy2. intros H.
  step H evs tr1 Hevs. step H ordered tr2 Hordered.
  eapply for_each_done; [|exact H]. apply strategy2_event_done.
Qed.

Lemma strategy3_commit_done (e : json) (tr tr' : trace) (r : json * json) :
  strategy3_commit owner repo ct zt e tr = (Ret (Done r), tr') ->
  accepted 604800 ct zt r.
Proof.
  unfold strategy3_commit. intros H. step H sha tr1 Hsha.
  destruct (truthy sha); [|discriminate].
  apply try_except_ret_inv in H.
  destruct H as [H | (x & tr1 & _ & H)]; [|discriminate].
  step H prs tr1 Hprs.
  destruct (truthy prs); [|discriminate].
  step H pr0 tr2 Hpr0. step H n tr3 Hn.
  eapply (accept_done 604800 n _ tr' r (ret Next));
    [intros ? ? []%ret_next_not_done | exact H].
Qed.

Lemma strategy3_event_done (e : json) (tr tr' : trace) (r : json * json) :
  strategy3_event owner repo ct zt e tr = (Ret (Done r), tr') ->
  accepted 604800 ct zt r.
Proof.
  unfold strategy3_event. intros H. step H src tr1 Hsrc.
  destruct src as [n|]; [|eapply strategy3_commit_done; eauto].
  eapply (accept_done 604800 n tr tr' r
            (strategy3_commit owner repo ct zt e)); [|exact H].
  intros. eapply strategy3_commit_done; eauto.
Qed.

Lemma strategy3_done (events : list json) (tr tr' : trace)
    (r : json * json) :
  strategy3 owner repo ct zt events tr = (Ret (Done r), tr') ->
  accepted 604800 ct zt r.
Proof.
  unfold strategy3. intros H.
  step H evs tr1 Hevs. step H ordered tr2 Hordered.
  eapply for_each_done; [|exact H]. apply strategy3_event_done.
Qed.

Lemma strategy4_ret (e : json) (tr tr' : trace) (r : json * json) :
  strategy4 owner repo ct zt e tr = (Ret r, tr') ->
  fst r = JNull \/ accepted 604800 ct zt r.
Proof.
  unfold strategy4. intros H. step H sha tr1 Hsha.
  destruct (truthy sha); [|finish H; subst; now left].
  apply try_except_ret_inv in H.
  destruct H as [H | (x & tr1 & _ & H)]; [|finish H; subst; now left].
  step H prs tr1 Hprs.
  destruct (truthy prs).
  - step H pr0 tr2 Hpr0. step H n tr3 Hn. step H c tr4 Hc.
    destruct (snd c) eqn:Hv; finish H; subst; try (now left).
    right. split; [reflexivity|]. cbn. eapply check_pr_valid; eauto.
  - step H u tr2 Hu. step H cm tr3 Hcm. finish H. subst. now left.
Qed.

End Issue.

(** Whatever [find_closing_method] returns is without a pull request, or is
    a pull request that went through the checks of one of the strategies,
    without a commit. *)
Lemma find_closing_method_ret (owner repo : string) (number : json)
    (created_at closed_at : json) (events : list json) (tr tr' : trace)
    (r : json * json) :
  find_closing_method owner repo number created_at closed_at events tr
  = (Ret r, tr') ->
  fst r = JNull \/
  exists limit ct zt,
    parse_timestamp created_at = Ret ct /\
    parse_timestamp closed_at = Ret zt /\
    accepted limit ct zt r.
Proof.
  unfold find_closing_method. intros H.
  destruct (truthy closed_at); cbn [negb] in H;
    [|finish H; subst; now left].
  step H ct tr1 Hct. step H zt tr2 Hzt. step H closed_events tr3 Hclosed.
  destruct closed_events as [|e0 es]; [finish H; subst; now left|].
  step H closed_event tr4 Hmax. step H r1 tr5 H1.
  destruct r1 as [|r1].
  2:{ finish H. subst. right. exists 86400, ct, zt.
      eauto using strategy1_done. }
  step H r2 tr6 H2. destruct r2 as [|r2].
  2:{ finish H. subst. right. exists 604800, ct, zt.
      eauto using strategy2_done. }
  step H r3 tr7 H3. destruct r3 as [|r3].
  2:{ finish H. subst. right. exists 604800, ct, zt.
      eauto using strategy3_done. }
  apply strategy4_ret in H. destruct H as [H|H]; [now left|].
  right. exists 604800, ct, zt. auto.
Qed.

Lemma accepted_merged_since (limit : Z) (ct zt : option datetime)
    (r : json * json) :
  accepted limit ct zt r ->
  fst r <> JNull /\ snd r = JNull /\ merged_since ct (fst r).
Proof.
  intros [Hsnd Hval]. apply validate_pr_valid in Hval.
  destruct Hval as (Htruthy & m & c & z & Hm & -> & -> & Hmc & Hle & _).
  split; [|split; [exact Hsnd|]].
  - intros Heq. rewrite Heq in Htruthy. discriminate.
  - exists m, c. auto.
Qed.

(** C1: of the two components of a result of [find_closing_method], and so
    of the [closing_pr] and [closing_commit] that [build_output] stores, at
    most one is not [None]. *)
Theorem closing_pair_exclusive :
  (forall owner repo number created_at closed_at events tr tr' pr commit,
      find_closing_method owner repo number created_at closed_at events tr
      = (Ret (pr, commit), tr') ->
      pr = JNull \/ commit = JNull) /\
  (forall owner repo number issue events tr tr' pr commit,
      build_output_closing owner repo number issue events tr
      = (Ret (pr, commit), tr') ->
      pr = JNull \/ commit = JNull).
Proof.
  assert (Hfind : forall owner repo number created_at closed_at events
                         tr tr' pr commit,
      find_closing_method owner repo number created_at closed_at events tr
      = (Ret (pr, commit), tr') ->
      pr = JNull \/ commit = JNull).
  { intros * H. apply find_closing_method_ret in H.
    destruct H as [H | (limit & ct & zt & _ & _ & H)]; [now left|].
    apply accepted_merged_since in H. right. apply H. }
  split; [exact Hfind|].
  intros * H. unfold build_output_closing in H.
  step H state tr1 Hstate.
  destruct (eq_str state "closed").
  - step H created_at tr2 Hcreated. step H closed_at tr3 Hclosed. eauto.
  - finish H. injection H as <- <-. now left.
Qed.

(** C7: a pull request returned by a strategy, or by the resolver as a
    whole, has a merge time that is not before the creation time of the
    issue. *)
Theorem merged_before_creation_rejected (owner repo : string) :
  (forall ct zt e tr tr' pr commit,
      strategy1 owner repo ct zt e tr = (Ret (Done (pr, commit)), tr') ->
      merged_since ct pr) /\
  (forall ct zt events tr tr' pr commit,
      strategy2 owner repo ct zt events tr = (Ret (Done (pr, commit)), tr') ->
      merged_since ct pr) /\
  (forall ct zt events tr tr' pr commit,
      strategy3 owner repo ct zt events tr = (Ret (Done (pr, commit)), tr') ->
      merged_since ct pr) /\
  (forall ct zt e tr tr' pr commit,
      strategy4 owner repo ct zt e tr = (Ret (pr, commit), tr') ->
      pr <> JNull ->
      merged_since ct pr) /\
  (forall number created_at closed_at events tr tr' pr commit,
      find_closing_method owner repo number created_at closed_at events tr
      = (Ret (pr, commit), tr') ->
      pr <> JNull ->
      exists created,
        parse_timestamp created_at = Ret created /\ merged_since created pr).
Proof.
  repeat split.
  - intros * H. now apply strategy1_done, accepted_merged_since in H.
  - intros * H. now apply strategy2_done, accepted_merged_since in H.
  - intros * H. now apply strategy3_done, accepted_merged_since in H.
  - intros * H Hpr. apply strategy4_ret in H.
    destruct H as [H|H]; [contradiction|].
    now apply accepted_merged_since in H.
  - intros * H Hpr. apply find_closing_method_ret in H.
    destruct H as [H | (limit & created & closed & Hc & _ & H)];
      [contradiction|].
    exists created. split; [exact Hc|].
    now apply accepted_merged_since in H.
Qed.

Lemma events_of_kind_none (kind : string) (events : list json) :
  Forall (fun e => exists k, py_get e "event" JNull = Ret k /\
                             eq_str k kind = false) events ->
  events_of_kind kind events = Ret [].
Proof.
  induction 1 as [|e l (k & Hk & Hne) _ IH]; [reflexivity|].
  cbn [events_of_kind]. rewrite Hk, IH. cbn. now rewrite Hne.
Qed.

(** C2: without a [closed_at], or with well-formed timestamps and a
    timeline of objects none of which is a [closed] event,
    [find_closing_method] returns [(None, None)] and issues no request. *)
Theorem no_closure_no_fetch (owner repo : string) (number : json)
    (created_at closed_at : json) (events : list json) (tr : trace) :
  truthy closed_at = false \/
  ((exists ct, parse_timestamp created_at = Ret ct) /\
   (exists zt, parse_timestamp closed_at = Ret zt) /\
   Forall (fun e => exists kind, py_get e "event" JNull = Ret kind /\
                                 eq_str kind "closed" = false) events) ->
  find_closing_method owner repo number created_at closed_at events tr
  = (Ret (JNull, JNull), tr).
Proof.
  unfold find_closing_method.
  intros [-> | ((ct & Hct) & (zt & Hzt) & Hev)]; [reflexivity|].
  destruct (truthy closed_at); [|reflexivity]. cbn [negb].
  rewrite (bind_lift _ _ _ _ Hct), (bind_lift _ _ _ _ Hzt).
  now rewrite (bind_lift _ _ _ _ (events_of_kind_none "closed" events Hev)).
Qed.

(** *** The requests of a candidate *)

Lemma fetch_pages_trace (url : Z -> request) (fuel : nat) :
  forall page items tr,
    exists calls,
      snd (fetch_pages net fuel url page items tr) = (tr ++ calls)%list /\
      Forall (fun req => exists p, req = url p) calls.
Proof.
  induction fuel as [|fuel IH]; intros page items tr; cbn [fetch_pages].
  - exists []. cbn. now rewrite app_nil_r.
  - unfold bind at 1. unfold fetch at 1.
    assert (Hone : Forall (fun req => exists p, req = url p) [url page])
      by (repeat constructor; eauto).
    destruct (net tr (url page)) as [data|e|];
      try (exists [url page]; split; [reflexivity | exact Hone]).
    destruct (truthy data); cbn [negb];
      [|exists [url page]; split; [reflexivity | exact Hone]].
    unfold bind, lift.
    destruct (py_iter data) as [more|e|];
      try (exists [url page]; split; [reflexivity | exact Hone]).
    destruct (py_len data) as [n|e|];
      try (exists [url page]; split; [reflexivity | exact Hone]).
    destruct (n <? 100);
      [exists [url page]; split; [reflexivity | exact Hone]|].
    destruct (IH (page + 1) (items ++ more)%list (tr ++ [url page])%list)
      as (calls & Hcalls & Hall).
    exists (url page :: calls). rewrite Hcalls.
    split; [now rewrite <- app_assoc | now constructor; eauto].
Qed.

Lemma extract_pr_metrics_trace (owner repo : string) (n : json) (tr : trace) :
  exists calls,
    snd (extract_pr_metrics owner repo n tr) = (tr ++ calls)%list /\
    Forall (about_pull owner repo n) calls.
Proof.
  unfold extract_pr_metrics, fetch_pr_details, fetch_pr_reviews,
    fetch_paginated.
  assert (Hone : Forall (about_pull owner repo n) [GetPull owner repo n])
    by (repeat constructor; now left).
  unfold bind at 1. unfold try_except at 1. unfold fetch.
  destruct (net tr (GetPull owner repo n)) as [data|e|]; cbn [ret];
    try (exists [GetPull owner repo n]; split; [reflexivity | exact Hone]).
  destruct (truthy data); cbn [negb];
    [|exists [GetPull owner repo n]; split; [reflexivity | exact Hone]].
  destruct (fetch_pages_trace (GetPullReviews owner repo n) max_pages 1 []
              (tr ++ [GetPull owner repo n])%list) as (calls & Hcalls & Hall).
  exists (GetPull owner repo n :: calls).
  split.
  - unfold bind, try_except, lift.
    destruct (fetch_pages _ _ _ _ _ _) as [[reviews|e|] tr2];
      cbn in Hcalls |- *; subst tr2; now rewrite <- app_assoc.
  - constructor; [now left|].
    revert Hall. apply Forall_impl. intros req [p ->]. right. eauto.
Qed.

(** *** Running a strategy on a known candidate *)

Lemma try_except_ret {A} (m : M A) (h : exn -> M A) (tr tr1 : trace) (a : A) :
  m tr = (Ret a, tr1) -> try_except m h tr = (Ret a, tr1).
Proof. unfold try_except. now intros ->. Qed.

Lemma try_except_raise {A} (m : M A) (h : exn -> M A) (tr tr1 : trace)
    (e : exn) :
  m tr = (Raise e, tr1) -> try_except m h tr = h e tr1.
Proof. unfold try_except. now intros ->. Qed.

Lemma bind_raise {A B} (m : M A) (k : A -> M B) (tr tr1 : trace) (e : exn) :
  m tr = (Raise e, tr1) -> bind m k tr = (Raise e, tr1).
Proof. unfold bind. now intros ->. Qed.

Lemma fetch_ret (req : request) (tr : trace) (v : json) :
  net tr req = Ret v -> fetch net req tr = (Ret v, (tr ++ [req])%list).
Proof. unfold fetch. now intros ->. Qed.

Section Candidate.

Variables owner repo : string.
Variables ct zt : option datetime.
Variable limit : Z.
Variables n pm : json.
Variables tr tr1 : trace.

Hypothesis Hextract : extract_pr_metrics owner repo n tr = (Ret pm, tr1).

Lemma check_pr_run (v : verdict) :
  validate_pr limit pm ct zt = Ret v ->
  check_pr owner repo ct zt limit n tr = (Ret (pm, v), tr1).
Proof.
  intros Hv. unfold check_pr.
  rewrite (bind_ret _ _ _ _ _ Hextract). now rewrite (bind_lift _ _ _ _ Hv).
Qed.


End Candidate.

Section Strategies.

Variables owner repo : string.
Variables ct zt : option datetime.
Variables n pm : json.
Variable v : verdict.

Lemma strategy1_run (e : json) (tr tr1 : trace) :
  source_pr e = Ret (Some n) ->
  extract_pr_metrics owner repo n tr = (Ret pm, tr1) ->
  validate_pr 86400 pm ct zt = Ret v ->
  strategy1 owner repo ct zt e tr
  = (Ret (match v with Valid => Done (pm, JNull) | _ => Next end), tr1).
Proof.
  intros Hsrc Hextract Hv. unfold strategy1.
  rewrite (bind_lift _ _ _ _ Hsrc).
  rewrite (bind_ret _ _ _ _ _ (check_pr_run _ _ _ _ _ _ _ _ _ Hextract v Hv)).
  now destruct v.
Qed.

Lemma strategy2_event_run (e : json) (tr tr1 : trace) :
  source_pr e = Ret (Some n) ->
  extract_pr_metrics owner repo n tr = (Ret pm, tr1) ->
  validate_pr 604800 pm ct zt = Ret v ->
  strategy2_event owner repo ct zt e tr
  = (Ret (match v with Valid => Done (pm, JNull) | _ => Next end), tr1).
Proof.
  intros Hsrc Hextract Hv. unfold strategy2_event.
  rewrite (bind_lift _ _ _ _ Hsrc).
  rewrite (bind_ret _ _ _ _ _ (check_pr_run _ _ _ _ _ _ _ _ _ Hextract v Hv)).
  now destruct v.
Qed.

Lemma strategy3_event_run (e : json) (tr tr1 : trace) :
  source_pr e = Ret (Some n) ->
  extract_pr_metrics owner repo n tr = (Ret pm, tr1) ->
  validate_pr 604800 pm ct zt = Ret v ->
  strategy3_event owner repo ct zt e tr
  = match v with
    | Valid => (Ret (Done (pm, JNull)), tr1)
    | TooEarly | TooFar => (Ret Next, tr1)
    | Unchecked => strategy3_commit owner repo ct zt e tr1
    end.
Proof.
  intros Hsrc Hextract Hv. unfold strategy3_event.
  rewrite (bind_lift _ _ _ _ Hsrc).
  rewrite (bind_ret _ _ _ _ _ (check_pr_run _ _ _ _ _ _ _ _ _ Hextract v Hv)).
  now destruct v.
Qed.

Lemma strategy3_commit_run (e sha prs pr0 : json) (tr tr1 : trace) :
  py_get e "commit_id" JNull = Ret sha ->
  truthy sha = true ->
  net tr (GetCommitPulls owner repo sha) = Ret prs ->
  truthy prs = true ->
  py_index0 prs = Ret pr0 ->
  py_get pr0 "number" JNull = Ret n ->
  extract_pr_metrics owner repo n (tr ++ [GetCommitPulls owner repo sha])
  = (Ret pm, tr1) ->
  validate_pr 604800 pm ct zt = Ret v ->
  strategy3_commit owner repo ct zt e tr
  = (Ret (match v with Valid => Done (pm, JNull) | _ => Next end), tr1).
Proof.
  intros Hsha Htruthy Hnet Hprs Hpr0 Hn Hextract Hv. unfold strategy3_commit.
  rewrite (bind_lift _ _ _ _ Hsha), Htruthy.
  apply try_except_ret.
  rewrite (bind_ret _ _ _ _ _ (fetch_ret _ _ _ Hnet)), Hprs.
  rewrite (bind_lift _ _ _ _ Hpr0), (bind_lift _ _ _ _ Hn).
  rewrite (bind_ret _ _ _ _ _ (check_pr_run _ _ _ _ _ _ _ _ _ Hextract v Hv)).
  now destruct v.
Qed.

Lemma strategy4_run (e sha prs pr0 : json) (tr tr1 : trace) :
  closing_commit_sha e = Ret sha ->
  truthy sha = true ->
  net tr (GetCommitPulls owner repo sha) = Ret prs ->
  truthy prs = true ->
  py_index0 prs = Ret pr0 ->
  py_get pr0 "number" JNull = Ret n ->
  extract_pr_metrics owner repo n (tr ++ [GetCommitPulls owner repo sha])
  = (Ret pm, tr1) ->
  validate_pr 604800 pm ct zt = Ret v ->
  strategy4 owner repo ct zt e tr
  = (Ret (match v with Valid => (pm, JNull) | _ => (JNull, JNull) end), tr1).
Proof.
  intros Hsha Htruthy Hnet Hprs Hpr0 Hn Hextract Hv. unfold strategy4.
  rewrite (bind_lift _ _ _ _ Hsha), Htruthy.
  apply try_except_ret.
  rewrite (bind_ret _ _ _ _ _ (fetch_ret _ _ _ Hnet)), Hprs.
  rewrite (bind_lift _ _ _ _ Hpr0), (bind_lift _ _ _ _ Hn).
  rewrite (bind_ret _ _ _ _ _ (check_pr_run _ _ _ _ _ _ _ _ _ Hextract v Hv)).
  now destruct v.
Qed.



End Strategies.


(** *** Strategy 1 ends the resolution *)

(** C8: when the most recent [closed] event has a source with the shape of
    a pull request, and this pull request passes the checks of strategy 1,
    [find_closing_method] returns it right after it is fetched: the
    requests made are those of this candidate, and the result is the same
    for every timeline with the same [closed] events -- no other event is
    looked at. *)
Theorem strategy1_short_circuits (owner repo : string) (number : json)
    (created_at closed_at : json) (events : list json) (tr tr1 : trace)
    (ct zt : option datetime) (closed_events : list json)
    (closed_event pr_number pm : json) :
  truthy closed_at = true ->
  parse_timestamp created_at = Ret ct ->
  parse_timestamp closed_at = Ret zt ->
  events_of_kind "closed" events = Ret closed_events ->
  closed_events <> [] ->
  py_max created_key closed_events = Ret closed_event ->
  source_pr closed_event = Ret (Some pr_number) ->
  extract_pr_metrics owner repo pr_number tr = (Ret pm, tr1) ->
  validate_pr 86400 pm ct zt = Ret Valid ->
  find_closing_method owner repo number created_at closed_at events tr
  = (Ret (pm, JNull), tr1) /\
  (exists calls,
      tr1 = tr ++ calls /\
      Forall (about_pull owner repo pr_number) calls) /\
  (forall events',
      events_of_kind "closed" events' = Ret closed_events ->
      find_closing_method owner repo number created_at closed_at events' tr
      = (Ret (pm, JNull), tr1)).
Proof.
  intros Hclosed Hct Hzt Hevents Hne Hmax Hsrc Hextract Hvalid.
  assert (Hrun : forall events',
    events_of_kind "closed" events' = Ret closed_events ->
    find_closing_method owner repo number created_at closed_at events' tr
    = (Ret (pm, JNull), tr1)).
  { intros events' Hevents'. unfold find_closing_method.
    rewrite Hclosed. cbn [negb].
    rewrite (bind_lift _ _ _ _ Hct), (bind_lift _ _ _ _ Hzt),
      (bind_lift _ _ _ _ Hevents').
    destruct closed_events as [|e0 es]; [congruence|].
    rewrite (bind_lift _ _ _ _ Hmax).
    now rewrite (bind_ret _ _ _ _ _
                   (strategy1_run owner repo ct zt pr_number pm Valid
                      closed_event tr tr1 Hsrc Hextract Hvalid)). }
  split; [now apply Hrun|]. split; [|exact Hrun].
  destruct (extract_pr_metrics_trace owner repo pr_number tr)
    as (calls & Hcalls & Hall).
  exists calls. rewrite Hextract in Hcalls. auto.
Qed.

(** *** The plausibility windows *)

Section Window.

Variables pm merged merged_at : json.
Variables m c z : datetime.

Hypothesis Hpm : truthy pm = true.
Hypothesis Hmerged : py_get pm "merged" JNull = Ret merged.
Hypothesis Hmerged_true : truthy merged = true.
Hypothesis Hmerged_at : py_get pm "merged_at" JNull = Ret merged_at.
Hypothesis Hmerged_time : parse_timestamp merged_at = Ret (Some m).
Hypothesis Hclock_created : aware m = aware c.
Hypothesis Hclock_closed : aware m = aware z.
Hypothesis Hsince : seconds c <= seconds m.

Lemma validate_pr_window (limit : Z) :
  validate_pr limit pm (Some c) (Some z)
  = Ret (if gap m z <=? limit then Valid else TooFar).
Proof.
  unfold validate_pr. rewrite Hpm, Hmerged. cbn [obind].
  rewrite Hmerged_true, Hmerged_at. cbn [obind].
  rewrite Hmerged_time. cbn [obind].
  unfold dt_lt, dt_diff. rewrite <- Hclock_created, <- Hclock_closed.
  rewrite !Bool.eqb_reflx. cbn [obind].
  destruct (seconds m <? seconds c) eqn:Hlt; [lia|].
  unfold gap.
  destruct (Z.abs (seconds m - seconds z) >? limit) eqn:Hgt;
    destruct (Z.abs (seconds m - seconds z) <=? limit) eqn:Hle;
    try reflexivity; lia.
Qed.

End Window.

(** *** Strategy 4 *)

Lemma string_app_assoc (a b c : string) :
  ((a ++ b) ++ c = a ++ (b ++ c))%string.
Proof. induction a as [|x a IH]; cbn; [reflexivity | now rewrite IH]. Qed.

Lemma split_slash_nonempty (s : string) : split_slash s <> [].
Proof.
  destruct s as [|c s]; cbn; [discriminate|].
  destruct (Ascii.eqb c "/"); [discriminate|].
  destruct (split_slash s); discriminate.
Qed.





Lemma py_get_returns (o : json) (k : string) (d : json) :
  py_get o k d <> Diverge.
Proof. destruct o; discriminate. Qed.





(** *** Strategy 3 *)

Lemma ltb_asym (s t : string) :
  String.ltb s t = true -> String.ltb t s = false.
Proof.
  unfold String.ltb. rewrite (String.compare_antisym t s).
  now destruct (String.compare s t).
Qed.

Lemma lt_bool_str (s t : string) :
  lt_bool (JStr s) (JStr t) = String.ltb s t.
Proof. unfold lt_bool. cbn. now destruct (String.ltb s t). Qed.

Lemma all_comparable_str (ks : list json) :
  Forall is_str ks -> all_comparable ks = true.
Proof.
  induction 1 as [|k ks [s ->] Hks IH]; [reflexivity|].
  cbn [all_comparable]. rewrite IH, andb_true_r.
  apply forallb_forall. intros k Hk.
  rewrite Forall_forall in Hks. destruct (Hks k Hk) as [t ->]. reflexivity.
Qed.

Lemma insert_sorted_perm (reverse : bool) (x : json * json)
    (l : list (json * json)) :
  Permutation (x :: l) (insert_sorted reverse x l).
Proof.
  induction l as [|y l IH]; cbn [insert_sorted]; [reflexivity|].
  destruct (if reverse then _ else _); [|reflexivity].
  rewrite perm_swap. now apply perm_skip.
Qed.

Lemma insertion_sort_perm (reverse : bool) (l : list (json * json)) :
  Permutation l (fold_right (insert_sorted reverse) [] l).
Proof.
  induction l as [|x l IH]; cbn [fold_right]; [reflexivity|].
  rewrite <- insert_sorted_perm. now apply perm_skip.
Qed.

Lemma insert_sorted_hd (y x : json * json) (l : list (json * json)) :
  keyed_later_or_same y x ->
  HdRel keyed_later_or_same y l ->
  HdRel keyed_later_or_same y (insert_sorted true x l).
Proof.
  intros Hyx Hyl. destruct l as [|y' l]; cbn [insert_sorted].
  - now constructor.
  - destruct (lt_bool (fst x) (fst y')); constructor; auto.
    now inversion Hyl.
Qed.

Lemma insert_sorted_sorted (x : json * json) (l : list (json * json)) :
  is_str (fst x) -> Forall (fun p => is_str (fst p)) l ->
  Sorted keyed_later_or_same l ->
  Sorted keyed_later_or_same (insert_sorted true x l).
Proof.
  intros [sx Hx] Hl Hsorted.
  induction Hsorted as [|y l Hs IH Hhd]; cbn [insert_sorted].
  - repeat constructor.
  - inversion Hl as [|? ? [sy Hy] Hl']; subst.
    destruct (lt_bool (fst x) (fst y)) eqn:Hlt.
    + constructor; [now apply IH|].
      apply insert_sorted_hd; [|assumption].
      unfold keyed_later_or_same. rewrite Hx, Hy, lt_bool_str in *.
      now apply ltb_asym.
    + constructor; [now constructor|]. now constructor.
Qed.

Lemma insertion_sort_sorted (l : list (json * json)) :
  Forall (fun p => is_str (fst p)) l ->
  Sorted keyed_later_or_same (fold_right (insert_sorted true) [] l).
Proof.
  induction 1 as [|x l Hx Hl IH]; cbn [fold_right]; [constructor|].
  apply insert_sorted_sorted; auto.
  eapply Permutation_Forall; [apply insertion_sort_perm | exact Hl].
Qed.

Lemma keyed_events (l : list json) :
  Forall (fun e => is_str (key_of e) /\ created_key e = Ret (key_of e)) l ->
  map_outcome (fun x => let? k := created_key x in Ret (k, x)) l
  = Ret (map (fun x => (key_of x, x)) l).
Proof.
  induction 1 as [|e l [_ He] _ IH]; [reflexivity|].
  cbn [map_outcome map]. rewrite He. cbn [obind]. now rewrite IH.
Qed.

Lemma unkey_sorted (sk : list (json * json)) :
  Forall (fun p => created_key (snd p) = Ret (fst p)) sk ->
  Sorted keyed_later_or_same sk ->
  Sorted later_or_same (map snd sk).
Proof.
  intros Hkeys Hsorted.
  induction Hsorted as [|p sk Hs IH Hhd]; cbn [map]; [constructor|].
  inversion Hkeys as [|? ? Hp Hsk]; subst.
  constructor; [now apply IH|].
  destruct Hhd as [|q sk Hpq]; cbn [map]; constructor.
  inversion Hsk as [|? ? Hq _]; subst.
  intros sa sb Ha Hb. unfold keyed_later_or_same in Hpq.
  rewrite Hp in Ha. rewrite Hq in Hb.
  injection Ha as Ha. injection Hb as Hb.
  now rewrite Ha, Hb, lt_bool_str in Hpq.
Qed.

(** Events with string timestamps (or none) are sorted, latest first. *)
Lemma py_sorted_latest_first (l : list json) :
  Forall (fun e => exists s, created_key e = Ret (JStr s)) l ->
  exists ordered,
    py_sorted created_key true l = Ret ordered /\
    Permutation l ordered /\ Sorted later_or_same ordered.
Proof.
  intros Hl.
  assert (Hkeys : Forall (fun e => is_str (key_of e) /\
                                   created_key e = Ret (key_of e)) l).
  { revert Hl. apply Forall_impl. intros e [s He].
    unfold key_of, is_str. rewrite He. eauto. }
  set (keyed := map (fun x => (key_of x, x)) l).
  assert (Hstr : Forall (fun p => is_str (fst p)) keyed).
  { unfold keyed. rewrite Forall_map. revert Hkeys.
    apply Forall_impl. now intros e [H _]. }
  assert (Hget : Forall (fun p => created_key (snd p) = Ret (fst p)) keyed).
  { unfold keyed. rewrite Forall_map. revert Hkeys.
    apply Forall_impl. now intros e [_ H]. }
  exists (map snd (fold_right (insert_sorted true) [] keyed)).
  split; [|split].
  - unfold py_sorted. rewrite (keyed_events l Hkeys). cbn [obind].
    fold keyed. rewrite all_comparable_str; [reflexivity|].
    rewrite Forall_map. exact Hstr.
  - replace l with (map snd keyed) at 1.
    + apply Permutation_map, insertion_sort_perm.
    + unfold keyed. rewrite map_map. apply map_id.
  - apply unkey_sorted.
    + eapply Permutation_Forall; [apply insertion_sort_perm | exact Hget].
    + now apply insertion_sort_sorted.
Qed.

Lemma strategy3_commit_none (owner repo : string) (ct zt : option datetime)
    (e sha : json) (tr : trace) :
  py_get e "commit_id" JNull = Ret sha ->
  truthy sha = false ->
  strategy3_commit owner repo ct zt e tr = (Ret Next, tr).
Proof.
  intros Hsha Hfalsy. unfold strategy3_commit.
  now rewrite (bind_lift _ _ _ _ Hsha), Hfalsy.
Qed.

(** C5, as the code has it.  Strategy 3 goes through the referenced events
    latest first.  For an event whose source has the shape of a pull
    request, the pull request is fetched and checked: it is returned when
    it passes, the event is left when it is rejected for its merge time,
    and in the remaining case (not fetched, not merged, a timestamp
    missing) the commit-based lookup follows.  For an event whose source
    has not that shape the commit-based lookup is all there is.  The lookup
    asks for the pull requests of the commit the event carries, fetches and
    checks the first, and returns it when it passes. *)
Theorem referenced_event_steps (owner repo : string)
    (ct zt : option datetime) :
  (forall events referenced tr,
      events_of_kind "referenced" events = Ret referenced ->
      Forall (fun e => exists s, created_key e = Ret (JStr s)) referenced ->
      exists ordered,
        Permutation referenced ordered /\
        Sorted later_or_same ordered /\
        strategy3 owner repo ct zt events tr
        = for_each (strategy3_event owner repo ct zt) ordered tr) /\
  (forall e n pm v tr tr1,
      source_pr e = Ret (Some n) ->
      extract_pr_metrics owner repo n tr = (Ret pm, tr1) ->
      validate_pr 604800 pm ct zt = Ret v ->
      strategy3_event owner repo ct zt e tr
      = match v with
        | Valid => (Ret (Done (pm, JNull)), tr1)
        | TooEarly | TooFar => (Ret Next, tr1)
        | Unchecked => strategy3_commit owner repo ct zt e tr1
        end) /\
  (forall e tr,
      source_pr e = Ret None ->
      strategy3_event owner repo ct zt e tr
      = strategy3_commit owner repo ct zt e tr) /\
  (forall e sha tr,
      py_get e "commit_id" JNull = Ret sha ->
      truthy sha = false ->
      strategy3_commit owner repo ct zt e tr = (Ret Next, tr)) /\
  (forall e sha prs pr0 n pm v tr tr1,
      py_get e "commit_id" JNull = Ret sha ->
      truthy sha = true ->
      net tr (GetCommitPulls owner repo sha) = Ret prs ->
      truthy prs = true ->
      py_index0 prs = Ret pr0 ->
      py_get pr0 "number" JNull = Ret n ->
      extract_pr_metrics owner repo n (tr ++ [GetCommitPulls owner repo sha])
      = (Ret pm, tr1) ->
      validate_pr 604800 pm ct zt = Ret v ->
      strategy3_commit owner repo ct zt e tr
      = (Ret (match v with Valid => Done (pm, JNull) | _ => Next end), tr1)).
Proof.
  split; [|split; [|split; [|split]]].
  - intros events referenced tr Hevents Hkeys.
    destruct (py_sorted_latest_first referenced Hkeys)
      as (ordered & Hsorted & Hperm & Hdesc).
    exists ordered. split; [exact Hperm|]. split; [exact Hdesc|].
    unfold strategy3.
    now rewrite (bind_lift _ _ _ _ Hevents), (bind_lift _ _ _ _ Hsorted).
  - intros. now apply strategy3_event_run with (n := n).
  - intros e tr Hsrc. unfold strategy3_event.
    now rewrite (bind_lift _ _ _ _ Hsrc).
  - intros. now apply strategy3_commit_none with (sha := sha).
  - intros. now apply strategy3_commit_run
      with (n := n) (sha := sha) (prs := prs) (pr0 := pr0).
Qed.


(** *** The strategies inside the resolver *)

Lemma for_each_cons_run {A} (body : json -> M (flow A)) (e : json)
    (rest : list json) (r : flow A) (tr tr1 : trace) :
  body e tr = (Ret r, tr1) ->
  for_each body (e :: rest) tr
  = match r with
    | Done v => (Ret (Done v), tr1)
    | Next => for_each body rest tr1
    end.
Proof.
  intros H. cbn [for_each]. rewrite (bind_ret _ _ _ _ _ H). now destruct r.
Qed.

Lemma strategy2_loop (owner repo : string) (ct zt : option datetime)
    (events cross : list json) (tr : trace) :
  events_of_kind "cross-referenced" events = Ret cross ->
  Forall (fun e => exists s, created_key e = Ret (JStr s)) cross ->
  exists ordered,
    Permutation cross ordered /\
    Sorted later_or_same ordered /\
    strategy2 owner repo ct zt events tr
    = for_each (strategy2_event owner repo ct zt) ordered tr.
Proof.
  intros Hevents Hkeys.
  destruct (py_sorted_latest_first cross Hkeys)
    as (ordered & Hsorted & Hperm & Hdesc).
  exists ordered. split; [exact Hperm|]. split; [exact Hdesc|].
  unfold strategy2.
  now rewrite (bind_lift _ _ _ _ Hevents), (bind_lift _ _ _ _ Hsorted).
Qed.

Lemma strategy3_loop (owner repo : string) (ct zt : option datetime)
    (events referenced : list json) (tr : trace) :
  events_of_kind "referenced" events = Ret referenced ->
  Forall (fun e => exists s, created_key e = Ret (JStr s)) referenced ->
  exists ordered,
    Permutation referenced ordered /\
    Sorted later_or_same ordered /\
    strategy3 owner repo ct zt events tr
    = for_each (strategy3_event owner repo ct zt) ordered tr.
Proof.
  intros Hevents Hkeys.
  destruct (py_sorted_latest_first referenced Hkeys)
    as (ordered & Hsorted & Hperm & Hdesc).
  exists ordered. split; [exact Hperm|]. split; [exact Hdesc|].
  unfold strategy3.
  now rewrite (bind_lift _ _ _ _ Hevents), (bind_lift _ _ _ _ Hsorted).
Qed.

Section Resolution.

Variables owner repo : string.
Variable number : json.
Variables created_at closed_at : json.
Variables ct zt : option datetime.
Variables events closed_events : list json.
Variable closed_event : json.

Hypothesis Hclosed_at : truthy closed_at = true.
Hypothesis Hct : parse_timestamp created_at = Ret ct.
Hypothesis Hzt : parse_timestamp closed_at = Ret zt.
Hypothesis Hevents : events_of_kind "closed" events = Ret closed_events.
Hypothesis Hne : closed_events <> [].
Hypothesis Hmax : py_max created_key closed_events = Ret closed_event.

#[local] Abbreviation resolve :=
  (find_closing_method owner repo number created_at closed_at events).

Ltac enter :=
  unfold find_closing_method; rewrite Hclosed_at; cbn [negb];
  rewrite (bind_lift _ _ _ _ Hct), (bind_lift _ _ _ _ Hzt),
    (bind_lift _ _ _ _ Hevents);
  destruct closed_events as [|e0 es]; [congruence|];
  rewrite (bind_lift _ _ _ _ Hmax).

Lemma resolved_by_strategy1 (r : json * json) (tr tr1 : trace) :
  strategy1 owner repo ct zt closed_event tr = (Ret (Done r), tr1) ->
  resolve tr = (Ret r, tr1).
Proof. intros H1. enter. now rewrite (bind_ret _ _ _ _ _ H1). Qed.

Lemma resolved_by_strategy2 (r : json * json) (tr tr1 tr2 : trace) :
  strategy1 owner repo ct zt closed_event tr = (Ret Next, tr1) ->
  strategy2 owner repo ct zt events tr1 = (Ret (Done r), tr2) ->
  resolve tr = (Ret r, tr2).
Proof.
  intros H1 H2. enter.
  now rewrite (bind_ret _ _ _ _ _ H1), (bind_ret _ _ _ _ _ H2).
Qed.

Lemma resolved_by_strategy3 (r : json * json) (tr tr1 tr2 tr3 : trace) :
  strategy1 owner repo ct zt closed_event tr = (Ret Next, tr1) ->
  strategy2 owner repo ct zt events tr1 = (Ret Next, tr2) ->
  strategy3 owner repo ct zt events tr2 = (Ret (Done r), tr3) ->
  resolve tr = (Ret r, tr3).
Proof.
  intros H1 H2 H3. enter.
  now rewrite (bind_ret _ _ _ _ _ H1), (bind_ret _ _ _ _ _ H2),
    (bind_ret _ _ _ _ _ H3).
Qed.

Lemma resolved_by_strategy4 (tr tr1 tr2 tr3 : trace) :
  strategy1 owner repo ct zt closed_event tr = (Ret Next, tr1) ->
  strategy2 owner repo ct zt events tr1 = (Ret Next, tr2) ->
  strategy3 owner repo ct zt events tr2 = (Ret Next, tr3) ->
  resolve tr = strategy4 owner repo ct zt closed_event tr3.
Proof.
  intros H1 H2 H3. enter.
  now rewrite (bind_ret _ _ _ _ _ H1), (bind_ret _ _ _ _ _ H2),
    (bind_ret _ _ _ _ _ H3).
Qed.

End Resolution.

(** *** The plausibility windows *)

Section Windows.

Variables pm merged merged_at : json.
Variables m c z : datetime.

Hypothesis Hpm : truthy pm = true.
Hypothesis Hmerged : py_get pm "merged" JNull = Ret merged.
Hypothesis Hmerged_true : truthy merged = true.
Hypothesis Hmerged_at : py_get pm "merged_at" JNull = Ret merged_at.
Hypothesis Hmerged_time : parse_timestamp merged_at = Ret (Some m).
Hypothesis Hclock_created : aware m = aware c.
Hypothesis Hclock_closed : aware m = aware z.
Hypothesis Hsince : seconds c <= seconds m.

Lemma window (limit : Z) :
  validate_pr limit pm (Some c) (Some z)
  = Ret (if gap m z <=? limit then Valid else TooFar).
Proof.
  now apply validate_pr_window with (merged := merged)
                                    (merged_at := merged_at).
Qed.

(** C3: for a merged candidate with its merge time, the creation time and
    the close time of the issue all there, merged not before the creation.
    Strategy 1 returns it exactly when its merge time is at most 86400
    seconds from the close time.  The loops of strategies 2 and 3, when
    they come to an event that gives this candidate (by its source, or in
    strategy 3 by its commit), return it exactly when it is at most 604800
    seconds from the close time, and go on with the events that remain when
    it is not; strategy 4 returns it within the same bound and returns
    nothing beyond.  The bound itself is accepted.  The loops go through
    the events of their kind, latest first, and the resolver returns what
    the first strategy that returns has returned. *)
Theorem plausibility_windows (owner repo : string) (n : json) :
  (forall e tr tr1,
      source_pr e = Ret (Some n) ->
      extract_pr_metrics owner repo n tr = (Ret pm, tr1) ->
      strategy1 owner repo (Some c) (Some z) e tr
      = (Ret (if gap m z <=? 86400 then Done (pm, JNull) else Next), tr1)) /\
  (forall e rest tr tr1,
      source_pr e = Ret (Some n) ->
      extract_pr_metrics owner repo n tr = (Ret pm, tr1) ->
      for_each (strategy2_event owner repo (Some c) (Some z)) (e :: rest) tr
      = (if gap m z <=? 604800 then (Ret (Done (pm, JNull)), tr1)
         else for_each (strategy2_event owner repo (Some c) (Some z))
                rest tr1) /\
      for_each (strategy3_event owner repo (Some c) (Some z)) (e :: rest) tr
      = (if gap m z <=? 604800 then (Ret (Done (pm, JNull)), tr1)
         else for_each (strategy3_event owner repo (Some c) (Some z))
                rest tr1)) /\
  (forall e rest sha prs pr0 tr tr1,
      source_pr e = Ret None ->
      py_get e "commit_id" JNull = Ret sha ->
      truthy sha = true ->
      net tr (GetCommitPulls owner repo sha) = Ret prs ->
      truthy prs = true ->
      py_index0 prs = Ret pr0 ->
      py_get pr0 "number" JNull = Ret n ->
      extract_pr_metrics owner repo n (tr ++ [GetCommitPulls owner repo sha])
      = (Ret pm, tr1) ->
      for_each (strategy3_event owner repo (Some c) (Some z)) (e :: rest) tr
      = (if gap m z <=? 604800 then (Ret (Done (pm, JNull)), tr1)
         else for_each (strategy3_event owner repo (Some c) (Some z))
                rest tr1)) /\
  (forall e sha prs pr0 tr tr1,
      closing_commit_sha e = Ret sha ->
      truthy sha = true ->
      net tr (GetCommitPulls owner repo sha) = Ret prs ->
      truthy prs = true ->
      py_index0 prs = Ret pr0 ->
      py_get pr0 "number" JNull = Ret n ->
      extract_pr_metrics owner repo n (tr ++ [GetCommitPulls owner repo sha])
      = (Ret pm, tr1) ->
      strategy4 owner repo (Some c) (Some z) e tr
      = (Ret (if gap m z <=? 604800 then (pm, JNull) else (JNull, JNull)),
         tr1)) /\
  (forall events cross tr,
      events_of_kind "cross-referenced" events = Ret cross ->
      Forall (fun e => exists s, created_key e = Ret (JStr s)) cross ->
      exists ordered,
        Permutation cross ordered /\
        Sorted later_or_same ordered /\
        strategy2 owner repo (Some c) (Some z) events tr
        = for_each (strategy2_event owner repo (Some c) (Some z))
            ordered tr) /\
  (forall events referenced tr,
      events_of_kind "referenced" events = Ret referenced ->
      Forall (fun e => exists s, created_key e = Ret (JStr s)) referenced ->
      exists ordered,
        Permutation referenced ordered /\
        Sorted later_or_same ordered /\
        strategy3 owner repo (Some c) (Some z) events tr
        = for_each (strategy3_event owner repo (Some c) (Some z))
            ordered tr) /\
  (forall number created_at closed_at events closed_events closed_event tr,
      truthy closed_at = true ->
      parse_timestamp created_at = Ret (Some c) ->
      parse_timestamp closed_at = Ret (Some z) ->
      events_of_kind "closed" events = Ret closed_events ->
      closed_events <> [] ->
      py_max created_key closed_events = Ret closed_event ->
      (forall r tr1,
          strategy1 owner repo (Some c) (Some z) closed_event tr
          = (Ret (Done r), tr1) ->
          find_closing_method owner repo number created_at closed_at
            events tr
          = (Ret r, tr1)) /\
      (forall r tr1 tr2,
          strategy1 owner repo (Some c) (Some z) closed_event tr
          = (Ret Next, tr1) ->
          strategy2 owner repo (Some c) (Some z) events tr1
          = (Ret (Done r), tr2) ->
          find_closing_method owner repo number created_at closed_at
            events tr
          = (Ret r, tr2)) /\
      (forall r tr1 tr2 tr3,
          strategy1 owner repo (Some c) (Some z) closed_event tr
          = (Ret Next, tr1) ->
          strategy2 owner repo (Some c) (Some z) events tr1
          = (Ret Next, tr2) ->
          strategy3 owner repo (Some c) (Some z) events tr2
          = (Ret (Done r), tr3) ->
          find_closing_method owner repo number created_at closed_at
            events tr
          = (Ret r, tr3)) /\
      (forall tr1 tr2 tr3,
          strategy1 owner repo (Some c) (Some z) closed_event tr
          = (Ret Next, tr1) ->
          strategy2 owner repo (Some c) (Some z) events tr1
          = (Ret Next, tr2) ->
          strategy3 owner repo (Some c) (Some z) events tr2
          = (Ret Next, tr3) ->
          find_closing_method owner repo number created_at closed_at
            events tr
          = strategy4 owner repo (Some c) (Some z) closed_event tr3)).
Proof.
  split; [|split; [|split; [|split; [|split; [|split]]]]].
  - intros e tr tr1 Hsrc Hextract.
    rewrite (strategy1_run owner repo (Some c) (Some z) n pm _ e tr tr1
               Hsrc Hextract (window 86400)).
    now destruct (gap m z <=? 86400).
  - intros e rest tr tr1 Hsrc Hextract. split.
    + rewrite (for_each_cons_run _ e rest _ tr tr1
                 (strategy2_event_run owner repo (Some c) (Some z) n pm _ e
                    tr tr1 Hsrc Hextract (window 604800))).
      now destruct (gap m z <=? 604800).
    + rewrite (for_each_cons_run _ e rest
                 (if gap m z <=? 604800 then Done (pm, JNull) else Next)
                 tr tr1).
      * now destruct (gap m z <=? 604800).
      * rewrite (strategy3_event_run owner repo (Some c) (Some z) n pm _ e
                   tr tr1 Hsrc Hextract (window 604800)).
        now destruct (gap m z <=? 604800).
  - intros e rest sha prs pr0 tr tr1 Hsrc Hsha Htruthy Hnet Hprs Hpr0 Hn
      Hextract.
    rewrite (for_each_cons_run _ e rest
               (if gap m z <=? 604800 then Done (pm, JNull) else Next)
               tr tr1).
    + now destruct (gap m z <=? 604800).
    + unfold strategy3_event. rewrite (bind_lift _ _ _ _ Hsrc).
      rewrite (strategy3_commit_run owner repo (Some c) (Some z) n pm _ e
                 sha prs pr0 tr tr1 Hsha Htruthy Hnet Hprs Hpr0 Hn Hextract
                 (window 604800)).
      now destruct (gap m z <=? 604800).
  - intros e sha prs pr0 tr tr1 Hsha Htruthy Hnet Hprs Hpr0 Hn Hextract.
    rewrite (strategy4_run owner repo (Some c) (Some z) n pm _ e sha
               prs pr0 tr tr1 Hsha Htruthy Hnet Hprs Hpr0 Hn Hextract
               (window 604800)).
    now destruct (gap m z <=? 604800).
  - intros. now apply strategy2_loop.
  - intros. now apply strategy3_loop.
  - intros number created_at closed_at events closed_events closed_event tr
      Hclosed_at Hct Hzt Hevents Hne Hmax.
    split; [|split; [|split]]; intros.
    + eapply resolved_by_strategy1; eauto.
    + eapply resolved_by_strategy2; eauto.
    + eapply resolved_by_strategy3; eauto.
    + eapply resolved_by_strategy4; eauto.
Qed.

End Windows.

(** *** The fallback by the commit of the closing *)



End WithWorld.

(** *** The example repository *)

Lemma closed_by_pull_7_run :
  find_closing_method github_fromisoformat github 5 "octo" "repo" (JInt 3)
    created_at_ex closed_at_ex [closed_by_pull 7] []
  = (Ret (metrics_of_pull 7, JNull), requests_of_pull 7).
Proof. vm_compute. reflexivity. Qed.

(** The example issue, closed with pull request 7 as its source: the
    resolver returns the metrics of the pull request and no commit. *)
Lemma closing_pair_exclusive_witness :
  find_closing_method github_fromisoformat github 5 "octo" "repo" (JInt 3)
    created_at_ex closed_at_ex [closed_by_pull 7] []
  = (Ret (metrics_of_pull 7, JNull), requests_of_pull 7) /\
  (metrics_of_pull 7 = JNull \/ JNull = JNull).
Proof.
  split; [exact closed_by_pull_7_run|].
  exact (proj1 (closing_pair_exclusive github_fromisoformat github 5)
           "octo" "repo" (JInt 3) created_at_ex closed_at_ex
           [closed_by_pull 7] [] (requests_of_pull 7)
           (metrics_of_pull 7) JNull closed_by_pull_7_run).
Defined.

(** Pull request 7 was merged two days after the issue was created. *)
Lemma merged_before_creation_rejected_witness :
  exists created,
    parse_timestamp github_fromisoformat created_at_ex = Ret created /\
    merged_since github_fromisoformat created (metrics_of_pull 7).
Proof.
  refine (proj2 (proj2 (proj2 (proj2
            (merged_before_creation_rejected github_fromisoformat github 5
               "octo" "repo"))))
            (JInt 3) created_at_ex closed_at_ex [closed_by_pull 7] []
            (requests_of_pull 7) (metrics_of_pull 7) JNull
            closed_by_pull_7_run _).
  vm_compute. discriminate.
Defined.

(** An issue without [closed_at] whose timeline names a pull request, and a
    closed issue whose timeline has no [closed] event. *)
Lemma no_closure_no_fetch_witness :
  find_closing_method github_fromisoformat github 5 "octo" "repo" (JInt 3)
    created_at_ex JNull [closed_by_pull 7] []
  = (Ret (JNull, JNull), []) /\
  find_closing_method github_fromisoformat github 5 "octo" "repo" (JInt 3)
    created_at_ex closed_at_ex [reopened_ex; cross_referenced 7] []
  = (Ret (JNull, JNull), []).
Proof.
  split.
  - apply no_closure_no_fetch. left. reflexivity.
  - apply no_closure_no_fetch. right.
    split; [exists (Some created_time_ex); reflexivity|].
    split; [exists (Some closed_time_ex); reflexivity|].
    repeat constructor.
    + exists (JStr "reopened"). split; reflexivity.
    + exists (JStr "cross-referenced"). split; reflexivity.
Defined.

(** The example issue with a cross-reference to pull request 9, which
    would pass the checks of strategy 2, and a closing by pull request 7:
    pull request 7 is returned and nothing is asked about pull request 9. *)
Lemma strategy1_short_circuits_witness :
  find_closing_method github_fromisoformat github 5 "octo" "repo" (JInt 3)
    created_at_ex closed_at_ex [cross_referenced 9; closed_by_pull 7] []
  = (Ret (metrics_of_pull 7, JNull), requests_of_pull 7) /\
  (exists calls,
      requests_of_pull 7 = [] ++ calls /\
      Forall (about_pull "octo" "repo" (JInt 7)) calls) /\
  (forall events',
      events_of_kind "closed" events' = Ret [closed_by_pull 7] ->
      find_closing_method github_fromisoformat github 5 "octo" "repo"
        (JInt 3) created_at_ex closed_at_ex events' []
      = (Ret (metrics_of_pull 7, JNull), requests_of_pull 7)).
Proof.
  apply (strategy1_short_circuits github_fromisoformat github 5
           "octo" "repo" (JInt 3) created_at_ex closed_at_ex
           [cross_referenced 9; closed_by_pull 7] [] (requests_of_pull 7)
           (Some created_time_ex) (Some closed_time_ex)
           [closed_by_pull 7] (closed_by_pull 7) (JInt 7)
           (metrics_of_pull 7)).
  - reflexivity.
  - reflexivity.
  - reflexivity.
  - reflexivity.
  - discriminate.
  - reflexivity.
  - reflexivity.
  - vm_compute. reflexivity.
  - vm_compute. reflexivity.
Defined.


(** Pull request 9 was merged exactly 86400 seconds before the issue was
    closed: named by the closing, it is returned by strategy 1.  Pull
    request 11 was merged one second earlier: strategy 1 leaves it, and the
    loop of strategy 2, which finds it cross-referenced, returns it. *)
Lemma plausibility_windows_witness :
  find_closing_method github_fromisoformat github 5 "octo" "repo" (JInt 3)
    created_at_ex closed_at_ex [closed_by_pull 9] []
  = (Ret (metrics_of_pull 9, JNull), requests_of_pull 9) /\
  find_closing_method github_fromisoformat github 5 "octo" "repo" (JInt 3)
    created_at_ex closed_at_ex [cross_referenced 11; closed_by_pull 11] []
  = (Ret (metrics_of_pull 11, JNull),
     requests_of_pull 11 ++ requests_of_pull 11).
Proof.
  assert (Hsince9 : seconds created_time_ex <= 1714644000)
    by (vm_compute; discriminate).
  assert (Hsince11 : seconds created_time_ex <= 1714643999)
    by (vm_compute; discriminate).
  pose proof (plausibility_windows github_fromisoformat github 5
    (metrics_of_pull 9) (JBool true) (JStr "2024-05-02T10:00:00Z")
    (mk_datetime true 1714644000) created_time_ex closed_time_ex
    eq_refl eq_refl eq_refl eq_refl eq_refl eq_refl eq_refl Hsince9
    "octo" "repo" (JInt 9)) as (S9 & _ & _ & _ & _ & _ & R9).
  pose proof (plausibility_windows github_fromisoformat github 5
    (metrics_of_pull 11) (JBool true) (JStr "2024-05-02T09:59:59Z")
    (mk_datetime true 1714643999) created_time_ex closed_time_ex
    eq_refl eq_refl eq_refl eq_refl eq_refl eq_refl eq_refl Hsince11
    "octo" "repo" (JInt 11)) as (S11 & L11 & _ & _ & C11 & _ & R11).
  split.
  - apply (proj1 (R9 (JInt 3) created_at_ex closed_at_ex
                    [closed_by_pull 9] [closed_by_pull 9] (closed_by_pull 9)
                    [] eq_refl eq_refl eq_refl eq_refl
                    ltac:(discriminate) eq_refl)).
    exact (S9 (closed_by_pull 9) [] (requests_of_pull 9) eq_refl eq_refl).
  - apply (proj1 (proj2 (R11 (JInt 3) created_at_ex closed_at_ex
                           [cross_referenced 11; closed_by_pull 11]
                           [closed_by_pull 11] (closed_by_pull 11)
                           [] eq_refl eq_refl eq_refl eq_refl
                           ltac:(discriminate) eq_refl))
             (metrics_of_pull 11, JNull) (requests_of_pull 11)).
    + exact (S11 (closed_by_pull 11) [] (requests_of_pull 11)
               eq_refl eq_refl).
    + destruct (C11 [cross_referenced 11; closed_by_pull 11]
                  [cross_referenced 11] (requests_of_pull 11) eq_refl)
        as (ordered & Hperm & _ & Hloop).
      { repeat constructor. eexists. reflexivity. }
      apply Permutation_length_1_inv in Hperm. subst ordered.
      rewrite Hloop.
      exact (proj1 (L11 (cross_referenced 11) [] (requests_of_pull 11)
                      (requests_of_pull 11 ++ requests_of_pull 11)
                      eq_refl eq_refl)).
Defined.



(** C5, as it is worded, fails: the referenced event of the example has a
    source with the shape of a pull request (number 8, never merged) and a
    commit, and the pull requests of the commit are asked for. *)
Lemma commit_lookup_after_pr_source :
  ~ commit_lookup_only_without_pr "octo" "repo"
      [closed_plain; referenced_by_8_and_commit]
      (snd (find_closing_method github_fromisoformat github 5
              "octo" "repo" (JInt 3) created_at_ex closed_at_ex
              [closed_plain; referenced_by_8_and_commit] [])).
Proof.
  intros H.
  apply (H referenced_by_8_and_commit (JStr "abc123")).
  - right. left. reflexivity.
  - reflexivity.
  - exists (JInt 8). reflexivity.
  - reflexivity.
  - vm_compute. right. right. left. reflexivity.
Qed.

(** The referenced event of the example: pull request 8 is fetched, is not
    merged, and the commit-based lookup follows. *)
Lemma referenced_event_steps_witness :
  strategy3_event github_fromisoformat github 5 "octo" "repo"
    (Some created_time_ex) (Some closed_time_ex)
    referenced_by_8_and_commit []
  = strategy3_commit github_fromisoformat github 5 "octo" "repo"
      (Some created_time_ex) (Some closed_time_ex)
      referenced_by_8_and_commit (requests_of_pull 8).
Proof.
  exact (proj1 (proj2 (referenced_event_steps github_fromisoformat github 5
                         "octo" "repo"
                         (Some created_time_ex) (Some closed_time_ex)))
           referenced_by_8_and_commit (JInt 8) (metrics_of_pull 8)
           Unchecked [] (requests_of_pull 8) eq_refl eq_refl eq_refl).
Defined.

End ResolverProofs.

(** * Further properties *)

(** ** bot_detect.py *)

Module BotMainProofs.
Import BotDetect BotMain BotMainSpec.
#[local] Open Scope list_scope.

Lemma lower_char_space (c : ascii) : is_space (lower_char c) = is_space c.
Proof. destruct c as [[] [] [] [] [] [] [] []]; reflexivity. Qed.

Lemma lstrip_lower (s : string) : lstrip (lower s) = lower (lstrip s).
Proof.
  induction s as [|c s IH]; [reflexivity|]. cbn [lower lstrip].
  rewrite lower_char_space. now destruct (is_space c).
Qed.

Lemma rstrip_lower (s : string) : rstrip (lower s) = lower (rstrip s).
Proof.
  induction s as [|c s IH]; [reflexivity|]. cbn [lower rstrip].
  rewrite IH, lower_char_space.
  destruct (rstrip s); cbn [lower]; [now destruct (is_space c) | reflexivity].
Qed.

(** Stripping and lowercasing commute. *)
Lemma strip_lower (s : string) : strip (lower s) = lower (strip s).
Proof. unfold strip. now rewrite lstrip_lower, rstrip_lower. Qed.

Lemma rstrip_space (ws : string) : all_space ws = true -> rstrip ws = "".
Proof.
  induction ws as [|c ws IH]; [reflexivity|]. cbn [all_space rstrip].
  intros [Hc Hws]%andb_true_iff. now rewrite (IH Hws), Hc.
Qed.

Lemma rstrip_pad (s ws : string) :
  all_space ws = true -> rstrip (s ++ ws) = rstrip s.
Proof.
  intros Hws. induction s as [|c s IH]; cbn [append rstrip].
  - now apply rstrip_space.
  - now rewrite IH.
Qed.

Lemma lstrip_pad (ws s : string) :
  all_space ws = true -> lstrip (ws ++ s) = lstrip s.
Proof.
  induction ws as [|c ws IH]; [reflexivity|]. cbn [all_space append lstrip].
  intros [Hc Hws]%andb_true_iff. rewrite Hc. auto.
Qed.

Lemma lstrip_space (ws : string) : all_space ws = true -> lstrip ws = "".
Proof.
  induction ws as [|c ws IH]; [reflexivity|]. cbn [all_space lstrip].
  intros [Hc Hws]%andb_true_iff. rewrite Hc. auto.
Qed.

(** Whitespace around a string does not change what [strip] gives. *)
Lemma strip_padded (ws1 u ws2 : string) :
  all_space ws1 = true -> all_space ws2 = true ->
  strip (ws1 ++ u ++ ws2) = strip u.
Proof.
  intros H1 H2. unfold strip. rewrite (lstrip_pad ws1 _ H1).
  induction u as [|c u IH]; cbn [append lstrip].
  - now rewrite (lstrip_space ws2 H2).
  - destruct (is_space c); [exact IH|].
    change (String c (u ++ ws2)) with (String c u ++ ws2)%string.
    now apply rstrip_pad.
Qed.

Lemma detect_bot_close_returns (issue : json) :
  detect_bot_close issue = Ret (bot_flag issue).
Proof.
  unfold bot_flag, detect_bot_close.
  destruct issue; try reflexivity. cbn [py_get obind].
  destruct (dict_get d "closed_by") as [[]|]; try reflexivity.
  cbn [py_get obind].
  destruct (dict_get d0 "username") as [v|]; cbn [obind].
  - destruct (truthy v); cbn [obind].
    + now destruct v.
    + now destruct (dict_get d0 "login") as [[]|].
  - now destruct (dict_get d0 "login") as [[]|].
Qed.

(** X1: the name of the closer is matched whatever its case and whatever
    whitespace stands around it. *)
Theorem detect_bot_close_padded (d cb : list (string * json))
    (ws1 u ws2 : string) :
  dict_get d "closed_by" = Some (JDict cb) ->
  dict_get cb "username" = Some (JStr (ws1 ++ u ++ ws2)) ->
  all_space ws1 = true -> all_space ws2 = true ->
  is_bot_name (lower u) = true ->
  detect_bot_close (JDict d) = Ret true.
Proof.
  intros Hcb Hname H1 H2 Hbot.
  assert (Hu : strip (lower u) = lower u).
  { unfold is_bot_name, bot_names in Hbot. cbn [existsb] in Hbot.
    rewrite !orb_true_iff, !String.eqb_eq in Hbot.
    destruct Hbot as [H | [H | H]]; [| |discriminate]; now rewrite H. }
  assert (Hne : (ws1 ++ u ++ ws2 =? "")%string = false).
  { apply String.eqb_neq. intros Heq.
    assert (Hs : strip (ws1 ++ u ++ ws2) = "") by now rewrite Heq.
    rewrite strip_padded in Hs by assumption.
    rewrite strip_lower, Hs in Hu. cbn in Hu. rewrite <- Hu in Hbot.
    discriminate. }
  unfold detect_bot_close. cbn [py_get obind]. rewrite Hcb.
  cbn [py_get obind]. rewrite Hname. cbn [truthy obind]. rewrite Hne.
  cbn [negb obind].
  now rewrite strip_padded, <- strip_lower, Hu, Hbot by assumption.
Qed.

Lemma detect_bot_close_padded_witness :
  detect_bot_close (closed_by_name 1 "  Stale[BOT] ") = Ret true.
Proof.
  apply (detect_bot_close_padded _ [("username", JStr "  Stale[BOT] ")]
           "  " "Stale[BOT]" " "); reflexivity.
Defined.

(** *** Setting a key of a dict *)

Lemma dict_get_set_same (d : list (string * json)) (k : string) (v : json) :
  dict_get (dict_set d k v) k = Some v.
Proof.
  induction d as [|[k0 v0] d IH]; cbn [dict_set].
  - cbn. now rewrite String.eqb_refl.
  - destruct (String.eqb_spec k0 k) as [->|Hk0]; cbn.
    + now rewrite String.eqb_refl.
    + now destruct (String.eqb_spec k0 k).
Qed.

Lemma dict_get_set_other (d : list (string * json)) (k k' : string)
    (v : json) :
  k' <> k -> dict_get (dict_set d k v) k' = dict_get d k'.
Proof.
  intros Hk'. induction d as [|[k0 v0] d IH]; cbn [dict_set].
  - cbn. destruct (String.eqb_spec k k'); congruence.
  - destruct (String.eqb_spec k0 k) as [->|Hk0]; cbn.
    + destruct (String.eqb_spec k k'); congruence.
    + destruct (String.eqb_spec k0 k'); auto.
Qed.

Lemma dict_set_twice (d : list (string * json)) (k : string) (v : json) :
  dict_set (dict_set d k v) k v = dict_set d k v.
Proof.
  induction d as [|[k0 v0] d IH]; cbn [dict_set].
  - cbn. now rewrite String.eqb_refl.
  - destruct (String.eqb_spec k0 k) as [->|Hk0]; cbn.
    + now rewrite String.eqb_refl.
    + destruct (String.eqb_spec k0 k); [contradiction|]. now rewrite IH.
Qed.

(** X2: flagging an object gives the object with [is_bot_close] set to the
    verdict of [detect_bot_close] and every other key as it was; flagging
    what is not an object is a [TypeError]. *)
Theorem flag_issue_keeps_fields (issue : json) :
  (forall d, issue = JDict d ->
     exists d',
       flag_issue issue = Ret (JDict d') /\
       dict_get d' "is_bot_close" = Some (JBool (bot_flag issue)) /\
       forall k, k <> "is_bot_close" -> dict_get d' k = dict_get d k) /\
  (~ is_object issue -> flag_issue issue = Raise TypeError).
Proof.
  split.
  - intros d ->. exists (dict_set d "is_bot_close" (JBool (bot_flag (JDict d)))).
    unfold flag_issue. rewrite detect_bot_close_returns. cbn [obind py_setitem].
    split; [reflexivity|]. split; [apply dict_get_set_same|].
    intros k Hk. now apply dict_get_set_other.
  - intros Hobj. unfold flag_issue. rewrite detect_bot_close_returns.
    cbn [obind]. destruct issue; try reflexivity.
    exfalso. apply Hobj. eexists. reflexivity.
Qed.

Lemma flag_issue_keeps_fields_witness :
  exists d',
    flag_issue (closed_by_name 1 "  Stale[BOT] ") = Ret (JDict d') /\
    dict_get d' "is_bot_close"
    = Some (JBool (bot_flag (closed_by_name 1 "  Stale[BOT] "))) /\
    forall k, k <> "is_bot_close" ->
              dict_get d' k
              = dict_get [("number", JInt 1);
                          ("closed_by",
                           JDict [("username", JStr "  Stale[BOT] ")])] k.
Proof.
  exact (proj1 (flag_issue_keeps_fields (closed_by_name 1 "  Stale[BOT] "))
           _ eq_refl).
Defined.

(** *** The loop of [main] *)

Lemma process_issue_object (p : progress) (d : list (string * json)) :
  process_issue p (JDict d)
  = Ret {| written := written p ++ [flagged (JDict d)];
           count := count p + 1;
           true_count := if bot_flag (JDict d) then true_count p + 1
                         else true_count p |}.
Proof.
  unfold process_issue, flag_issue. rewrite detect_bot_close_returns.
  cbn [obind py_setitem py_getitem]. rewrite dict_get_set_same.
  cbn [obind truthy]. reflexivity.
Qed.

Lemma process_lines_objects (lines : list (option json)) :
  object_lines lines ->
  forall p,
    process_lines p lines
    = ({| written := written p ++ map flagged (decoded lines);
          count := count p + Z.of_nat (List.length (decoded lines));
          true_count :=
            true_count p
            + Z.of_nat (List.length (filter bot_flag (decoded lines))) |},
       None).
Proof.
  induction lines as [|[v|] lines IH]; intros Hobj p.
  - cbn. rewrite app_nil_r, !Z.add_0_r. now destruct p.
  - destruct (Hobj v (or_introl eq_refl)) as [d ->].
    cbn [process_lines]. rewrite process_issue_object.
    rewrite IH by (intros w Hw; apply Hobj; now right).
    change (decoded (Some (JDict d) :: lines))
      with (JDict d :: decoded lines).
    cbn [written count true_count map filter List.length].
    f_equal. f_equal;
      [now rewrite <- app_assoc | lia
      | destruct (bot_flag (JDict d)); cbn [List.length]; lia].
  - cbn [process_lines]. apply IH. intros w Hw. apply Hobj. now right.
Qed.

Lemma main_loop_plain (lines : list (option json)) :
  object_lines lines ->
  main_loop lines
  = ({| written := map flagged (decoded lines);
        count := Z.of_nat (List.length (decoded lines));
        true_count :=
          Z.of_nat (List.length (filter bot_flag (decoded lines))) |},
     None).
Proof.
  intros Hobj. unfold main_loop.
  now rewrite (process_lines_objects lines Hobj).
Qed.




Lemma bot_lines_objects : object_lines bot_lines.
Proof.
  intros v [H | [H | [H | [H | []]]]]; try discriminate;
    injection H as <-; eexists; reflexivity.
Qed.


(** On an input that loads and can be written, the loop is the one of
    [process_lines]. *)
Lemma run_lines_plain (lines : list (option json)) :
  forall p,
    fst (run_lines (fun _ => true) p
           (map (fun l => match l with
                          | Some v => Decoded v
                          | None => Invalid
                          end) lines))
    = fst (process_lines p lines).
Proof.
  induction lines as [|[v|] lines IH]; intros p; cbn [map run_lines
    process_lines]; [reflexivity| |apply IH].
  unfold count_issue, process_issue.
  destruct (flag_issue v) as [f| |]; cbn [obind]; try reflexivity.
  destruct (py_getitem f "is_bot_close") as [b| |]; cbn [obind];
    try reflexivity.
  cbn [written count true_count]. apply IH.
Qed.

Lemma detect_bot_close_flagged (issue : json) :
  bot_flag (flagged issue) = bot_flag issue.
Proof.
  destruct issue; try reflexivity. unfold flagged, bot_flag at 1 3.
  unfold detect_bot_close. cbn [py_get obind].
  now rewrite dict_get_set_other by discriminate.
Qed.

Lemma flagged_twice (issue : json) : flagged (flagged issue) = flagged issue.
Proof.
  destruct issue; try reflexivity.
  unfold flagged at 1. cbn [flagged].
  change (bot_flag (JDict (dict_set d "is_bot_close" (JBool (bot_flag (JDict d))))))
    with (bot_flag (flagged (JDict d))).
  now rewrite detect_bot_close_flagged, dict_set_twice.
Qed.

Lemma decoded_some (l : list json) : decoded (map Some l) = l.
Proof.
  unfold decoded. induction l as [|v l IH]; cbn; [reflexivity | now f_equal].
Qed.

Lemma filter_flagged (l : list json) :
  List.length (filter bot_flag (map flagged l))
  = List.length (filter bot_flag l).
Proof.
  induction l as [|x l IH]; [reflexivity|].
  cbn [map filter]. rewrite detect_bot_close_flagged.
  destruct (bot_flag x); cbn [List.length]; now rewrite IH.
Qed.

(** X4: the post-processor run on its own output writes the same records
    and counts the same numbers. *)
Theorem main_loop_idempotent (lines : list (option json)) :
  object_lines lines ->
  main_loop (map Some (written (fst (main_loop lines)))) = main_loop lines.
Proof.
  intros Hobj. rewrite (main_loop_plain lines Hobj). cbn [fst written].
  assert (Hobj' : object_lines (map Some (map flagged (decoded lines)))).
  { intros v Hv. apply in_map_iff in Hv. destruct Hv as (w & [= ->] & Hw).
    apply in_map_iff in Hw. destruct Hw as (x & <- & Hx).
    assert (Hx' : is_object x).
    { apply Hobj. unfold decoded in Hx. apply in_flat_map in Hx.
      destruct Hx as ([y|] & Hy & Hin); [|contradiction].
      destruct Hin as [<-|[]]. exact Hy. }
    destruct Hx' as [d ->]. eexists. reflexivity. }
  rewrite (main_loop_plain _ Hobj').
  rewrite decoded_some. f_equal. f_equal.
  - rewrite map_map. apply map_ext. intros. apply flagged_twice.
  - now rewrite !length_map.
  - now rewrite filter_flagged.
Qed.

Lemma main_loop_idempotent_witness :
  main_loop (map Some (written (fst (main_loop bot_lines))))
  = main_loop bot_lines.
Proof. exact (main_loop_idempotent bot_lines bot_lines_objects). Defined.

(** X5: a decodable line that does not hold an object ends the run with a
    [TypeError]: the records before it are written, the lines after it are
    not read. *)
Theorem main_loop_not_object (before after : list (option json))
    (v : json) :
  object_lines before ->
  ~ is_object v ->
  main_loop (before ++ Some v :: after)
  = ({| written := map flagged (decoded before);
        count := Z.of_nat (List.length (decoded before));
        true_count :=
          Z.of_nat (List.length (filter bot_flag (decoded before))) |},
     Some TypeError).
Proof.
  intros Hobj Hv. unfold main_loop.
  assert (Hgen : forall p,
    process_lines p (before ++ Some v :: after)
    = ({| written := written p ++ map flagged (decoded before);
          count := count p + Z.of_nat (List.length (decoded before));
          true_count :=
            true_count p
            + Z.of_nat (List.length (filter bot_flag (decoded before))) |},
       Some TypeError)).
  { induction before as [|[w|] before IH]; intros p.
    - cbn [app process_lines]. unfold process_issue, flag_issue.
      rewrite detect_bot_close_returns. cbn [obind].
      destruct v; try (cbn; rewrite app_nil_r, !Z.add_0_r; now destruct p).
      exfalso. apply Hv. eexists. reflexivity.
    - destruct (Hobj w (or_introl eq_refl)) as [d ->].
      cbn [app process_lines]. rewrite process_issue_object.
      rewrite IH by (intros x Hx; apply Hobj; now right).
      change (decoded (Some (JDict d) :: before))
        with (JDict d :: decoded before).
      cbn [written count true_count map filter List.length].
      f_equal. f_equal;
        [now rewrite <- app_assoc | lia
        | destruct (bot_flag (JDict d)); cbn [List.length]; lia].
    - cbn [app process_lines]. apply IH. intros x Hx. apply Hobj. now right. }
  now rewrite Hgen.
Qed.

Lemma main_loop_not_object_witness :
  main_loop (bot_lines ++ Some (JList [closed_by_name 4 "vue-bot"])
             :: [Some (closed_by_name 5 "vue-bot")])
  = ({| written := map flagged (decoded bot_lines);
        count := 3;
        true_count := 1 |}, Some TypeError).
Proof.
  apply (main_loop_not_object bot_lines [Some (closed_by_name 5 "vue-bot")]
           (JList [closed_by_name 4 "vue-bot"]) bot_lines_objects).
  intros [d H]. discriminate H.
Defined.

End BotMainProofs.

(** ** harvest_data.py: [parse_url] *)

Module UrlProofs.
Import ResolverSpec UrlSpec.
#[local] Open Scope list_scope.

Lemma split_slash_app (a b : string) :
  split_slash (a ++ "/" ++ b) = split_slash a ++ split_slash b.
Proof.
  induction a as [|c a IH]; [reflexivity|].
  cbn [append split_slash]. destruct (Ascii.eqb c "/").
  - cbn [append] in IH. rewrite IH. reflexivity.
  - cbn [append] in IH. rewrite IH.
    pose proof (ResolverProofs.split_slash_nonempty a) as Hne.
    destruct (split_slash a); [congruence | reflexivity].
Qed.

Lemma split_slash_segment (s : string) :
  no_slash s = true -> split_slash s = [s].
Proof.
  induction s as [|c s IH]; [reflexivity|]. cbn [no_slash split_slash].
  intros [Hc Hs]%andb_true_iff. apply negb_true_iff in Hc.
  now rewrite Hc, (IH Hs).
Qed.

Lemma split_slash_length (s : string) :
  List.length (split_slash s) = S (count_slash s).
Proof.
  induction s as [|c s IH]; [reflexivity|]. cbn [split_slash count_slash].
  destruct (Ascii.eqb c "/"); cbn [List.length]; [now rewrite IH|].
  pose proof (ResolverProofs.split_slash_nonempty s) as Hne.
  destruct (split_slash s); [congruence | exact IH].
Qed.

Lemma digit_not_space (c : ascii) : is_digit c = true -> is_space c = false.
Proof. destruct c as [[] [] [] [] [] [] [] []]; cbn; congruence. Qed.

Lemma digit_not_slash (c : ascii) :
  is_digit c = true -> Ascii.eqb c "/" = false.
Proof. destruct c as [[] [] [] [] [] [] [] []]; cbn; congruence. Qed.

Lemma digit_not_sign (c : ascii) :
  is_digit c = true -> c <> "-"%char /\ c <> "+"%char.
Proof.
  destruct c as [[] [] [] [] [] [] [] []]; cbn; intros H;
    try discriminate; split; discriminate.
Qed.

Lemma digit_value (c : ascii) :
  is_digit c = true -> exists d, digit c = Some d.
Proof.
  unfold is_digit, digit. intros ->. eauto.
Qed.

Lemma digits_no_slash (s : string) :
  forallb is_digit (list_ascii_of_string s) = true -> no_slash s = true.
Proof.
  induction s as [|c s IH]; [reflexivity|]. cbn.
  intros [Hc Hs]%andb_true_iff. now rewrite (digit_not_slash c Hc), IH.
Qed.

Lemma rstrip_digits (s : string) :
  digit_string s -> rstrip s = s.
Proof.
  intros [Hne Hs]. induction s as [|c s IH]; [congruence|].
  cbn in Hs. apply andb_true_iff in Hs. destruct Hs as [Hc Hs].
  cbn [rstrip]. destruct s as [|c' s'].
  - cbn. now rewrite (digit_not_space c Hc).
  - rewrite IH by (discriminate || assumption). reflexivity.
Qed.

Lemma rstrip_app (a b : string) :
  b <> "" -> rstrip b = b -> rstrip (a ++ b) = (a ++ b)%string.
Proof.
  intros Hne Hb. induction a as [|c a IH]; [exact Hb|].
  cbn [append rstrip]. rewrite IH.
  destruct (a ++ b)%string eqn:Hab; [|reflexivity].
  destruct a; cbn in Hab; [contradiction | discriminate].
Qed.

Lemma lstrip_slash (p rest : string) :
  lstrip (p ++ "/" ++ rest) = (lstrip p ++ "/" ++ rest)%string.
Proof.
  induction p as [|c p IH]; [reflexivity|]. cbn [append lstrip].
  now destruct (is_space c).
Qed.

Lemma literal_digits_all (cs : list ascii) (b : bool) :
  cs <> [] -> forallb is_digit cs = true -> literal_digits b cs = Some cs.
Proof.
  revert b. induction cs as [|c cs IH]; [congruence|]. intros b _ H.
  cbn in H. apply andb_true_iff in H. destruct H as [Hc Hcs].
  cbn [literal_digits]. rewrite Hc. destruct cs as [|c' cs'].
  - reflexivity.
  - now rewrite IH.
Qed.

Lemma digits_all (cs : list ascii) :
  forallb is_digit cs = true -> forall acc, exists n, digits cs acc = Some n.
Proof.
  induction cs as [|c cs IH]; intros H acc; cbn [digits]; [eauto|].
  cbn in H. apply andb_true_iff in H. destruct H as [Hc Hcs].
  destruct (digit_value c Hc) as [d ->]. auto.
Qed.

Lemma digit_not_int_space (c : ascii) :
  is_digit c = true -> is_int_space c = false.
Proof. destruct c as [[] [] [] [] [] [] [] []]; cbn; congruence. Qed.

Lemma int_rstrip_digits (s : string) :
  digit_string s -> int_rstrip s = s.
Proof.
  intros [Hne Hs]. induction s as [|c s IH]; [congruence|].
  cbn in Hs. apply andb_true_iff in Hs. destruct Hs as [Hc Hs].
  cbn [int_rstrip]. destruct s as [|c' s'].
  - cbn. now rewrite (digit_not_int_space c Hc).
  - rewrite IH by (discriminate || assumption). reflexivity.
Qed.

Lemma py_int_digits (s : string) :
  digit_string s -> (String.length s <= 4300)%nat ->
  py_int s = Ret (decimal_value s).
Proof.
  intros Hs Hlen. pose proof Hs as [Hne Hall].
  assert (Hstrip : int_rstrip (int_lstrip s) = s).
  { destruct s as [|c s']; [congruence|].
    cbn in Hall. apply andb_true_iff in Hall. destruct Hall as [Hc _].
    cbn [int_lstrip]. rewrite (digit_not_int_space c Hc).
    now apply int_rstrip_digits. }
  unfold py_int, decimal_value. rewrite Hstrip.
  assert (Hbody : list_ascii_of_string s <> []).
  { destruct s; [congruence | discriminate]. }
  assert (Hsign :
    match list_ascii_of_string s with
    | "-"%char :: rest => (true, rest)
    | "+"%char :: rest => (false, rest)
    | _ => (false, list_ascii_of_string s)
    end = (false, list_ascii_of_string s)).
  { destruct s as [|c s']; [congruence|].
    cbn in Hall. apply andb_true_iff in Hall. destruct Hall as [Hc _].
    destruct (digit_not_sign c Hc) as [H1 H2]. cbn.
    destruct c as [[] [] [] [] [] [] [] []]; try reflexivity; congruence. }
  rewrite Hsign. cbn [fst snd].
  rewrite (literal_digits_all _ false Hbody Hall).
  assert (Hl : List.length (list_ascii_of_string s) = String.length s).
  { clear. induction s; cbn; congruence. }
  rewrite Hl. destruct (Nat.ltb_spec 4300 (String.length s)); [lia|].
  destruct (digits_all _ Hall 0) as [n ->]. reflexivity.
Qed.

(** X6: for a URL that ends with an owner, a repository, a kind and a
    number, separated by slashes, [parse_url] gives the owner, the
    repository and the number, whatever stands before them and whatever
    whitespace follows. *)
Theorem parse_url_item (prefix owner repo kind num trailing : string) :
  no_slash owner = true -> no_slash repo = true -> no_slash kind = true ->
  digit_string num -> (String.length num <= 4300)%nat ->
  BotMainSpec.all_space trailing = true ->
  parse_url (item_url prefix owner repo kind num ++ trailing)
  = Ret (owner, repo, decimal_value num).
Proof.
  intros Ho Hr Hk Hn Hlen Hws. unfold parse_url, item_url.
  assert (Hstrip :
    strip ((prefix ++ "/" ++ owner ++ "/" ++ repo ++ "/" ++ kind ++ "/"
            ++ num) ++ trailing)
    = (lstrip prefix ++ "/" ++ owner ++ "/" ++ repo ++ "/" ++ kind ++ "/"
       ++ num)%string).
  { unfold strip.
    rewrite !ResolverProofs.string_app_assoc, lstrip_slash.
    rewrite <- !ResolverProofs.string_app_assoc.
    rewrite (BotMainProofs.rstrip_pad _ trailing Hws).
    apply rstrip_app; [apply Hn | now apply rstrip_digits]. }
  rewrite Hstrip, !split_slash_app.
  rewrite (split_slash_segment owner Ho), (split_slash_segment repo Hr),
    (split_slash_segment kind Hk),
    (split_slash_segment num (digits_no_slash num (proj2 Hn))).
  unfold py_index_from_end. rewrite rev_app_distr.
  cbn [rev app nth_error Nat.sub obind].
  now rewrite (py_int_digits num Hn Hlen).
Qed.

Lemma parse_url_item_witness :
  parse_url "  https://github.com/vuejs/vue/issues/11470 "
  = Ret ("vuejs", "vue", 11470).
Proof.
  apply (parse_url_item "  https://github.com" "vuejs" "vue" "issues"
           "11470" " "); try reflexivity.
  - split; [discriminate | reflexivity].
  - cbn. lia.
Defined.

(** X7: a URL with fewer than three slashes has no owner to give:
    [parse_url] raises [IndexError]; with three slashes or more it raises
    nothing but the [ValueError] of a last part that is not a number. *)
Theorem parse_url_errors (url : string) :
  ((count_slash (strip url) < 3)%nat -> parse_url url = Raise IndexError) /\
  ((3 <= count_slash (strip url))%nat ->
   (exists owner repo number, parse_url url = Ret (owner, repo, number)) \/
   parse_url url = Raise ValueError).
Proof.
  unfold parse_url, py_index_from_end.
  pose proof (split_slash_length (strip url)) as Hlen.
  rewrite <- length_rev in Hlen.
  destruct (rev (split_slash (strip url))) as [|p1 [|p2 [|p3 [|p4 rest]]]];
    cbn [List.length] in Hlen; split; intros H; try lia; try reflexivity.
  cbn [nth_error Nat.sub obind].
  assert (Hint : (exists n, py_int p1 = Ret n) \/ py_int p1 = Raise ValueError).
  { unfold py_int.
    destruct (literal_digits _ _); [|now right].
    destruct (_ <? _)%nat; [now right|].
    destruct (digits _ _); [left; eauto | now right]. }
  destruct Hint as [[n ->] | ->]; [left | now right].
  exists p4, p3, n. reflexivity.
Qed.

Lemma parse_url_errors_witness :
  parse_url "github.com/vuejs" = Raise IndexError /\
  ((exists owner repo number,
       parse_url "https://github.com/vuejs/vue/pull/12a"
       = Ret (owner, repo, number)) \/
   parse_url "https://github.com/vuejs/vue/pull/12a" = Raise ValueError).
Proof.
  split.
  - apply (proj1 (parse_url_errors "github.com/vuejs")). cbn. lia.
  - apply (proj2 (parse_url_errors "https://github.com/vuejs/vue/pull/12a")).
    cbn. lia.
Defined.

End UrlProofs.

(** ** harvest_data.py: [calculate_participants] *)

Module ParticipantsProofs.
Import ParticipantsSpec.
#[local] Open Scope list_scope.

Lemma py_eq_canon (a b : json) :
  scalar a = true -> scalar b = true ->
  (py_eq a b = true <-> canon a = canon b).
Proof.
  destruct a as [|x|x|s| |], b as [|y|y|t| |]; cbn; intros Ha Hb;
    try discriminate; split; intros H;
    try discriminate; try reflexivity;
    try (apply Z.eqb_eq in H; congruence);
    try (injection H as H; apply Z.eqb_eq; congruence);
    try (apply String.eqb_eq in H; congruence);
    try (injection H as ->; apply String.eqb_refl).
Qed.

Lemma py_in_canon (s : list json) (v : json) :
  Forall (fun v => scalar v = true) s -> scalar v = true ->
  (py_in v s = true <-> In (canon v) (map canon s)).
Proof.
  intros Hs Hv. unfold py_in. rewrite existsb_exists, in_map_iff.
  rewrite Forall_forall in Hs. split.
  - intros (x & Hx & Heq). exists x. split; [|exact Hx].
    symmetry. apply py_eq_canon; auto.
  - intros (x & Heq & Hx). exists x. split; [exact Hx|].
    apply py_eq_canon; auto.
Qed.

Lemma set_add_ret (s s' : list json) (v : json) :
  set_add s v = Ret s' ->
  scalar v = true /\ s' = if py_in v s then s else s ++ [v].
Proof.
  unfold set_add, py_in. destruct v; try discriminate; now intros [= <-].
Qed.

Lemma set_add_wf (s s' : list json) (v : json) :
  wf_set s -> set_add s v = Ret s' ->
  wf_set s' /\
  In (canon v) (map canon s') /\
  incl (map canon s) (map canon s') /\
  (forall x, In x (map canon s') -> In x (map canon s) \/ x = canon v).
Proof.
  intros [Hs Hnd] Hadd. apply set_add_ret in Hadd. destruct Hadd as [Hv ->].
  destruct (py_in v s) eqn:Hin.
  - apply py_in_canon in Hin; auto. repeat split; auto using incl_refl.
  - assert (Hnin : ~ In (canon v) (map canon s)).
    { intros H. apply py_in_canon in H; auto. congruence. }
    unfold wf_set. rewrite !map_app. cbn [map]. repeat split.
    + apply Forall_app. split; [exact Hs | now repeat constructor].
    + apply NoDup_app; [exact Hnd | repeat constructor; intros [] |].
      intros x Hx [<-|[]]. contradiction.
    + apply in_app_iff. right. now left.
    + now apply incl_appl, incl_refl.
    + intros x Hx. apply in_app_iff in Hx. destruct Hx as [Hx|[<-|[]]]; auto.
Qed.

Lemma add_commenter_ok (sets sets' : participant_sets) (c : json) :
  sets_ok sets -> add_commenter sets c = Ret sets' -> sets_ok sets'.
Proof.
  intros (HP & HC & HM & HMC & HCP) H. unfold add_commenter in H.
  destruct (user_login c) as [u| |]; try discriminate. cbn [obind] in H.
  destruct (truthy u);
    [|injection H as <-; exact (conj HP (conj HC (conj HM (conj HMC HCP))))].
  destruct (set_add (participants sets) u) as [ps| |] eqn:Hps;
    try discriminate.
  destruct (set_add (commenters sets) u) as [cs| |] eqn:Hcs;
    try discriminate.
  cbn [obind] in H.
  destruct (py_get c "author_association" (JStr "")) as [assoc| |];
    try discriminate.
  cbn [obind] in H.
  destruct (set_add_wf _ _ _ HP Hps) as (HP' & HuP & HPP & _).
  destruct (set_add_wf _ _ _ HC Hcs) as (HC' & HuC & HCC & HCinv).
  assert (HCP' : incl (map canon cs) (map canon ps)).
  { intros x Hx. destruct (HCinv x Hx) as [Hx'| ->]; auto. }
  destruct (is_maintainer_tier assoc).
  - destruct (set_add (maintainers sets) u) as [ms| |] eqn:Hms;
      try discriminate.
    injection H as <-.
    destruct (set_add_wf _ _ _ HM Hms) as (HM' & _ & _ & HMinv).
    refine (conj HP' (conj HC' (conj HM' (conj _ HCP')))). cbn.
    intros x Hx. destruct (HMinv x Hx) as [Hx'| ->]; auto.
  - injection H as <-.
    refine (conj HP' (conj HC' (conj HM (conj _ HCP')))). cbn.
    intros x Hx. auto.
Qed.

Lemma fold_commenters_ok (comments : list json) :
  forall sets sets',
    sets_ok sets -> fold_outcome add_commenter sets comments = Ret sets' ->
    sets_ok sets'.
Proof.
  induction comments as [|c l IH]; intros sets sets' Hok H; cbn in H.
  - now injection H as <-.
  - destruct (add_commenter sets c) as [s1| |] eqn:Hc; try discriminate.
    cbn in H. eauto using add_commenter_ok.
Qed.

Lemma participant_sets_ok (issue : json) (comments : list json)
    (sets : participant_sets) :
  participant_sets_of issue comments = Ret sets -> sets_ok sets.
Proof.
  unfold participant_sets_of. intros H.
  destruct (user_login issue) as [a| |]; try discriminate. cbn [obind] in H.
  assert (Hempty : wf_set []) by (split; constructor).
  destruct (truthy a).
  - destruct (set_add [] a) as [ps| |] eqn:Hps; try discriminate.
    cbn [obind] in H.
    destruct (set_add_wf _ _ _ Hempty Hps) as (HP & _).
    eapply fold_commenters_ok; [|exact H].
    refine (conj HP (conj Hempty (conj Hempty (conj _ _)))); intros x [].
  - cbn [obind] in H. eapply fold_commenters_ok; [|exact H].
    refine (conj Hempty (conj Hempty (conj Hempty (conj _ _))));
      intros x [].
Qed.

Lemma py_sorted_id_perm (l l' : list json) :
  py_sorted (fun v => Ret v) false l = Ret l' -> Permutation l l'.
Proof.
  unfold py_sorted.
  assert (Hkeyed :
    map_outcome (fun x => let? k := Ret x in Ret (k, x)) l
    = Ret (map (fun x => (x, x)) l)).
  { induction l as [|x l IH]; [reflexivity|].
    cbn [map_outcome map obind]. cbn [obind] in IH. now rewrite IH. }
  rewrite Hkeyed. cbn [obind]. destruct (all_comparable _); [|discriminate].
  intros [= <-].
  replace l with (map snd (map (fun x => (x, x)) l)) at 1.
  - apply Permutation_map, ResolverProofs.insertion_sort_perm.
  - rewrite map_map. apply map_id.
Qed.

Lemma py_in_perm (u : json) (l l' : list json) :
  Permutation l l' -> py_in u l = py_in u l'.
Proof.
  intros Hperm. unfold py_in.
  destruct (existsb (py_eq u) l) eqn:H1; symmetry.
  - apply existsb_exists in H1. destruct H1 as (x & Hx & Heq).
    apply existsb_exists. exists x. split; [|exact Heq].
    now apply (Permutation_in _ Hperm).
  - destruct (existsb (py_eq u) l') eqn:H2; [|reflexivity].
    apply existsb_exists in H2. destruct H2 as (x & Hx & Heq).
    assert (existsb (py_eq u) l = true); [|congruence].
    apply existsb_exists. exists x. split; [|exact Heq].
    apply (Permutation_in _ (Permutation_sym Hperm)). exact Hx.
Qed.

(** X8: when [calculate_participants] returns, there are at most as many
    maintainers as commenters and as many commenters as participants; each
    list of usernames has the length of its count; every maintainer is
    among the commenters and every commenter among the participants. *)
Theorem participants_nested (issue : json) (comments : list json)
    (m : participant_metrics) :
  calculate_participants issue comments = Ret m ->
  (maintainer_participants m <= unique_commenters m
   <= total_participants m)%nat /\
  List.length (participant_usernames m) = total_participants m /\
  List.length (commenter_usernames m) = unique_commenters m /\
  List.length (maintainer_usernames m) = maintainer_participants m /\
  (forall u, In u (maintainer_usernames m) ->
             py_in u (commenter_usernames m) = true) /\
  (forall u, In u (commenter_usernames m) ->
             py_in u (participant_usernames m) = true).
Proof.
  unfold calculate_participants. intros H.
  destruct (participant_sets_of issue comments) as [sets| |] eqn:Hsets;
    try discriminate.
  cbn [obind] in H.
  destruct (py_sorted _ false (participants sets)) as [pn| |] eqn:Hpn;
    try discriminate.
  cbn [obind] in H.
  destruct (py_sorted _ false (commenters sets)) as [cn| |] eqn:Hcn;
    try discriminate.
  cbn [obind] in H.
  destruct (py_sorted _ false (maintainers sets)) as [mn| |] eqn:Hmn;
    try discriminate.
  injection H as <-.
  cbn [maintainer_participants unique_commenters total_participants
       participant_usernames commenter_usernames maintainer_usernames].
  apply py_sorted_id_perm in Hpn, Hcn, Hmn.
  destruct (participant_sets_ok _ _ _ Hsets)
    as ((HPs & HPn) & (HCs & HCn) & (HMs & HMn) & HMC & HCP).
  assert (Hle1 := NoDup_incl_length HMn HMC).
  assert (Hle2 := NoDup_incl_length HCn HCP).
  rewrite !length_map in Hle1, Hle2.
  split; [lia|].
  split; [symmetry; now apply Permutation_length|].
  split; [symmetry; now apply Permutation_length|].
  split; [symmetry; now apply Permutation_length|].
  rewrite Forall_forall in HPs, HCs, HMs.
  split.
  - intros u Hu. apply (Permutation_in _ (Permutation_sym Hmn)) in Hu.
    rewrite <- (py_in_perm u _ _ Hcn).
    apply py_in_canon; [now apply Forall_forall | auto |].
    apply HMC. now apply in_map.
  - intros u Hu. apply (Permutation_in _ (Permutation_sym Hcn)) in Hu.
    rewrite <- (py_in_perm u _ _ Hpn).
    apply py_in_canon; [now apply Forall_forall | auto |].
    apply HCP. now apply in_map.
Qed.

Lemma participants_nested_witness :
  exists m,
    calculate_participants issue_by_alice bob_carol_comments = Ret m /\
    total_participants m = 3%nat /\ unique_commenters m = 2%nat /\
    maintainer_participants m = 1%nat /\
    has_maintainer_response m = true /\
    (maintainer_participants m <= unique_commenters m
     <= total_participants m)%nat.
Proof.
  eexists. split; [reflexivity|]. cbn.
  repeat (split; [reflexivity|]).
  exact (proj1 (participants_nested issue_by_alice bob_carol_comments _
                  eq_refl)).
Defined.

Lemma nonempty_length (l : list json) :
  (0 <? List.length l)%nat = match l with [] => false | _ => true end.
Proof. now destruct l. Qed.

Lemma set_add_nonempty (s s' : list json) (v : json) :
  set_add s v = Ret s' -> (0 <? List.length s')%nat = true.
Proof.
  intros H. apply set_add_ret in H. destruct H as [_ ->].
  unfold py_in. destruct s as [|x s]; [reflexivity|].
  destruct (existsb _ _); reflexivity.
Qed.

Lemma add_commenter_maintainers (sets sets' : participant_sets) (c : json) :
  add_commenter sets c = Ret sets' ->
  (0 <? List.length (maintainers sets'))%nat
  = (0 <? List.length (maintainers sets))%nat || maintainer_comment c.
Proof.
  unfold add_commenter, maintainer_comment. intros H.
  destruct (user_login c) as [u| |]; try discriminate. cbn [obind] in H.
  destruct (truthy u);
    [|injection H as <-; destruct (py_get c _ _); cbn [andb];
      now rewrite orb_false_r].
  destruct (set_add (participants sets) u) as [ps| |]; try discriminate.
  destruct (set_add (commenters sets) u) as [cs| |]; try discriminate.
  cbn [obind] in H.
  destruct (py_get c "author_association" (JStr "")) as [assoc| |];
    try discriminate.
  cbn [obind andb] in H |- *.
  destruct (is_maintainer_tier assoc).
  - destruct (set_add (maintainers sets) u) as [ms| |] eqn:Hms;
      try discriminate.
    injection H as <-. cbn [maintainers].
    rewrite (set_add_nonempty _ _ _ Hms). now rewrite orb_true_r.
  - injection H as <-. cbn [maintainers]. now rewrite orb_false_r.
Qed.

Lemma fold_commenters_maintainers (comments : list json) :
  forall sets sets',
    fold_outcome add_commenter sets comments = Ret sets' ->
    (0 <? List.length (maintainers sets'))%nat
    = (0 <? List.length (maintainers sets))%nat
      || existsb maintainer_comment comments.
Proof.
  induction comments as [|c l IH]; intros sets sets' H; cbn in H.
  - injection H as <-. cbn. now rewrite orb_false_r.
  - destruct (add_commenter sets c) as [s1| |] eqn:Hc; try discriminate.
    cbn in H. rewrite (IH _ _ H), (add_commenter_maintainers _ _ _ Hc).
    cbn [existsb]. now rewrite orb_assoc.
Qed.

(** X9: when [calculate_participants] returns, [has_maintainer_response]
    tells whether some comment has a username and an association among
    OWNER, MEMBER, COLLABORATOR and CONTRIBUTOR; the author of the issue
    does not count. *)
Theorem maintainer_response_iff (issue : json) (comments : list json)
    (m : participant_metrics) :
  calculate_participants issue comments = Ret m ->
  has_maintainer_response m = existsb maintainer_comment comments.
Proof.
  unfold calculate_participants, participant_sets_of. intros H.
  destruct (user_login issue) as [a| |]; try discriminate.
  cbn [obind] in H.
  destruct (if truthy a then set_add [] a else Ret []) as [ps| |];
    try discriminate.
  cbn [obind] in H.
  destruct (fold_outcome add_commenter _ comments) as [sets| |] eqn:Hfold;
    try discriminate.
  cbn [obind] in H.
  destruct (py_sorted _ false (participants sets)); try discriminate.
  destruct (py_sorted _ false (commenters sets)); try discriminate.
  destruct (py_sorted _ false (maintainers sets)); try discriminate.
  cbn [obind] in H. injection H as <-. cbn [has_maintainer_response].
  now rewrite (fold_commenters_maintainers _ _ _ Hfold).
Qed.

Lemma maintainer_response_iff_witness :
  exists m,
    calculate_participants issue_by_alice bob_carol_comments = Ret m /\
    has_maintainer_response m
    = existsb maintainer_comment bob_carol_comments.
Proof.
  eexists. split; [reflexivity|].
  exact (maintainer_response_iff issue_by_alice bob_carol_comments _
           eq_refl).
Defined.

Lemma add_commenter_null_user (sets : participant_sets) (c : json) :
  null_user c -> add_commenter sets c = Raise AttributeError.
Proof.
  intros (d & -> & Hd). unfold add_commenter, user_login.
  cbn [py_get obind]. now rewrite Hd.
Qed.

Lemma set_add_returns (s : list json) (v : json) : set_add s v <> Diverge.
Proof. unfold set_add. destruct v; discriminate. Qed.

Lemma user_login_returns (c : json) : user_login c <> Diverge.
Proof.
  unfold user_login. destruct (py_get c "user" (JDict [])) as [u| |] eqn:H.
  - cbn. apply ResolverProofs.py_get_returns.
  - discriminate.
  - now apply ResolverProofs.py_get_returns in H.
Qed.

Lemma add_commenter_returns (sets : participant_sets) (c : json) :
  add_commenter sets c <> Diverge.
Proof.
  unfold add_commenter.
  destruct (user_login c) as [u| |] eqn:Hu; cbn [obind];
    [|discriminate|now apply user_login_returns in Hu].
  destruct (truthy u); [|discriminate].
  destruct (set_add (participants sets) u) as [ps| |] eqn:Hps; cbn [obind];
    [|discriminate|now apply set_add_returns in Hps].
  destruct (set_add (commenters sets) u) as [cs| |] eqn:Hcs; cbn [obind];
    [|discriminate|now apply set_add_returns in Hcs].
  destruct (py_get c "author_association" (JStr "")) as [assoc| |] eqn:Ha;
    cbn [obind];
    [|discriminate|now apply ResolverProofs.py_get_returns in Ha].
  destruct (is_maintainer_tier assoc); [|discriminate].
  destruct (set_add (maintainers sets) u) as [ms| |] eqn:Hms; cbn [obind];
    [discriminate|discriminate|now apply set_add_returns in Hms].
Qed.

Lemma fold_commenters_null_user (comments : list json) (c : json) :
  In c comments -> null_user c ->
  forall sets, exists e, fold_outcome add_commenter sets comments = Raise e.
Proof.
  intros Hin Hnull. induction comments as [|x l IH]; [contradiction|].
  intros sets. cbn [fold_outcome].
  destruct Hin as [->|Hin].
  - rewrite (add_commenter_null_user sets c Hnull). cbn. eauto.
  - destruct (add_commenter sets x) as [s1|e|] eqn:Hx; cbn [obind].
    + now apply IH.
    + eauto.
    + now apply add_commenter_returns in Hx.
Qed.

(** X10: a comment whose [user] is null -- the comment of a deleted
    account -- makes [calculate_participants] raise, wherever it stands
    among the comments and whatever the issue is. *)
Theorem participants_null_user_raises (issue : json) (comments : list json)
    (c : json) :
  In c comments -> null_user c ->
  exists e, calculate_participants issue comments = Raise e.
Proof.
  intros Hin Hnull. unfold calculate_participants, participant_sets_of.
  destruct (user_login issue) as [a|e|] eqn:Ha; cbn [obind];
    [|eauto|now apply user_login_returns in Ha].
  destruct (if truthy a then set_add [] a else Ret []) as [ps|e|] eqn:Hps;
    cbn [obind].
  - destruct (fold_commenters_null_user comments c Hin Hnull
                (mk_participant_sets ps [] [])) as [e ->].
    cbn. eauto.
  - eauto.
  - destruct (truthy a); [now apply set_add_returns in Hps | discriminate].
Qed.

Lemma participants_null_user_raises_witness :
  exists e,
    calculate_participants issue_by_alice
      [comment_by "bob" "MEMBER"; ghost_comment] = Raise e.
Proof.
  apply (participants_null_user_raises issue_by_alice
           [comment_by "bob" "MEMBER"; ghost_comment] ghost_comment).
  - right. left. reflexivity.
  - eexists. split; reflexivity.
Defined.

End ParticipantsProofs.

(** ** harvest_data.py: the fetch layer *)

Module FetchProofs.
Import ResolverSpec FetchSpec.
#[local] Open Scope list_scope.

Section WithNet.

Variable net : trace -> request -> outcome json.
Variable max_pages : nat.

#[local] Abbreviation fetch_paginated := (fetch_paginated net max_pages).
#[local] Abbreviation fetch_pr_reviews := (fetch_pr_reviews net max_pages).
#[local] Abbreviation serves := (serves net).

Lemma page_numbers_length (first : Z) (n : nat) :
  List.length (page_numbers first n) = n.
Proof. revert first. induction n; intros; cbn; [reflexivity | now rewrite IHn]. Qed.

Lemma full_page_truthy (p : list json) :
  full_page p -> truthy (JList p) = true.
Proof. unfold full_page. destruct p; cbn; [lia | reflexivity]. Qed.

Lemma full_page_len (p : list json) :
  full_page p -> (Z.of_nat (List.length p) <? 100) = false.
Proof. unfold full_page. intros H. apply Z.ltb_ge. lia. Qed.

(** One turn of the loop on a full page. *)
Lemma fetch_pages_full (fuel : nat) (url : Z -> request) (page : Z)
    (items p : list json) (tr : trace) :
  net tr (url page) = Ret (JList p) -> full_page p ->
  fetch_pages net (S fuel) url page items tr
  = fetch_pages net fuel url (page + 1) (items ++ p) (tr ++ [url page]).
Proof.
  intros Hnet Hfull. cbn [fetch_pages].
  unfold bind at 1. unfold fetch at 1. rewrite Hnet.
  rewrite (full_page_truthy p Hfull). cbn [negb].
  unfold bind, lift. cbn [py_iter py_len].
  now rewrite (full_page_len p Hfull).
Qed.

(** The last turn of the loop, on a page that is not full. *)
Lemma fetch_pages_short (fuel : nat) (url : Z -> request) (page : Z)
    (items p : list json) (tr : trace) :
  net tr (url page) = Ret (JList p) -> (List.length p < 100)%nat ->
  fetch_pages net (S fuel) url page items tr
  = (Ret (items ++ p), tr ++ [url page]).
Proof.
  intros Hnet Hshort. cbn [fetch_pages].
  unfold bind at 1. unfold fetch at 1. rewrite Hnet.
  destruct p as [|x p].
  - cbn. now rewrite app_nil_r.
  - cbn [truthy negb]. unfold bind, lift. cbn [py_iter py_len].
    assert (H : (Z.of_nat (List.length (x :: p)) <? 100) = true)
      by (apply Z.ltb_lt; lia).
    now rewrite H.
Qed.

Lemma fetch_pages_concat (url : Z -> request) (full : list (list json))
    (short : list json) :
  forall fuel page items tr,
    Forall full_page full -> (List.length short < 100)%nat ->
    (List.length full < fuel)%nat ->
    serves url tr page (full ++ [short]) ->
    fetch_pages net fuel url page items tr
    = (Ret (items ++ List.concat full ++ short),
       tr ++ map url (page_numbers page (S (List.length full)))).
Proof.
  induction full as [|p full IH]; intros fuel page items tr Hfull Hshort Hfuel Hs.
  - destruct fuel as [|fuel]; [cbn in Hfuel; lia|].
    destruct Hs as [Hnet _]. cbn [List.concat app List.length page_numbers map].
    now apply fetch_pages_short.
  - destruct fuel as [|fuel]; [cbn in Hfuel; lia|].
    destruct Hs as [Hnet Hs]. inversion Hfull as [|? ? Hp Hrest]; subst.
    rewrite (fetch_pages_full fuel url page items p tr Hnet Hp).
    rewrite (IH fuel (page + 1) (items ++ p) (tr ++ [url page]) Hrest Hshort
               ltac:(cbn in Hfuel; lia) Hs).
    cbn [List.concat List.length page_numbers map].
    now rewrite <- !app_assoc.
Qed.

(** X11.  A listing served as full pages followed by a page of fewer than
    100 entries (possibly none) is returned whole and in order, after exactly
    one request per page, numbered from 1, and none after the short page. *)
Theorem fetch_paginated_concat (url : Z -> request)
    (full : list (list json)) (short : list json) (tr : trace) :
  Forall full_page full -> (List.length short < 100)%nat ->
  (List.length full < max_pages)%nat ->
  serves url tr 1 (full ++ [short]) ->
  fetch_paginated url tr
  = (Ret (List.concat full ++ short),
     tr ++ map url (page_numbers 1 (S (List.length full)))).
Proof.
  intros Hfull Hshort Hfuel Hs. unfold fetch_paginated.
  now rewrite (fetch_pages_concat url full short max_pages 1 [] tr).
Qed.


(** However the calls of [fetch] end, it is called for the pages of the
    listing one after the other, from the page the loop starts at. *)
Lemma fetch_pages_consecutive (url : Z -> request) (fuel : nat) :
  forall page items tr,
    exists k,
      (k <= fuel)%nat /\
      snd (fetch_pages net fuel url page items tr)
      = tr ++ map url (page_numbers page k).
Proof.
  induction fuel as [|fuel IH]; intros page items tr; cbn [fetch_pages].
  - exists O. cbn. now rewrite app_nil_r.
  - assert (Hone : exists k,
              (k <= S fuel)%nat /\
              tr ++ [url page] = tr ++ map url (page_numbers page k))
      by (exists 1%nat; split; [lia | reflexivity]).
    unfold bind at 1. unfold fetch at 1.
    destruct (net tr (url page)) as [data|e|]; try exact Hone.
    destruct (truthy data); cbn [negb]; [|exact Hone].
    unfold bind, lift.
    destruct (py_iter data) as [more|e|]; try exact Hone.
    destruct (py_len data) as [n|e|]; try exact Hone.
    destruct (n <? 100); [exact Hone|].
    destruct (IH (page + 1) (items ++ more) (tr ++ [url page]))
      as (k & Hk & Hcalls).
    exists (S k). split; [lia|]. rewrite Hcalls.
    cbn [page_numbers map]. now rewrite <- app_assoc.
Qed.

(** X12.  However the calls of [fetch] end, [fetch_paginated] calls it for
    the pages 1, 2, ..., k of the listing in this order, once for each page:
    no page is skipped, [fetch] is not called twice for a page (asking again
    after a rate limit is done inside [fetch]), and it is called for nothing
    else. *)
Theorem fetch_paginated_consecutive (url : Z -> request) (tr : trace) :
  exists k,
    (k <= max_pages)%nat /\
    snd (fetch_paginated url tr) = tr ++ map url (page_numbers 1 k).
Proof. unfold fetch_paginated. apply fetch_pages_consecutive. Qed.

(** An exception on a page ends the loop with this exception. *)
Lemma fetch_pages_raise (url : Z -> request) (full : list (list json))
    (e : exn) :
  forall fuel page items tr,
    Forall full_page full ->
    (List.length full < fuel)%nat ->
    serves url tr page full ->
    net (tr ++ map url (page_numbers page (List.length full)))
        (url (page + Z.of_nat (List.length full))) = Raise e ->
    fetch_pages net fuel url page items tr
    = (Raise e, tr ++ map url (page_numbers page (S (List.length full)))).
Proof.
  induction full as [|p full IH]; intros fuel page items tr Hfull Hfuel Hs He.
  - destruct fuel as [|fuel]; [cbn in Hfuel; lia|].
    cbn in He. rewrite app_nil_r, Z.add_0_r in He.
    cbn [fetch_pages]. unfold bind, fetch. now rewrite He.
  - destruct fuel as [|fuel]; [cbn in Hfuel; lia|].
    destruct Hs as [Hnet Hs]. inversion Hfull as [|? ? Hp Hrest]; subst.
    rewrite (fetch_pages_full fuel url page items p tr Hnet Hp).
    rewrite (IH fuel (page + 1) (items ++ p) (tr ++ [url page]) Hrest
               ltac:(cbn in Hfuel; lia) Hs).
    + cbn [List.length page_numbers map]. now rewrite <- !app_assoc.
    + cbn [List.length page_numbers map] in He.
      rewrite <- app_assoc. cbn [app].
      replace (page + 1 + Z.of_nat (List.length full))
        with (page + Z.of_nat (S (List.length full))) by lia.
      exact He.
Qed.

(** X13.  The reviews of a pull request are kept all or not at all: when a
    page of the listing fails after any number of full pages, the reviews
    already received are dropped and [fetch_pr_reviews] returns the empty
    list, without an exception. *)
Theorem fetch_pr_reviews_all_or_nothing (owner repo : string)
    (pr_number : json) (full : list (list json)) (e : exn) (tr : trace) :
  Forall full_page full ->
  (List.length full < max_pages)%nat ->
  serves (GetPullReviews owner repo pr_number) tr 1 full ->
  net (tr ++ map (GetPullReviews owner repo pr_number)
                 (page_numbers 1 (List.length full)))
      (GetPullReviews owner repo pr_number
         (1 + Z.of_nat (List.length full))) = Raise e ->
  fetch_pr_reviews owner repo pr_number tr
  = (Ret [],
     tr ++ map (GetPullReviews owner repo pr_number)
               (page_numbers 1 (S (List.length full)))).
Proof.
  intros Hfull Hfuel Hs He. unfold fetch_pr_reviews.
  rewrite (ResolverProofs.try_except_raise _ _ tr
             (tr ++ map (GetPullReviews owner repo pr_number)
                        (page_numbers 1 (S (List.length full)))) e);
    [reflexivity|].
  unfold fetch_paginated.
  now apply fetch_pages_raise.
Qed.

End WithNet.

(** Two pages of reviews: 100 and 1. *)
Lemma fetch_paginated_concat_witness :
  fetch_paginated two_pages 5 (GetPullReviews "octo" "repo" (JInt 7)) []
  = (Ret (List.concat [repeat (review "carol" "COMMENTED") 100]
          ++ [review "dave" "APPROVED"]),
     [] ++ map (GetPullReviews "octo" "repo" (JInt 7))
               (page_numbers 1 2)).
Proof.
  apply (fetch_paginated_concat two_pages 5
           (GetPullReviews "octo" "repo" (JInt 7))
           [repeat (review "carol" "COMMENTED") 100]
           [review "dave" "APPROVED"] []).
  - constructor; [|constructor]. unfold full_page. rewrite repeat_length. lia.
  - cbn. lia.
  - cbn. lia.
  - cbn. split; [reflexivity|]. split; [reflexivity | exact I].
Defined.

(** The same listing for pull request 8, whose second page fails. *)
Lemma fetch_pr_reviews_all_or_nothing_witness :
  fetch_pr_reviews two_pages_then_error 5 "octo" "repo" (JInt 8) []
  = (Ret [],
     [] ++ map (GetPullReviews "octo" "repo" (JInt 8)) (page_numbers 1 2)).
Proof.
  apply (fetch_pr_reviews_all_or_nothing two_pages_then_error 5
           "octo" "repo" (JInt 8)
           [repeat (review "carol" "COMMENTED") 100] (HTTPError 502) []).
  - constructor; [|constructor]. unfold full_page. rewrite repeat_length. lia.
  - cbn. lia.
  - cbn. split; [reflexivity | exact I].
  - reflexivity.
Defined.

End FetchProofs.

(** ** harvest_data.py: the metrics of a pull request *)

Module PrMetricsProofs.
Import ResolverSpec ParticipantsSpec PrMetricsSpec.
#[local] Open Scope list_scope.

Ltac invert_binds H :=
  repeat match type of H with
         | obind ?o _ = Ret _ =>
             let E := fresh "E" in
             destruct o eqn:E; cbn [obind] in H; [|discriminate..]
         end.

Lemma count_review_ok (n : nat) (acc t : review_tally) (review : json) :
  tally_ok n acc -> count_review acc review = Ret t -> tally_ok (S n) t.
Proof.
  intros (Ha & Hc & Hk & Hd & Hsum & Hlen & Hwf) H.
  unfold count_review in H.
  destruct (user_login review) as [u| |]; cbn [obind] in H;
    try discriminate.
  destruct (if truthy u then set_add (reviewers acc) u
            else Ret (reviewers acc)) as [rs| |] eqn:Hrs;
    cbn [obind] in H; try discriminate.
  destruct (py_get review "state" (JStr "")) as [st| |]; cbn [obind] in H;
    try discriminate.
  destruct st as [| | |s| |]; try discriminate.
  injection H as <-. unfold tally_ok. cbn [approved changes_requested
    commented dismissed reviewers].
  assert (Hrs' : (List.length rs <= S n)%nat /\ wf_set rs).
  { destruct (truthy u).
    - destruct (ParticipantsProofs.set_add_wf _ _ _ Hwf Hrs) as (Hwf' & _).
      split; [|exact Hwf'].
      apply ParticipantsProofs.set_add_ret in Hrs. destruct Hrs as [_ ->].
      destruct (py_in u (reviewers acc)); [lia|].
      rewrite length_app. cbn. lia.
    - injection Hrs as <-. split; [lia | exact Hwf]. }
  destruct Hrs' as [Hlen' Hwf'].
  assert (Hclose : forall a c k d : Z,
            0 <= a -> 0 <= c -> 0 <= k -> 0 <= d ->
            a + c + k + d <= Z.of_nat (S n) ->
            0 <= a /\ 0 <= c /\ 0 <= k /\ 0 <= d /\
            a + c + k + d <= Z.of_nat (S n) /\
            (List.length rs <= S n)%nat /\ wf_set rs)
    by (intros; repeat (split; [assumption|]); assumption).
  destruct (String.eqb_spec (lower s) "approved") as [Hs|_];
    [try rewrite Hs; cbn; apply Hclose; lia|].
  destruct (String.eqb_spec (lower s) "changes_requested") as [Hs|_];
    [try rewrite Hs; cbn; apply Hclose; lia|].
  destruct (String.eqb_spec (lower s) "commented") as [Hs|_];
    [try rewrite Hs; cbn; apply Hclose; lia|].
  destruct (String.eqb_spec (lower s) "dismissed") as [Hs|_];
    try rewrite Hs; cbn; apply Hclose; lia.
Qed.

Lemma fold_reviews_ok (reviews : list json) :
  forall n acc t,
    tally_ok n acc -> fold_outcome count_review acc reviews = Ret t ->
    tally_ok (n + List.length reviews) t.
Proof.
  induction reviews as [|r l IH]; intros n acc t Hacc H; cbn in H.
  - injection H as <-. cbn. now rewrite Nat.add_0_r.
  - destruct (count_review acc r) as [acc'| |] eqn:Hr; cbn [obind] in H;
      try discriminate.
    cbn [List.length]. rewrite Nat.add_succ_r.
    apply (IH (S n) acc' t); [|exact H].
    now apply (count_review_ok n acc acc' r).
Qed.

Lemma tally_start : tally_ok 0 (mk_review_tally [] 0 0 0 0).
Proof.
  unfold tally_ok, wf_set. cbn.
  repeat split; try lia; constructor.
Qed.

(** What the metrics of a pull request are made of. *)
Lemma pr_metrics_of_ret (pr_data : json) (reviews : list json) (m : json) :
  pr_metrics_of pr_data reviews = Ret m ->
  exists tally names,
    fold_outcome count_review (mk_review_tally [] 0 0 0 0) reviews
    = Ret tally /\
    py_sorted (fun v => Ret v) false (reviewers tally) = Ret names /\
    field m "total_reviews" = JInt (Z.of_nat (List.length reviews)) /\
    field m "reviewer_usernames" = JList names /\
    field m "unique_reviewers"
    = JInt (Z.of_nat (List.length (reviewers tally))) /\
    field m "approved_count" = JInt (approved tally) /\
    field m "changes_requested_count" = JInt (changes_requested tally) /\
    field m "commented_count" = JInt (commented tally).
Proof.
  intros H. unfold pr_metrics_of in H.
  destruct (fold_outcome count_review (mk_review_tally [] 0 0 0 0) reviews)
    as [tally| |] eqn:Htally; cbn [obind] in H; try discriminate.
  invert_binds H.
  injection H as <-.
  exists tally. eexists. split; [reflexivity|]. split; [eassumption|].
  repeat split.
Qed.

Section WithNet.

Variable net : trace -> request -> outcome json.
Variable max_pages : nat.

#[local] Abbreviation extract_pr_metrics := (extract_pr_metrics net max_pages).
#[local] Abbreviation fetch_pr_reviews := (fetch_pr_reviews net max_pages).

(** The metrics are [None] or computed from a pull request and a list of
    reviews. *)
Lemma extract_pr_metrics_ret (owner repo : string) (n m : json)
    (tr tr1 : trace) :
  extract_pr_metrics owner repo n tr = (Ret m, tr1) ->
  m = JNull \/ exists pr_data reviews, pr_metrics_of pr_data reviews = Ret m.
Proof.
  unfold extract_pr_metrics. intros H.
  ResolverProofs.step H pr_data tr0 Hpr.
  destruct (truthy pr_data); cbn [negb] in H.
  - ResolverProofs.step H reviews tr2 Hreviews.
    apply ResolverProofs.lift_ret_inv in H. destruct H as [H _]. eauto.
  - apply ResolverProofs.ret_inv in H. destruct H as [<- _]. now left.
Qed.

(** X14.  In the metrics of a pull request, [unique_reviewers] is the
    length of [reviewer_usernames], which names nobody twice;
    there are at most as many reviewers as reviews; and the reviews counted
    as approved, as requesting changes and as commented are together at
    most [total_reviews]. *)
Theorem review_counts_bounded (owner repo : string) (n m : json)
    (tr tr1 : trace) :
  extract_pr_metrics owner repo n tr = (Ret m, tr1) ->
  truthy m = true ->
  exists (total : nat) (names : list json) (a c k : Z),
    field m "total_reviews" = JInt (Z.of_nat total) /\
    field m "reviewer_usernames" = JList names /\
    field m "unique_reviewers" = JInt (Z.of_nat (List.length names)) /\
    field m "approved_count" = JInt a /\
    field m "changes_requested_count" = JInt c /\
    field m "commented_count" = JInt k /\
    NoDup names /\
    (List.length names <= total)%nat /\
    0 <= a /\ 0 <= c /\ 0 <= k /\ a + c + k <= Z.of_nat total.
Proof.
  intros H Hm. apply extract_pr_metrics_ret in H.
  destruct H as [->|(pr_data & reviews & H)]; [discriminate|].
  apply pr_metrics_of_ret in H.
  destruct H as (tally & names & Hfold & Hsorted & Ht & Hn & Hu & Ha & Hc & Hk).
  apply (fold_reviews_ok reviews 0 _ tally tally_start) in Hfold.
  destruct Hfold as (Ha0 & Hc0 & Hk0 & Hd0 & Hsum & Hlen & Hwf & Hnd).
  apply ParticipantsProofs.py_sorted_id_perm in Hsorted.
  exists (List.length reviews), names, (approved tally),
    (changes_requested tally), (commented tally).
  rewrite <- (Permutation_length Hsorted).
  repeat (split; [assumption|]).
  split.
  - apply (Permutation_NoDup Hsorted).
    apply (NoDup_map_inv canon). exact Hnd.
  - cbn in Hlen, Hsum. repeat split; try assumption; lia.
Qed.

Lemma count_review_returns (acc : review_tally) (review : json) :
  count_review acc review <> Diverge.
Proof.
  unfold count_review.
  destruct (user_login review) as [u| |] eqn:Hu; cbn [obind];
    [|discriminate|now apply ParticipantsProofs.user_login_returns in Hu].
  destruct (if truthy u then set_add (reviewers acc) u
            else Ret (reviewers acc)) as [rs| |] eqn:Hrs; cbn [obind];
    [|discriminate|].
  - destruct (py_get review "state" (JStr "")) as [st| |] eqn:Hst;
      cbn [obind];
      [|discriminate|now apply ResolverProofs.py_get_returns in Hst].
    destruct st; discriminate.
  - destruct (truthy u);
      [now apply ParticipantsProofs.set_add_returns in Hrs | discriminate].
Qed.

Lemma count_review_null_user (acc : review_tally) (review : json) :
  null_user review -> count_review acc review = Raise AttributeError.
Proof.
  intros (d & -> & Hd). unfold count_review, user_login.
  cbn [py_get obind]. now rewrite Hd.
Qed.

Lemma fold_reviews_null_user (reviews : list json) (r : json) :
  In r reviews -> null_user r ->
  forall acc, exists e, fold_outcome count_review acc reviews = Raise e.
Proof.
  intros Hin Hnull. induction reviews as [|x l IH]; [contradiction|].
  intros acc. cbn [fold_outcome].
  destruct Hin as [->|Hin].
  - rewrite (count_review_null_user acc r Hnull). cbn. eauto.
  - destruct (count_review acc x) as [acc'|e|] eqn:Hx; cbn [obind].
    + now apply IH.
    + eauto.
    + now apply count_review_returns in Hx.
Qed.

(** X15.  A review whose [user] is null -- the review of a deleted
    account -- makes [extract_pr_metrics] raise once the pull request and
    its reviews are fetched, wherever the review stands in the listing. *)
Theorem extract_pr_metrics_null_reviewer (owner repo : string)
    (n pr_data : json) (reviews : list json) (r : json) (tr tr1 : trace) :
  net tr (GetPull owner repo n) = Ret pr_data ->
  truthy pr_data = true ->
  fetch_pr_reviews owner repo n (tr ++ [GetPull owner repo n])
  = (Ret reviews, tr1) ->
  In r reviews -> null_user r ->
  exists e, extract_pr_metrics owner repo n tr = (Raise e, tr1).
Proof.
  intros Hnet Hpr Hreviews Hin Hnull.
  destruct (fold_reviews_null_user reviews r Hin Hnull
              (mk_review_tally [] 0 0 0 0)) as [e He].
  exists e. unfold extract_pr_metrics.
  rewrite (ResolverProofs.bind_ret _ _ tr (tr ++ [GetPull owner repo n])
             pr_data).
  - rewrite Hpr. cbn [negb].
    rewrite (ResolverProofs.bind_ret _ _ _ _ _ Hreviews).
    unfold lift, pr_metrics_of. now rewrite He.
  - unfold fetch_pr_details. apply ResolverProofs.try_except_ret.
    now apply ResolverProofs.fetch_ret.
Qed.

(** X16.  A pull request that cannot be fetched, or whose fetched body is
    empty, has no metrics: [extract_pr_metrics] returns [None] after this
    one request, and the reviews are not asked for. *)
Theorem extract_pr_metrics_unfetched (owner repo : string) (n : json)
    (tr : trace) :
  (forall v, net tr (GetPull owner repo n) = Ret v -> truthy v = false) ->
  net tr (GetPull owner repo n) <> Diverge ->
  extract_pr_metrics owner repo n tr
  = (Ret JNull, tr ++ [GetPull owner repo n]).
Proof.
  intros Hfalsy Hanswer.
  unfold extract_pr_metrics, fetch_pr_details, bind, try_except, fetch.
  destruct (net tr (GetPull owner repo n)) as [v|e|] eqn:Hnet.
  - now rewrite (Hfalsy v eq_refl).
  - reflexivity.
  - contradiction.
Qed.

End WithNet.

(** Pull request 7 of the example has one review, an approval of carol. *)
Lemma review_counts_bounded_witness :
  exists (total : nat) (names : list json) (a c k : Z),
    field (metrics_of_pull 7) "total_reviews" = JInt (Z.of_nat total) /\
    field (metrics_of_pull 7) "reviewer_usernames" = JList names /\
    field (metrics_of_pull 7) "unique_reviewers"
    = JInt (Z.of_nat (List.length names)) /\
    field (metrics_of_pull 7) "approved_count" = JInt a /\
    field (metrics_of_pull 7) "changes_requested_count" = JInt c /\
    field (metrics_of_pull 7) "commented_count" = JInt k /\
    NoDup names /\
    (List.length names <= total)%nat /\
    0 <= a /\ 0 <= c /\ 0 <= k /\ a + c + k <= Z.of_nat total.
Proof.
  apply (review_counts_bounded github 5 "octo" "repo" (JInt 7)
           (metrics_of_pull 7) [] (requests_of_pull 7)).
  - vm_compute. reflexivity.
  - reflexivity.
Defined.

(** The second review of pull request 7 is that of a deleted account. *)
Lemma extract_pr_metrics_null_reviewer_witness :
  exists e,
    extract_pr_metrics ghost_review_api 5 "octo" "repo" (JInt 7) []
    = (Raise e, requests_of_pull 7).
Proof.
  apply (extract_pr_metrics_null_reviewer ghost_review_api 5
           "octo" "repo" (JInt 7)
           (pull 7 (JStr "2024-05-03T09:59:00Z"))
           [review "carol" "APPROVED"; ghost_review] ghost_review
           [] (requests_of_pull 7)).
  - reflexivity.
  - reflexivity.
  - reflexivity.
  - right. left. reflexivity.
  - eexists. split; reflexivity.
Defined.

(** Pull request 99 of the example does not exist. *)
Lemma extract_pr_metrics_unfetched_witness :
  extract_pr_metrics github 5 "octo" "repo" (JInt 99) []
  = (Ret JNull, [] ++ [GetPull "octo" "repo" (JInt 99)]).
Proof.
  apply (extract_pr_metrics_unfetched github 5 "octo" "repo" (JInt 99) []).
  - intros v Hv. discriminate Hv.
  - discriminate.
Defined.

End PrMetricsProofs.

(** ** harvest_data.py: the metrics of a commit, and errors in the resolver *)

Module CommitMetricsProofs.
Import ResolverSpec PrMetricsSpec CommitMetricsSpec.
#[local] Open Scope list_scope.

Ltac raise_or_go :=
  repeat match goal with
         | |- exists e, obind ?o _ = Raise e =>
             let E := fresh "E" in
             destruct o eqn:E; cbn [obind py_get];
             [ try discriminate
             | eauto
             | try discriminate;
               try (now apply ResolverProofs.py_get_returns in E) ]
         end.

Lemma commit_metrics_null_field (d : list (string * json)) (k : string) :
  In k nested_fields -> dict_get d k = Some JNull ->
  exists e, commit_metrics_of (JDict d) = Raise e.
Proof.
  intros Hk Hd. unfold commit_metrics_of. cbn [py_get obind].
  destruct Hk as [<-|[<-|[<-|[<-|[]]]]]; rewrite Hd; cbn [py_get obind];
    raise_or_go; eauto.
Qed.

Section WithWorld.

Variable fromisoformat : string -> option datetime.
Variable net : trace -> request -> outcome json.
Variable max_pages : nat.

#[local] Abbreviation extract_commit_metrics := (extract_commit_metrics net).
#[local] Abbreviation extract_pr_metrics := (extract_pr_metrics net max_pages).
#[local] Abbreviation strategy4 := (strategy4 fromisoformat net max_pages).
#[local] Abbreviation strategy3_commit :=
  (strategy3_commit fromisoformat net max_pages).
#[local] Abbreviation find_closing_method :=
  (find_closing_method fromisoformat net max_pages).
#[local] Abbreviation parse_timestamp := (parse_timestamp fromisoformat).

(** X17.  A fetched commit in which [stats], [commit], [author] or
    [committer] is null -- [author] is null for a commit whose author has no
    account -- makes [extract_commit_metrics] raise: the default of
    [.get(key, {})] covers a missing key only. *)
Theorem extract_commit_metrics_null_field (owner repo : string) (sha : json)
    (d : list (string * json)) (k : string) (tr : trace) :
  net tr (GetCommit owner repo sha) = Ret (JDict d) ->
  In k nested_fields -> dict_get d k = Some JNull ->
  exists e,
    extract_commit_metrics owner repo sha tr
    = (Raise e, tr ++ [GetCommit owner repo sha]).
Proof.
  intros Hnet Hk Hd.
  destruct (commit_metrics_null_field d k Hk Hd) as [e He].
  exists e. unfold extract_commit_metrics.
  rewrite (ResolverProofs.bind_ret _ _ tr (tr ++ [GetCommit owner repo sha])
             (JDict d)).
  - destruct d as [|kv d']; [destruct Hk as [<-|[<-|[<-|[<-|[]]]]];
                            discriminate|].
    cbn [truthy negb]. unfold lift. now rewrite He.
  - unfold fetch_commit_details. apply ResolverProofs.try_except_ret.
    now apply ResolverProofs.fetch_ret.
Qed.

(** X18.  The only exception that leaves strategy 4 is one raised while the
    commit is read from the closed event, before any request: every error
    of the lookup of pull requests, of the candidate and of the commit
    metrics is swallowed.  The same holds for the commit-based lookup of
    strategy 3 and the [commit_id] of the referenced event. *)
Theorem commit_lookups_swallow_errors (owner repo : string)
    (ct zt : option datetime) (e : json) (tr : trace) (x : exn) :
  (fst (strategy4 owner repo ct zt e tr) = Raise x ->
   closing_commit_sha e = Raise x /\
   snd (strategy4 owner repo ct zt e tr) = tr) /\
  (fst (strategy3_commit owner repo ct zt e tr) = Raise x ->
   py_get e "commit_id" JNull = Raise x /\
   snd (strategy3_commit owner repo ct zt e tr) = tr).
Proof.
  split.
  - unfold strategy4, bind at 1, lift at 1.
    destruct (closing_commit_sha e) as [sha|y|]; cbn [fst snd].
    + destruct (truthy sha); [|discriminate].
      unfold try_except.
      match goal with
      | |- context [match ?m tr with _ => _ end] =>
          destruct (m tr) as [[r|y|] tr']
      end; discriminate.
    + intros [= ->]. auto.
    + discriminate.
  - unfold strategy3_commit, bind at 1, lift at 1.
    destruct (py_get e "commit_id" JNull) as [sha|y|]; cbn [fst snd].
    + destruct (truthy sha); [|discriminate].
      unfold try_except.
      match goal with
      | |- context [match ?m tr with _ => _ end] =>
          destruct (m tr) as [[r|y|] tr']
      end; discriminate.
    + intros [= ->]. auto.
    + discriminate.
Qed.

(** X19.  An exception raised while the metrics of the candidate of
    strategy 1 are computed is not caught: it leaves [find_closing_method]
    with the requests made so far, and no other strategy is tried. *)
Theorem strategy1_error_escapes (owner repo : string) (number : json)
    (created_at closed_at : json) (events : list json) (tr tr1 : trace)
    (ct zt : option datetime) (closed_events : list json)
    (closed_event pr_number : json) (x : exn) :
  truthy closed_at = true ->
  parse_timestamp created_at = Ret ct ->
  parse_timestamp closed_at = Ret zt ->
  events_of_kind "closed" events = Ret closed_events ->
  closed_events <> [] ->
  py_max created_key closed_events = Ret closed_event ->
  source_pr closed_event = Ret (Some pr_number) ->
  extract_pr_metrics owner repo pr_number tr = (Raise x, tr1) ->
  find_closing_method owner repo number created_at closed_at events tr
  = (Raise x, tr1).
Proof.
  intros Hclosed Hct Hzt Hevents Hne Hmax Hsrc Hextract.
  unfold find_closing_method. rewrite Hclosed. cbn [negb].
  rewrite (ResolverProofs.bind_lift _ _ _ _ Hct),
    (ResolverProofs.bind_lift _ _ _ _ Hzt),
    (ResolverProofs.bind_lift _ _ _ _ Hevents).
  destruct closed_events as [|e0 es]; [congruence|].
  rewrite (ResolverProofs.bind_lift _ _ _ _ Hmax).
  apply ResolverProofs.bind_raise.
  unfold strategy1. rewrite (ResolverProofs.bind_lift _ _ _ _ Hsrc).
  apply ResolverProofs.bind_raise.
  unfold check_pr. now apply ResolverProofs.bind_raise.
Qed.

End WithWorld.

(** The commit fed789 of the example was written without an account. *)
Lemma extract_commit_metrics_null_field_witness :
  exists e,
    extract_commit_metrics no_account_api "octo" "repo" (JStr "fed789") []
    = (Raise e, [] ++ [GetCommit "octo" "repo" (JStr "fed789")]).
Proof.
  apply (extract_commit_metrics_null_field no_account_api "octo" "repo"
           (JStr "fed789")
           [("sha", JStr "fed789");
            ("commit", JDict [("message", JStr "Fix the bug, closes #3");
                              ("author", JDict [("name", JStr "Eve")])]);
            ("author", JNull);
            ("committer", JDict [("login", JStr "web-flow")])]
           "author" []).
  - reflexivity.
  - right. right. left. reflexivity.
  - reflexivity.
Defined.

(** The closed event whose [commit_url] is a number makes strategy 4 raise
    when it strips the URL; the issue closed by the commit fed789 gets
    [(None, None)]. *)
Lemma commit_lookups_swallow_errors_witness :
  (closing_commit_sha closed_odd_url = Raise AttributeError /\
   snd (strategy4 github_fromisoformat github 5 "octo" "repo"
          (Some created_time_ex) (Some closed_time_ex) closed_odd_url [])
   = []) /\
  strategy4 github_fromisoformat no_account_api 5 "octo" "repo"
    (Some created_time_ex) (Some closed_time_ex)
    (closed_by_commit "fed789") []
  = (Ret (JNull, JNull),
     [GetCommitPulls "octo" "repo" (JStr "fed789");
      GetCommit "octo" "repo" (JStr "fed789")]).
Proof.
  split; [|vm_compute; reflexivity].
  apply (proj1 (commit_lookups_swallow_errors github_fromisoformat github 5
                  "octo" "repo" (Some created_time_ex)
                  (Some closed_time_ex) closed_odd_url [] AttributeError)).
  reflexivity.
Defined.

(** The issue of the example, closed with pull request 7 as its source,
    when a review of this pull request is that of a deleted account. *)
Lemma strategy1_error_escapes_witness :
  find_closing_method github_fromisoformat ghost_review_api 5
    "octo" "repo" (JInt 3) created_at_ex closed_at_ex
    [cross_referenced 9; closed_by_pull 7] []
  = (Raise AttributeError, requests_of_pull 7).
Proof.
  apply (strategy1_error_escapes github_fromisoformat ghost_review_api 5
           "octo" "repo" (JInt 3) created_at_ex closed_at_ex
           [cross_referenced 9; closed_by_pull 7] [] (requests_of_pull 7)
           (Some created_time_ex) (Some closed_time_ex)
           [closed_by_pull 7] (closed_by_pull 7) (JInt 7) AttributeError).
  - reflexivity.
  - reflexivity.
  - reflexivity.
  - reflexivity.
  - discriminate.
  - reflexivity.
  - reflexivity.
  - vm_compute. reflexivity.
Defined.

End CommitMetricsProofs.

(** ** harvest_data.py: durations *)

Module TimeProofs.
Import MetricsSpec TimeSpec.
#[local] Open Scope list_scope.

Ltac invert_binds H :=
  repeat match type of H with
         | obind ?o _ = Ret _ =>
             let E := fresh "E" in
             destruct o eqn:E; cbn [obind] in H; [|discriminate..]
         end.

Section WithParser.

Variable fromisoformat : string -> option datetime.

#[local] Abbreviation parse_timestamp := (parse_timestamp fromisoformat).
#[local] Abbreviation calculate_time_diff := (calculate_time_diff fromisoformat).
#[local] Abbreviation calculate_timestamps := (calculate_timestamps fromisoformat).
#[local] Abbreviation calculate_reopen_metrics :=
  (calculate_reopen_metrics fromisoformat).
#[local] Abbreviation stamped := (stamped fromisoformat).
#[local] Abbreviation time_of := (time_of fromisoformat).
#[local] Abbreviation stamp_of := (stamp_of fromisoformat).
#[local] Abbreviation chronological := (chronological fromisoformat).
#[local] Abbreviation well_formed_comment :=
  (well_formed_comment fromisoformat).
#[local] Abbreviation well_formed_event := (well_formed_event fromisoformat).
#[local] Abbreviation issue_times_ok := (issue_times_ok fromisoformat).

Lemma calculate_time_diff_some (a b : json) (d : Z) :
  calculate_time_diff a b = Ret (Some d) ->
  exists ta tb,
    parse_timestamp a = Ret (Some ta) /\ parse_timestamp b = Ret (Some tb) /\
    aware tb = aware ta /\ d = seconds tb - seconds ta.
Proof.
  unfold calculate_time_diff.
  destruct (parse_timestamp a) as [[ta|]| |]; cbn [obind];
    try discriminate;
    destruct (parse_timestamp b) as [[tb|]| |]; cbn [obind];
    try discriminate.
  unfold dt_diff. destruct (Bool.eqb (aware tb) (aware ta)) eqn:E;
    cbn [obind]; [|discriminate].
  intros [= <-]. apply Bool.eqb_prop in E. exists ta, tb. auto.
Qed.

(** X20.  Swapping the two timestamps of [calculate_time_diff] negates the
    difference, and a timestamp that has a difference to another is at
    distance 0 from itself. *)
Theorem time_diff_antisymmetric (a b : json) (d : Z) :
  calculate_time_diff a b = Ret (Some d) ->
  calculate_time_diff b a = Ret (Some (- d)) /\
  calculate_time_diff a a = Ret (Some 0) /\
  calculate_time_diff b b = Ret (Some 0).
Proof.
  intros H. apply calculate_time_diff_some in H.
  destruct H as (ta & tb & Ha & Hb & Hab & ->).
  rewrite (MetricsProofs.calculate_time_diff_present _ b a tb ta Hb Ha)
    by congruence.
  rewrite (MetricsProofs.calculate_time_diff_present _ a a ta ta Ha Ha)
    by congruence.
  rewrite (MetricsProofs.calculate_time_diff_present _ b b tb tb Hb Hb)
    by congruence.
  repeat split; do 2 f_equal; lia.
Qed.

(** The first part of [calculate_timestamps]. *)
Lemma calculate_timestamps_close (issue : json) (comments : list json)
    (m : timestamp_metrics) :
  calculate_timestamps issue comments = Ret m ->
  exists created closed p,
    py_get issue "created_at" JNull = Ret created /\
    py_get issue "closed_at" JNull = Ret closed /\
    (if truthy created && truthy closed then
       let? d := calculate_time_diff created closed in
       match d with
       | Some s => Ret (Some s, Some (RoundedDays s))
       | None => Raise TypeError
       end
     else Ret (None, None)) = Ret p /\
    time_to_close_seconds m = fst p /\ time_open_days m = snd p.
Proof.
  intros H. unfold calculate_timestamps in H.
  destruct (py_get issue "created_at" JNull) as [created| |];
    cbn [obind] in H; try discriminate.
  destruct (py_get issue "closed_at" JNull) as [closed| |];
    cbn [obind] in H; try discriminate.
  invert_binds H. injection H as <-.
  exists created, closed. eexists.
  split; [reflexivity|]. split; [reflexivity|]. split; [eassumption|].
  split; reflexivity.
Qed.

(** X21.  Whenever [calculate_timestamps] returns, [time_to_close_seconds]
    is the closing time minus the creation time of the issue when both
    timestamps are there, and absent otherwise, whatever the comments are;
    [time_open_days] is computed from the same number of seconds. *)
Theorem time_to_close_spec (issue : json) (comments : list json)
    (m : timestamp_metrics) :
  calculate_timestamps issue comments = Ret m ->
  time_open_days m = option_map RoundedDays (time_to_close_seconds m) /\
  time_to_close_seconds m
  = match stamp_of issue "created_at", stamp_of issue "closed_at" with
    | Some t0, Some tz => Some (seconds tz - seconds t0)
    | _, _ => None
    end.
Proof.
  intros H. apply calculate_timestamps_close in H.
  destruct H as (created & closed & p & Hcreated & Hclosed & Hp & -> & ->).
  unfold stamp_of, TimeSpec.stamp_of. rewrite Hcreated, Hclosed.
  destruct (truthy created) eqn:Tc; cbn [andb] in Hp.
  - destruct (truthy closed) eqn:Tz.
    + destruct (calculate_time_diff created closed) as [[d|]| |] eqn:Hd;
        cbn [obind] in Hp; try discriminate.
      injection Hp as <-. cbn [fst snd option_map].
      apply calculate_time_diff_some in Hd.
      destruct Hd as (t0 & tz & -> & -> & _ & ->). auto.
    + injection Hp as <-. cbn [fst snd option_map].
      rewrite (MetricsProofs.parse_timestamp_falsy _ closed Tz).
      split; [reflexivity|].
      now destruct (parse_timestamp created) as [[t|]| |].
  - injection Hp as <-. cbn [fst snd option_map].
    now rewrite (MetricsProofs.parse_timestamp_falsy _ created Tc).
Qed.

(** X22.  With comments as the API sends them, a first response comes
    with a first comment, and not before it:
    [time_to_first_comment_seconds <= time_to_first_response_seconds]. *)
Theorem first_comment_before_response (issue : json) (comments : list json)
    (created : json) (t0 : datetime) (m : timestamp_metrics) (r : Z) :
  py_get issue "created_at" JNull = Ret created ->
  parse_timestamp created = Ret (Some t0) ->
  Forall (well_formed_comment t0) comments ->
  chronological comments ->
  calculate_timestamps issue comments = Ret m ->
  time_to_first_response_seconds m = Some r ->
  exists d, time_to_first_comment_seconds m = Some d /\ d <= r.
Proof.
  intros Hcreated Hparse Hwf Hchron H Hr.
  destruct (MetricsProofs.parse_timestamp_some _ created t0 Hparse)
    as (s0 & -> & Htruthy & Hs0).
  unfold calculate_timestamps in H. rewrite Hcreated in H.
  cbn [obind] in H.
  destruct (py_get issue "closed_at" JNull) as [closed| |];
    cbn [obind] in H; try discriminate.
  rewrite Htruthy in H. cbn [andb] in H.
  match type of H with
  | obind ?o _ = Ret _ => destruct o as [p| |]; cbn [obind] in H;
                          try discriminate
  end.
  destruct comments as [|c0 comments'].
  { cbn in H. injection H as <-. discriminate Hr. }
  cbv iota in H.
  remember (c0 :: comments') as comments eqn:Hcomments.
  assert (Hne : comments <> []) by (rewrite Hcomments; discriminate).
  destruct (MetricsProofs.first_of_comments _ (JStr s0) t0 comments
              Hparse Hne Hwf Hchron)
    as (c1 & t1 & _ & _ & Hleast1 & Hfirst).
  rewrite Hfirst in H. cbn [obind] in H.
  destruct (user_login issue) as [author| |]; cbn [obind] in H;
    try discriminate.
  rewrite (MetricsProofs.filter_by_other author comments) in H
    by (revert Hwf; apply Forall_impl; now intros ? [? _]).
  cbn [obind] in H.
  assert (Hincl : incl (filter (by_other author) comments) comments).
  { intros x Hx. now apply filter_In in Hx. }
  pose proof (incl_Forall Hincl Hwf) as Hwf'.
  pose proof (MetricsProofs.chronological_incl _ _ _ Hincl Hchron) as Hchron'.
  destruct (filter (by_other author) comments) as [|o others'].
  { cbn in H. injection H as <-. discriminate Hr. }
  cbv iota in H.
  remember (o :: others') as others eqn:Hothers.
  assert (Hne' : others <> []) by (rewrite Hothers; discriminate).
  destruct (MetricsProofs.first_of_comments _ (JStr s0) t0 others
              Hparse Hne' Hwf' Hchron')
    as (c2 & t2 & Hin2 & Ht2 & _ & Hresp).
  rewrite Hresp in H. cbn [obind] in H. injection H as <-.
  cbn in Hr |- *. injection Hr as <-.
  exists (seconds t1 - seconds t0). split; [reflexivity|].
  specialize (Hleast1 c2 t2 (Hincl c2 Hin2) Ht2). lia.
Qed.

(** *** Reopenings *)

Lemma events_of_kind_filter (kind : string) (events l : list json) :
  events_of_kind kind events = Ret l -> l = filter (of_kind kind) events.
Proof.
  revert l. induction events as [|e es IH]; intros l H; cbn in H.
  - now injection H as <-.
  - destruct (py_get e "event" JNull) as [k| |] eqn:Hk; cbn [obind] in H;
      try discriminate.
    destruct (events_of_kind kind es) as [r| |]; cbn [obind] in H;
      try discriminate.
    injection H as <-. cbn [filter]. unfold of_kind at 1, kind_of.
    rewrite Hk, (IH r eq_refl). reflexivity.
Qed.

Lemma events_of_kind_objects (kind : string) (events : list json) :
  Forall BotMainSpec.is_object events ->
  events_of_kind kind events = Ret (filter (of_kind kind) events).
Proof.
  induction 1 as [|e es [d ->] _ IH]; [reflexivity|].
  cbn [events_of_kind py_get obind]. rewrite IH. cbn [obind filter].
  reflexivity.
Qed.

Lemma map_outcome_length {A B} (f : A -> outcome B) (l : list A)
    (r : list B) :
  map_outcome f l = Ret r -> List.length r = List.length l.
Proof.
  revert r. induction l as [|x l IH]; intros r H; cbn in H.
  - now injection H as <-.
  - destruct (f x); cbn [obind] in H; try discriminate.
    destruct (map_outcome f l); cbn [obind] in H; try discriminate.
    injection H as <-. cbn. now rewrite (IH _ eq_refl).
Qed.

(** X23.  Whenever [calculate_reopen_metrics] returns, [reopen_count] is
    the number of [reopened] events of the timeline and the length of
    [reopen_timestamps], [was_reopened] says whether it is positive, and
    an issue that was not reopened has neither a time to reopen nor a final
    resolution time. *)
Theorem reopen_counts (issue : json) (events : list json)
    (m : reopen_metrics) :
  calculate_reopen_metrics issue events = Ret m ->
  reopen_count m = List.length (filter (of_kind "reopened") events) /\
  List.length (reopen_timestamps m) = reopen_count m /\
  was_reopened m = negb (reopen_count m =? 0)%nat /\
  (was_reopened m = false ->
   time_to_reopen_seconds m = None /\
   final_resolution_time_seconds m = None).
Proof.
  intros H. unfold calculate_reopen_metrics in H.
  destruct (events_of_kind "closed" events) as [closed_events| |];
    cbn [obind] in H; try discriminate.
  destruct (events_of_kind "reopened" events) as [reopened_events| |] eqn:Hre;
    cbn [obind] in H; try discriminate.
  apply events_of_kind_filter in Hre. rewrite <- Hre.
  destruct reopened_events as [|e0 es].
  - injection H as <-. cbn. auto.
  - remember (e0 :: es) as reopened_events eqn:Hlist.
    destruct (map_outcome _ reopened_events) as [stamps| |] eqn:Hstamps;
      cbn [obind] in H; try discriminate.
    invert_binds H. injection H as <-. cbn.
    rewrite (map_outcome_length _ _ _ Hstamps).
    rewrite Hlist. cbn. repeat split; discriminate.
Qed.

(** X24.  A timeline of objects without a [reopened] event gives the
    default metrics, whatever the issue is and whatever the timestamps of
    the events are: in particular a closed issue that was never reopened
    has no final resolution time. *)
Theorem never_reopened_defaults (issue : json) (events : list json) :
  Forall BotMainSpec.is_object events ->
  Forall (fun e => of_kind "reopened" e = false) events ->
  calculate_reopen_metrics issue events
  = Ret {| was_reopened := false; reopen_count := 0;
           time_to_reopen_seconds := None;
           final_resolution_time_seconds := None;
           reopen_timestamps := [] |}.
Proof.
  intros Hobj Hnone. unfold calculate_reopen_metrics.
  rewrite !events_of_kind_objects by exact Hobj. cbn [obind].
  replace (filter (of_kind "reopened") events) with (@nil json);
    [reflexivity|].
  symmetry. induction Hnone as [|e es He _ IH]; [reflexivity|].
  cbn [filter]. rewrite He. apply IH. now inversion Hobj.
Qed.

(** X25.  For an issue that was reopened, [final_resolution_time_seconds]
    is the [time_to_close_seconds] of the timestamp metrics when the issue
    is closed now, and absent when it is not. *)
Theorem final_resolution_is_time_to_close (issue : json)
    (comments events : list json) (tm : timestamp_metrics)
    (rm : reopen_metrics) :
  calculate_timestamps issue comments = Ret tm ->
  calculate_reopen_metrics issue events = Ret rm ->
  was_reopened rm = true ->
  final_resolution_time_seconds rm
  = if is_closed issue then time_to_close_seconds tm else None.
Proof.
  intros Htm Hrm Hre. apply calculate_timestamps_close in Htm.
  destruct Htm as (created & closed & p & Hcreated & Hclosed & Hp & -> & _).
  unfold calculate_reopen_metrics in Hrm.
  destruct (events_of_kind "closed" events) as [closed_events| |];
    cbn [obind] in Hrm; try discriminate.
  destruct (events_of_kind "reopened" events) as [reopened_events| |];
    cbn [obind] in Hrm; try discriminate.
  destruct reopened_events as [|e0 es].
  { injection Hrm as <-. discriminate Hre. }
  cbv iota in Hrm.
  match type of Hrm with
  | obind ?o _ = Ret _ => destruct o as [stamps| |]; cbn [obind] in Hrm;
                          try discriminate
  end.
  match type of Hrm with
  | obind ?o _ = Ret _ => destruct o as [to_reopen| |]; cbn [obind] in Hrm;
                          try discriminate
  end.
  unfold is_closed.
  destruct (py_get issue "state" JNull) as [state| |]; cbn [obind] in Hrm;
    try discriminate.
  destruct (eq_str state "closed").
  - rewrite Hcreated, Hclosed in Hrm. cbn [obind] in Hrm.
    destruct (truthy created && truthy closed).
    + destruct (calculate_time_diff created closed) as [[d|]| |];
        cbn [obind] in Hrm, Hp; try discriminate.
      injection Hrm as <-. injection Hp as <-. reflexivity.
    + cbn [obind] in Hrm. injection Hrm as <-. injection Hp as <-.
      reflexivity.
  - cbn [obind] in Hrm. injection Hrm as <-. reflexivity.
Qed.


Lemma well_formed_event_object (clock : bool) (e : json) :
  well_formed_event clock e -> BotMainSpec.is_object e.
Proof.
  intros (s & t & (Hget & _) & _). destruct e; try discriminate.
  now eexists.
Qed.

Lemma map_get_objects (k : string) (l : list json) :
  Forall BotMainSpec.is_object l ->
  exists r, map_outcome (fun e => py_get e k JNull) l = Ret r.
Proof.
  induction 1 as [|e es [d ->] _ (r & IH)]; [now exists []|].
  cbn [map_outcome py_get obind]. rewrite IH. cbn. eauto.
Qed.

(** The earliest of the events of a kind, as [min] finds it. *)
Lemma first_of_kind (clock : bool) (kind : string) (events : list json) :
  Forall (well_formed_event clock) events ->
  chronological events ->
  filter (of_kind kind) events <> [] ->
  exists e s t,
    py_min created_key (filter (of_kind kind) events) = Ret e /\
    In e (filter (of_kind kind) events) /\
    stamped e s t /\ aware t = clock /\
    forall e' t', In e' (filter (of_kind kind) events) ->
                  time_of e' = Some t' -> seconds t <= seconds t'.
Proof.
  intros Hwf Hchron Hne.
  assert (Hincl : incl (filter (of_kind kind) events) events).
  { intros x Hx. now apply filter_In in Hx. }
  pose proof (incl_Forall Hincl Hwf) as Hwf'.
  destruct (MetricsProofs.py_min_least fromisoformat
              (filter (of_kind kind) events) Hne)
    as (e & s & t & Hmin & Hin & Hst & Hleast).
  - revert Hwf'. apply Forall_impl. intros c (s & t & H & _). eauto.
  - now apply (MetricsProofs.chronological_incl _ events).
  - exists e, s, t. split; [exact Hmin|]. split; [exact Hin|].
    split; [exact Hst|]. rewrite Forall_forall in Hwf'. split.
    + destruct (Hwf' e Hin) as (s' & t' & Hst' & Haw).
      now destruct (MetricsProofs.stamped_fun _ e s s' t t' Hst Hst')
        as [_ ->].
    + intros e' t' Hin' Ht'.
      destruct (Hwf' e' Hin') as (s' & t'' & Hst' & _).
      rewrite (MetricsProofs.stamped_time _ e' s' t'' Hst') in Ht'.
      injection Ht' as <-. eauto.
Qed.

(** X26.  For a timeline of events with timestamps and a well-formed
    issue, [calculate_reopen_metrics] returns, and [time_to_reopen_seconds]
    is the time from the earliest [closed] event to the earliest [reopened]
    event. *)
Theorem time_to_reopen_spec (issue : json) (events : list json)
    (clock : bool) :
  issue_times_ok issue ->
  Forall (well_formed_event clock) events ->
  chronological events ->
  filter (of_kind "closed") events <> [] ->
  filter (of_kind "reopened") events <> [] ->
  exists m c r tc tr,
    calculate_reopen_metrics issue events = Ret m /\
    In c (filter (of_kind "closed") events) /\
    In r (filter (of_kind "reopened") events) /\
    time_of c = Some tc /\ time_of r = Some tr /\
    (forall c' t', In c' (filter (of_kind "closed") events) ->
                   time_of c' = Some t' -> seconds tc <= seconds t') /\
    (forall r' t', In r' (filter (of_kind "reopened") events) ->
                   time_of r' = Some t' -> seconds tr <= seconds t') /\
    time_to_reopen_seconds m = Some (seconds tr - seconds tc).
Proof.
  intros (d & -> & Hissue) Hwf Hchron Hclosed Hreopened.
  assert (Hobj : Forall BotMainSpec.is_object events).
  { revert Hwf. apply Forall_impl. apply well_formed_event_object. }
  destruct (first_of_kind clock "closed" events Hwf Hchron Hclosed)
    as (c & sc & tc & Hminc & Hinc & Hstc & Hawc & Hleastc).
  destruct (first_of_kind clock "reopened" events Hwf Hchron Hreopened)
    as (r & sr & tr & Hminr & Hinr & Hstr & Hawr & Hleastr).
  assert (Hobj' : Forall BotMainSpec.is_object
                    (filter (of_kind "reopened") events)).
  { apply (incl_Forall (l1 := events)); [|exact Hobj].
    intros x Hx. now apply filter_In in Hx. }
  destruct (map_get_objects "created_at" _ Hobj') as (stamps & Hstamps).
  assert (Hfinal : exists final,
    (if eq_str (match dict_get d "state" with Some v => v | None => JNull end)
               "closed"
     then
       let? created_at := py_get (JDict d) "created_at" JNull in
       let? closed_at := py_get (JDict d) "closed_at" JNull in
       if truthy created_at && truthy closed_at
       then calculate_time_diff created_at closed_at
       else Ret None
     else Ret None) = Ret final).
  { destruct (eq_str _ "closed"); [|eauto].
    cbn [py_get obind].
    destruct (truthy _) eqn:Tc; cbn [andb]; [|eauto].
    destruct (truthy (match dict_get d "closed_at" with
                      | Some v => v | None => JNull end)) eqn:Tz;
      [|eauto].
    destruct (Hissue _ _ eq_refl eq_refl Tc Tz) as (t0 & tz & H0 & Hz & Haw).
    rewrite (MetricsProofs.calculate_time_diff_present _ _ _ t0 tz H0 Hz Haw).
    eauto. }
  destruct Hfinal as (final & Hfinal).
  exists {| was_reopened := true;
            reopen_count :=
              List.length (filter (of_kind "reopened") events);
            time_to_reopen_seconds := Some (seconds tr - seconds tc);
            final_resolution_time_seconds := final;
            reopen_timestamps := stamps |}.
  exists c, r, tc, tr. split.
  - unfold calculate_reopen_metrics.
    rewrite !events_of_kind_objects by exact Hobj. cbn [obind].
    destruct (filter (of_kind "reopened") events) as [|r0 rs] eqn:Hre;
      [congruence|].
    rewrite Hstamps. cbn [obind].
    destruct (filter (of_kind "closed") events) as [|c0 cs] eqn:Hcl;
      [congruence|].
    rewrite Hminc, Hminr. cbn [obind].
    destruct Hstc as (Hgc & Hsc & Htc). destruct Hstr as (Hgr & Hsr & Htr).
    rewrite Hgc, Hgr. cbn [obind].
    rewrite (MetricsProofs.calculate_time_diff_present _ (JStr sc) (JStr sr)
               tc tr)
      by (try apply MetricsProofs.parse_timestamp_stamp; congruence).
    cbn [obind py_get] in Hfinal |- *. rewrite Hfinal. cbn [obind].
    reflexivity.
  - split; [exact Hinc|]. split; [exact Hinr|].
    split; [now apply (MetricsProofs.stamped_time _ c sc)|].
    split; [now apply (MetricsProofs.stamped_time _ r sr)|].
    split; [exact Hleastc|]. split; [exact Hleastr|]. reflexivity.
Qed.

End WithParser.

(** *** Examples *)

Lemma time_diff_antisymmetric_witness :
  calculate_time_diff github_fromisoformat
    (JStr "2024-05-01T10:01:40Z") (JStr "2024-05-01T10:00:00Z")
  = Ret (Some (- 100)) /\
  calculate_time_diff github_fromisoformat
    (JStr "2024-05-01T10:00:00Z") (JStr "2024-05-01T10:00:00Z")
  = Ret (Some 0) /\
  calculate_time_diff github_fromisoformat
    (JStr "2024-05-01T10:01:40Z") (JStr "2024-05-01T10:01:40Z")
  = Ret (Some 0).
Proof.
  apply (time_diff_antisymmetric github_fromisoformat
           (JStr "2024-05-01T10:00:00Z") (JStr "2024-05-01T10:01:40Z") 100).
  reflexivity.
Defined.

(** The issue of the example was open for two days. *)
Lemma time_to_close_spec_witness :
  Some (RoundedDays 172800) = option_map RoundedDays (Some 172800) /\
  Some 172800
  = match stamp_of github_fromisoformat reopened_issue "created_at",
          stamp_of github_fromisoformat reopened_issue "closed_at" with
    | Some t0, Some tz => Some (seconds tz - seconds t0)
    | _, _ => None
    end.
Proof.
  apply (time_to_close_spec github_fromisoformat reopened_issue []
           {| time_to_close_seconds := Some 172800;
              time_to_first_comment_seconds := None;
              time_to_first_response_seconds := None;
              time_open_days := Some (RoundedDays 172800) |}).
  reflexivity.
Defined.

Lemma alice_bob_well_formed :
  Forall (well_formed_comment github_fromisoformat
            (mk_datetime true 1714557600)) alice_bob_comments.
Proof.
  repeat constructor;
    (eexists; reflexivity) ||
    (do 2 eexists; split;
     [split; [reflexivity | split; [discriminate | reflexivity]]
     | reflexivity]).
Qed.

(** alice comments at once, bob answers after 100 seconds. *)
Lemma first_comment_before_response_witness :
  exists d, Some 0 = Some d /\ d <= 100.
Proof.
  apply (first_comment_before_response github_fromisoformat
           alice_issue alice_bob_comments
           (JStr "2024-05-01T10:00:00Z") (mk_datetime true 1714557600)
           {| time_to_close_seconds := None;
              time_to_first_comment_seconds := Some 0;
              time_to_first_response_seconds := Some 100;
              time_open_days := None |} 100).
  - reflexivity.
  - reflexivity.
  - exact alice_bob_well_formed.
  - exact MetricsProofs.alice_bob_chronological.
  - reflexivity.
  - reflexivity.
Defined.

Lemma reopen_counts_witness :
  1%nat = List.length (filter (of_kind "reopened") reopened_timeline) /\
  List.length [JStr "2024-05-02T12:00:00Z"] = 1%nat /\
  true = negb (1 =? 0)%nat /\
  (true = false -> Some 86400 = None /\ Some 172800 = None).
Proof.
  apply (reopen_counts github_fromisoformat reopened_issue
           reopened_timeline
           {| was_reopened := true; reopen_count := 1;
              time_to_reopen_seconds := Some 86400;
              final_resolution_time_seconds := Some 172800;
              reopen_timestamps := [JStr "2024-05-02T12:00:00Z"] |}).
  reflexivity.
Defined.

Lemma never_reopened_defaults_witness :
  calculate_reopen_metrics github_fromisoformat reopened_issue
    labeled_timeline
  = Ret {| was_reopened := false; reopen_count := 0;
           time_to_reopen_seconds := None;
           final_resolution_time_seconds := None;
           reopen_timestamps := [] |}.
Proof.
  apply (never_reopened_defaults github_fromisoformat reopened_issue
           labeled_timeline).
  - repeat constructor; now eexists.
  - repeat constructor.
Defined.

Lemma final_resolution_is_time_to_close_witness :
  Some 172800 = if is_closed reopened_issue then Some 172800 else None.
Proof.
  apply (final_resolution_is_time_to_close github_fromisoformat
           reopened_issue [] reopened_timeline
           {| time_to_close_seconds := Some 172800;
              time_to_first_comment_seconds := None;
              time_to_first_response_seconds := None;
              time_open_days := Some (RoundedDays 172800) |}
           {| was_reopened := true; reopen_count := 1;
              time_to_reopen_seconds := Some 86400;
              final_resolution_time_seconds := Some 172800;
              reopen_timestamps := [JStr "2024-05-02T12:00:00Z"] |});
    reflexivity.
Defined.

Lemma reopened_timeline_chronological :
  chronological github_fromisoformat reopened_timeline.
Proof.
  intros c1 c2 s1 s2 t1 t2 H1 H2 (G1 & _ & T1) (G2 & _ & T2).
  cbn in H1, H2.
  destruct H1 as [<-|[<-|[<-|[]]]]; destruct H2 as [<-|[<-|[<-|[]]]];
    cbn in G1, G2; injection G1 as <-; injection G2 as <-;
    vm_compute in T1, T2; injection T1 as <-; injection T2 as <-;
    vm_compute; split; (discriminate || reflexivity || auto).
Qed.

Lemma reopened_timeline_well_formed :
  Forall (well_formed_event github_fromisoformat true) reopened_timeline.
Proof.
  repeat constructor;
    (do 2 eexists; split;
     [split; [reflexivity | split; [discriminate | reflexivity]]
     | reflexivity]).
Qed.

Lemma reopened_issue_times_ok :
  issue_times_ok github_fromisoformat reopened_issue.
Proof.
  eexists. split; [reflexivity|].
  intros created closed Hc Hz _ _. cbn in Hc, Hz.
  injection Hc as <-. injection Hz as <-.
  do 2 eexists. repeat split.
Qed.

(** The issue of the example was reopened a day after it was first
    closed. *)
Lemma time_to_reopen_spec_witness :
  exists m c r tc tr,
    calculate_reopen_metrics github_fromisoformat reopened_issue
      reopened_timeline = Ret m /\
    In c (filter (of_kind "closed") reopened_timeline) /\
    In r (filter (of_kind "reopened") reopened_timeline) /\
    time_of github_fromisoformat c = Some tc /\
    time_of github_fromisoformat r = Some tr /\
    (forall c' t', In c' (filter (of_kind "closed") reopened_timeline) ->
                   time_of github_fromisoformat c' = Some t' ->
                   seconds tc <= seconds t') /\
    (forall r' t', In r' (filter (of_kind "reopened") reopened_timeline) ->
                   time_of github_fromisoformat r' = Some t' ->
                   seconds tr <= seconds t') /\
    time_to_reopen_seconds m = Some (seconds tr - seconds tc).
Proof.
  apply (time_to_reopen_spec github_fromisoformat reopened_issue
           reopened_timeline true).
  - exact reopened_issue_times_ok.
  - exact reopened_timeline_well_formed.
  - exact reopened_timeline_chronological.
  - discriminate.
  - discriminate.
Defined.

End TimeProofs.

(** ** harvest_data.py: the resolver as a whole *)

Module ResolverTraceProofs.
Import MetricsSpec ResolverSpec TimeSpec TraceSpec.
#[local] Open Scope list_scope.

Section Extends.

Variable P : request -> Prop.

Lemma extends_ret {A} (a : A) : extends P (ret a).
Proof. intros tr. exists []. cbn. now rewrite app_nil_r. Qed.

Lemma extends_lift {A} (o : outcome A) : extends P (lift o).
Proof. intros tr. exists []. cbn. now rewrite app_nil_r. Qed.

Lemma extends_bind {A B} (m : M A) (k : A -> M B) :
  extends P m -> (forall a, extends P (k a)) -> extends P (bind m k).
Proof.
  intros Hm Hk tr. destruct (Hm tr) as (calls & Hcalls & Hall).
  unfold bind. destruct (m tr) as [[a|e|] tr1]; cbn in Hcalls; subst tr1;
    try (exists calls; now split).
  destruct (Hk a (tr ++ calls)) as (calls' & Hcalls' & Hall').
  exists (calls ++ calls'). rewrite Hcalls', app_assoc.
  split; [reflexivity | now apply Forall_app].
Qed.

Lemma extends_try_except {A} (m : M A) (h : exn -> M A) :
  extends P m -> (forall e, extends P (h e)) -> extends P (try_except m h).
Proof.
  intros Hm Hh tr. destruct (Hm tr) as (calls & Hcalls & Hall).
  unfold try_except.
  destruct (m tr) as [[a|e|] tr1]; cbn in Hcalls; subst tr1;
    try (exists calls; now split).
  destruct (Hh e (tr ++ calls)) as (calls' & Hcalls' & Hall').
  exists (calls ++ calls'). rewrite Hcalls', app_assoc.
  split; [reflexivity | now apply Forall_app].
Qed.

Lemma extends_for_each {A} (body : json -> M (flow A)) (l : list json) :
  (forall x, extends P (body x)) -> extends P (for_each body l).
Proof.
  intros Hbody. induction l as [|x l IH]; cbn [for_each].
  - apply extends_ret.
  - apply extends_bind; [apply Hbody|].
    intros [|v]; [exact IH | apply extends_ret].
Qed.

End Extends.

Section WithWorld.

Variable fromisoformat : string -> option datetime.
Variable net : trace -> request -> outcome json.
Variable max_pages : nat.

#[local] Abbreviation find_closing_method :=
  (find_closing_method fromisoformat net max_pages).

Lemma extends_fetch (P : request -> Prop) (req : request) :
  P req -> extends P (fetch net req).
Proof. intros H tr. exists [req]. split; [reflexivity | now constructor]. Qed.

Lemma extends_extract_pr_metrics (owner repo : string) (n : json) :
  extends (in_repo owner repo) (extract_pr_metrics net max_pages owner repo n).
Proof.
  intros tr.
  destruct (ResolverProofs.extract_pr_metrics_trace net max_pages
              owner repo n tr) as (calls & Hcalls & Hall).
  exists calls. split; [exact Hcalls|].
  revert Hall. apply Forall_impl.
  intros req [->|[page ->]]; now split.
Qed.

Ltac extends_step :=
  first
    [ apply extends_ret
    | apply extends_lift
    | apply extends_extract_pr_metrics
    | apply extends_fetch; now split
    | apply extends_for_each; intros
    | apply extends_bind; [|intros]
    | apply extends_try_except; [|intros]
    | match goal with
      | |- extends _ (match ?x with _ => _ end) => destruct x
      end ].

Lemma extends_check_pr (owner repo : string) (ct zt : option datetime)
    (limit : Z) (n : json) :
  extends (in_repo owner repo)
    (check_pr fromisoformat net max_pages owner repo ct zt limit n).
Proof. unfold check_pr. repeat extends_step. Qed.

Lemma extends_strategy1 (owner repo : string) (ct zt : option datetime)
    (e : json) :
  extends (in_repo owner repo)
    (strategy1 fromisoformat net max_pages owner repo ct zt e).
Proof.
  unfold strategy1.
  repeat first [apply extends_check_pr | extends_step].
Qed.

Lemma extends_strategy2 (owner repo : string) (ct zt : option datetime)
    (events : list json) :
  extends (in_repo owner repo)
    (strategy2 fromisoformat net max_pages owner repo ct zt events).
Proof.
  unfold strategy2, strategy2_event.
  repeat first [apply extends_check_pr | extends_step].
Qed.

Lemma extends_strategy3_commit (owner repo : string)
    (ct zt : option datetime) (e : json) :
  extends (in_repo owner repo)
    (strategy3_commit fromisoformat net max_pages owner repo ct zt e).
Proof.
  unfold strategy3_commit.
  repeat first [apply extends_check_pr | extends_step].
Qed.

Lemma extends_strategy3 (owner repo : string) (ct zt : option datetime)
    (events : list json) :
  extends (in_repo owner repo)
    (strategy3 fromisoformat net max_pages owner repo ct zt events).
Proof.
  unfold strategy3, strategy3_event.
  repeat first [apply extends_check_pr | apply extends_strategy3_commit
               | extends_step].
Qed.

Lemma extends_strategy4 (owner repo : string) (ct zt : option datetime)
    (e : json) :
  extends (in_repo owner repo)
    (strategy4 fromisoformat net max_pages owner repo ct zt e).
Proof.
  unfold strategy4, extract_commit_metrics, fetch_commit_details.
  repeat first [apply extends_check_pr | extends_step].
Qed.

Lemma prefix_cancel (a b c : string) :
  String.prefix (a ++ b) (a ++ c) = String.prefix b c.
Proof.
  induction a as [|x a IH]; [reflexivity|]. cbn [append String.prefix].
  now destruct (ascii_dec x x).
Qed.

Lemma in_repo_url (py_str : json -> string) (owner repo : string)
    (req : request) :
  in_repo owner repo req ->
  String.prefix (repo_root owner repo) (url_of py_str req) = true.
Proof.
  unfold repo_root.
  destruct req as [o r n|o r n page|o r sha|o r sha];
    intros [-> ->]; cbn [url_of];
    rewrite !prefix_cancel; reflexivity.
Qed.

(** X27.  Every URL [find_closing_method] calls [fetch] on begins with
    [https://api.github.com/repos/{owner}/{repo}/], for the owner and the
    repository of the issue, whatever the timeline says and however the
    calls end: the number of a pull request referenced from another
    repository, and any commit id, are put after this prefix as they
    are. *)
Theorem requests_stay_in_repo (py_str : json -> string)
    (owner repo : string) (number : json)
    (created_at closed_at : json) (events : list json) (tr : trace) :
  exists calls,
    snd (find_closing_method owner repo number created_at closed_at events
           tr) = tr ++ calls /\
    Forall (fun req =>
              String.prefix (repo_root owner repo) (url_of py_str req)
              = true) calls.
Proof.
  assert (H : extends (in_repo owner repo)
    (find_closing_method owner repo number created_at closed_at events)).
  { unfold find_closing_method.
    repeat first [apply extends_strategy1 | apply extends_strategy2
                 | apply extends_strategy3 | apply extends_strategy4
                 | extends_step]. }
  destruct (H tr) as (calls & Hcalls & Hall).
  exists calls. split; [exact Hcalls|].
  revert Hall. apply Forall_impl. apply in_repo_url.
Qed.

End WithWorld.

Section WithParser.

Variable fromisoformat : string -> option datetime.

#[local] Abbreviation stamped := (stamped fromisoformat).
#[local] Abbreviation time_of := (time_of fromisoformat).
#[local] Abbreviation chronological := (chronological fromisoformat).
#[local] Abbreviation well_formed_event := (well_formed_event fromisoformat).

(** The scan of [max] over events with well-formed timestamps returns one
    of them, and none is later. *)
Lemma max_scan_greatest (l : list json) :
  forall best sb tb,
    stamped best sb tb ->
    Forall (fun c => exists s t, stamped c s t) l ->
    chronological (best :: l) ->
    exists m sm tm,
      max_scan created_key best (JStr sb) l = Ret m /\
      In m (best :: l) /\ stamped m sm tm /\
      seconds tb <= seconds tm /\
      forall c s t, In c l -> stamped c s t -> seconds t <= seconds tm.
Proof.
  induction l as [|x l IH]; intros best sb tb Hbest Hl Hchron.
  - exists best, sb, tb. cbn.
    refine (conj eq_refl (conj _ (conj Hbest (conj _ _))));
      [now left | lia | now intros ? ? ? []].
  - inversion Hl as [|? ? (sx & tx & Hx) Hl']; subst.
    cbn [max_scan]. rewrite (MetricsProofs.stamped_key _ x sx tx Hx).
    cbn [obind]. unfold py_gt. cbn [py_lt obind].
    assert (Hord : String.ltb sb sx = true <-> seconds tb < seconds tx).
    { apply (Hchron best x); cbn; auto. }
    destruct (String.ltb sb sx) eqn:Hlt.
    + assert (seconds tb < seconds tx) by now apply Hord.
      destruct (IH x sx tx Hx Hl')
        as (m & sm & tm & Hm & Hin & Hst & Hle & Hall).
      { intros c1 c2 ? ? ? ? H1 H2. apply Hchron; now right. }
      exists m, sm, tm.
      refine (conj Hm (conj _ (conj Hst (conj _ _)))); [now right | lia |].
      intros c s t [<-|Hc] Hc'.
      * destruct (MetricsProofs.stamped_fun _ _ _ _ _ _ Hx Hc') as [_ <-].
        lia.
      * eauto.
    + assert (~ seconds tb < seconds tx).
      { intros Hc. apply Hord in Hc. discriminate. }
      destruct (IH best sb tb Hbest Hl')
        as (m & sm & tm & Hm & Hin & Hst & Hle & Hall).
      { intros c1 c2 ? ? ? ? H1 H2. apply Hchron.
        - destruct H1; [now left | now right; right].
        - destruct H2; [now left | now right; right]. }
      exists m, sm, tm.
      refine (conj Hm (conj _ (conj Hst (conj Hle _)))).
      { destruct Hin; [now left | now right; right]. }
      intros c s t [<-|Hc] Hc'.
      * destruct (MetricsProofs.stamped_fun _ _ _ _ _ _ Hx Hc') as [_ <-].
        lia.
      * eauto.
Qed.

(** X28.  The closed event [find_closing_method] works from is a [closed]
    event of the timeline with the latest timestamp, no [closed] event being
    later: it is the event whose source strategy 1 looks at, and the event
    whose commit strategy 4 looks at when strategies 1 to 3 have returned
    nothing. *)
Theorem latest_closed_event (net : trace -> request -> outcome json)
    (max_pages : nat) (owner repo : string) (number : json)
    (created_at closed_at : json) (ct zt : option datetime)
    (events : list json) (clock : bool) :
  truthy closed_at = true ->
  parse_timestamp fromisoformat created_at = Ret ct ->
  parse_timestamp fromisoformat closed_at = Ret zt ->
  Forall BotMainSpec.is_object events ->
  Forall (well_formed_event clock) (filter (of_kind "closed") events) ->
  chronological (filter (of_kind "closed") events) ->
  filter (of_kind "closed") events <> [] ->
  exists e t,
    In e events /\ of_kind "closed" e = true /\ time_of e = Some t /\
    (forall e' t',
        In e' events -> of_kind "closed" e' = true ->
        time_of e' = Some t' -> seconds t' <= seconds t) /\
    (forall r tr tr1,
        strategy1 fromisoformat net max_pages owner repo ct zt e tr
        = (Ret (Done r), tr1) ->
        find_closing_method fromisoformat net max_pages owner repo number
          created_at closed_at events tr
        = (Ret r, tr1)) /\
    (forall tr tr1 tr2 tr3,
        strategy1 fromisoformat net max_pages owner repo ct zt e tr
        = (Ret Next, tr1) ->
        strategy2 fromisoformat net max_pages owner repo ct zt events tr1
        = (Ret Next, tr2) ->
        strategy3 fromisoformat net max_pages owner repo ct zt events tr2
        = (Ret Next, tr3) ->
        find_closing_method fromisoformat net max_pages owner repo number
          created_at closed_at events tr
        = strategy4 fromisoformat net max_pages owner repo ct zt e tr3).
Proof.
  intros Hclosed_at Hct Hzt Hobj Hwf Hchron Hne.
  pose proof (TimeProofs.events_of_kind_objects "closed" events Hobj)
    as Hevents.
  assert (Hst : Forall (fun c => exists s t, stamped c s t)
                  (filter (of_kind "closed") events)).
  { revert Hwf. apply Forall_impl. intros c (s & t & H & _). eauto. }
  assert (Hfilter : forall x, In x (filter (of_kind "closed") events) <->
                              In x events /\ of_kind "closed" x = true)
    by (intros x; apply filter_In).
  remember (filter (of_kind "closed") events) as closed_events eqn:Hlist.
  destruct closed_events as [|x l]; [congruence|].
  inversion Hst as [|? ? (sx & tx & Hx) Hl]; subst.
  destruct (max_scan_greatest l x sx tx Hx Hl Hchron)
    as (m & sm & tm & Hm & Hin & Hstm & Hle & Hall).
  assert (Hmax : py_max created_key (x :: l) = Ret m).
  { cbn [py_max]. rewrite (MetricsProofs.stamped_key _ x sx tx Hx).
    exact Hm. }
  exists m, tm.
  pose proof (proj1 (Hfilter m) Hin) as [Hin' Hkind].
  split; [exact Hin'|]. split; [exact Hkind|].
  split; [now apply (MetricsProofs.stamped_time _ m sm)|].
  split; [|split].
  - intros e' t' Hine Hkinde Ht'.
    assert (He' : In e' (x :: l)) by now apply Hfilter.
    rewrite Forall_forall in Hst.
    destruct (Hst e' He') as (s' & t'' & Hst').
    rewrite (MetricsProofs.stamped_time _ e' s' t'' Hst') in Ht'.
    injection Ht' as <-.
    destruct He' as [<-|He'].
    + destruct (MetricsProofs.stamped_fun _ _ _ _ _ _ Hx Hst') as [_ <-].
      lia.
    + eauto.
  - intros r tr tr1 H1.
    now apply (ResolverProofs.resolved_by_strategy1 fromisoformat net
                 max_pages owner repo number created_at closed_at ct zt
                 events (x :: l) m Hclosed_at Hct Hzt Hevents Hne Hmax).
  - intros tr tr1 tr2 tr3 H1 H2 H3.
    now apply (ResolverProofs.resolved_by_strategy4 fromisoformat net
                 max_pages owner repo number created_at closed_at ct zt
                 events (x :: l) m Hclosed_at Hct Hzt Hevents Hne Hmax
                 tr tr1 tr2 tr3).
Qed.

End WithParser.

Lemma reopened_closed_chronological :
  chronological github_fromisoformat
    (filter (of_kind "closed") reopened_timeline).
Proof.
  apply (MetricsProofs.chronological_incl _ reopened_timeline).
  - intros x Hx. now apply filter_In in Hx.
  - exact TimeProofs.reopened_timeline_chronological.
Qed.

(** The issue of the example was closed twice; the second closing is the
    one looked at. *)
Lemma latest_closed_event_witness :
  exists e t,
    In e reopened_timeline /\ of_kind "closed" e = true /\
    time_of github_fromisoformat e = Some t /\
    (forall e' t',
        In e' reopened_timeline -> of_kind "closed" e' = true ->
        time_of github_fromisoformat e' = Some t' ->
        seconds t' <= seconds t) /\
    (forall r tr tr1,
        strategy1 github_fromisoformat github 5 "octo" "repo"
          (Some created_time_ex) (Some closed_time_ex) e tr
        = (Ret (Done r), tr1) ->
        find_closing_method github_fromisoformat github 5 "octo" "repo"
          (JInt 3) created_at_ex closed_at_ex reopened_timeline tr
        = (Ret r, tr1)) /\
    (forall tr tr1 tr2 tr3,
        strategy1 github_fromisoformat github 5 "octo" "repo"
          (Some created_time_ex) (Some closed_time_ex) e tr
        = (Ret Next, tr1) ->
        strategy2 github_fromisoformat github 5 "octo" "repo"
          (Some created_time_ex) (Some closed_time_ex) reopened_timeline tr1
        = (Ret Next, tr2) ->
        strategy3 github_fromisoformat github 5 "octo" "repo"
          (Some created_time_ex) (Some closed_time_ex) reopened_timeline tr2
        = (Ret Next, tr3) ->
        find_closing_method github_fromisoformat github 5 "octo" "repo"
          (JInt 3) created_at_ex closed_at_ex reopened_timeline tr
        = strategy4 github_fromisoformat github 5 "octo" "repo"
            (Some created_time_ex) (Some closed_time_ex) e tr3).
Proof.
  apply (latest_closed_event github_fromisoformat github 5 "octo" "repo"
           (JInt 3) created_at_ex closed_at_ex
           (Some created_time_ex) (Some closed_time_ex)
           reopened_timeline true).
  - reflexivity.
  - reflexivity.
  - reflexivity.
  - repeat constructor; now eexists.
  - repeat constructor;
      (do 2 eexists; split;
       [split; [reflexivity | split; [discriminate | reflexivity]]
       | reflexivity]).
  - exact reopened_closed_chronological.
  - discriminate.
Defined.

End ResolverTraceProofs.

(** ** harvest_data.py: the transcript *)

Module TranscriptProofs.
Import MetricsSpec ResolverSpec TranscriptSpec.
#[local] Open Scope list_scope.

Lemma example_transcript :
  build_comments_text github_fromisoformat utc_strftime scalar_str late_first
  = Ret ("[2024-05-01 10:00Z] [MEMBER] alice:" ++ nl ++ "It crashes."
         ++ nl ++ nl ++ "---" ++ nl ++ nl
         ++ "[2024-05-01 10:01Z] [MEMBER] bob:" ++ nl ++ "Fixed.")%string.
Proof. vm_compute. reflexivity. Qed.


(** *** A null timestamp *)

Lemma comparable_null_l (k : json) : comparable JNull k = false.
Proof. reflexivity. Qed.

Lemma comparable_null_r (k : json) : comparable k JNull = false.
Proof. now destruct k as [|b|n|s|l|d]; try destruct l. Qed.

Lemma all_comparable_null (ks : list json) :
  In JNull ks -> (2 <= List.length ks)%nat -> all_comparable ks = false.
Proof.
  induction ks as [|k ks IH]; [intros []|]. intros Hin Hlen.
  cbn [all_comparable].
  destruct Hin as [->|Hin].
  - destruct ks as [|k' ks]; [cbn in Hlen; lia|].
    cbn [forallb]. now rewrite comparable_null_l.
  - destruct ks as [|k1 [|k2 ks]]; [destruct Hin| |].
    + destruct Hin as [->|[]]. cbn [forallb].
      now rewrite comparable_null_r.
    + rewrite IH; [apply andb_false_r | exact Hin | cbn; lia].
Qed.

Lemma keyed_objects (l : list json) :
  Forall BotMainSpec.is_object l ->
  map_outcome (fun x => let? k := created_key x in Ret (k, x)) l
  = Ret (map (fun x => (key_of x, x)) l).
Proof.
  induction 1 as [|e l [d ->] _ IH]; [reflexivity|].
  cbn [map_outcome map]. rewrite IH. reflexivity.
Qed.

(** *** The order of the comments *)

Lemma ltb_lt (s t : string) :
  String.ltb s t = true <-> OrderedTypeEx.String_as_OT.lt s t.
Proof.
  rewrite <- OrderedTypeEx.String_as_OT.cmp_lt.
  unfold String.ltb, OrderedTypeEx.String_as_OT.cmp.
  destruct (String.compare s t); split; congruence.
Qed.

Lemma ltb_trans (s t u : string) :
  String.ltb s t = true -> String.ltb t u = true -> String.ltb s u = true.
Proof.
  rewrite !ltb_lt. apply OrderedTypeEx.String_as_OT.lt_trans.
Qed.

Lemma ltb_total (s t : string) :
  s <> t -> String.ltb s t = true \/ String.ltb t s = true.
Proof.
  intros Hne. unfold String.ltb. rewrite (String.compare_antisym t s).
  destruct (String.compare s t) eqn:Hc; cbn; auto.
  now apply String.compare_eq_iff in Hc.
Qed.

(** Two insertions with different keys can be made in either order. *)
Lemma insert_sorted_lt_comm (x y : json * json) (sx sy : string)
    (l : list (json * json)) :
  fst x = JStr sx -> fst y = JStr sy -> String.ltb sx sy = true ->
  Forall (fun p => is_str (fst p)) l ->
  insert_sorted false y (insert_sorted false x l)
  = insert_sorted false x (insert_sorted false y l).
Proof.
  intros Hx Hy Hlt Hl.
  assert (Hyx : lt_bool (fst y) (fst x) = false)
    by (rewrite Hx, Hy, ResolverProofs.lt_bool_str;
        now apply ResolverProofs.ltb_asym).
  assert (Hxy : lt_bool (fst x) (fst y) = true)
    by now rewrite Hx, Hy, ResolverProofs.lt_bool_str.
  induction Hl as [|z l [sz Hz] Hl IH]; cbn [insert_sorted].
  - now rewrite Hxy, Hyx.
  - destruct (lt_bool (fst z) (fst x)) eqn:Hzx.
    + assert (Hzy : lt_bool (fst z) (fst y) = true).
      { rewrite Hz, Hx, Hy, !ResolverProofs.lt_bool_str in *.
        now apply (ltb_trans sz sx sy). }
      cbn [insert_sorted]. rewrite Hzy. cbn [insert_sorted].
      now rewrite Hzx, IH.
    + cbn [insert_sorted]. rewrite Hxy.
      destruct (lt_bool (fst z) (fst y)); cbn [insert_sorted].
      * now rewrite Hzx.
      * now rewrite Hyx.
Qed.

Lemma insert_sorted_comm (x y : json * json) (l : list (json * json)) :
  is_str (fst x) -> is_str (fst y) -> fst x <> fst y ->
  Forall (fun p => is_str (fst p)) l ->
  insert_sorted false y (insert_sorted false x l)
  = insert_sorted false x (insert_sorted false y l).
Proof.
  intros [sx Hx] [sy Hy] Hne Hl.
  destruct (ltb_total sx sy) as [Hlt|Hlt]; [congruence| |].
  - now apply (insert_sorted_lt_comm x y sx sy).
  - symmetry. now apply (insert_sorted_lt_comm y x sy sx).
Qed.

(** The sort does not depend on the order of a list whose keys are
    different strings. *)
Lemma insertion_sort_unique (a b : list (json * json)) :
  Permutation a b ->
  Forall (fun p => is_str (fst p)) a -> NoDup (map fst a) ->
  fold_right (insert_sorted false) [] a
  = fold_right (insert_sorted false) [] b.
Proof.
  induction 1 as [|x a b Hperm IH|x y l|a b c Hab IHab Hbc IHbc];
    intros Hstr Hnd.
  - reflexivity.
  - cbn [fold_right]. inversion Hstr; inversion Hnd; subst.
    now rewrite IH.
  - cbn [fold_right].
    inversion Hstr as [|? ? Hy Hstr']; inversion Hstr' as [|? ? Hx Hl];
      subst.
    cbn [map] in Hnd. inversion Hnd as [|? ? Hnin _]; subst.
    apply insert_sorted_comm; auto.
    + intros Heq. apply Hnin. left. auto.
    + eapply Permutation_Forall;
        [apply ResolverProofs.insertion_sort_perm | exact Hl].
  - rewrite IHab by assumption. apply IHbc.
    + now apply (Permutation_Forall Hab).
    + apply (Permutation_NoDup (l := map fst a)); [|exact Hnd].
      now apply Permutation_map.
Qed.

Lemma py_sorted_unique (l l' : list json) :
  Permutation l l' ->
  Forall (fun c => exists s, created_key c = Ret (JStr s)) l ->
  NoDup (map key_of l) ->
  py_sorted created_key false l = py_sorted created_key false l'.
Proof.
  intros Hperm Hl Hnd.
  assert (Hkeys : forall m, Permutation l m ->
            Forall (fun e => is_str (key_of e) /\
                             created_key e = Ret (key_of e)) m).
  { intros m Hm. apply (Permutation_Forall Hm).
    revert Hl. apply Forall_impl. intros e [s He].
    unfold key_of, is_str. rewrite He. eauto. }
  assert (Hstr : forall m, Permutation l m ->
            Forall is_str (map fst (map (fun x => (key_of x, x)) m))).
  { intros m Hm. rewrite map_map. cbn [fst]. rewrite Forall_map.
    specialize (Hkeys m Hm). revert Hkeys. apply Forall_impl.
    now intros e [H _]. }
  unfold py_sorted.
  rewrite (ResolverProofs.keyed_events l (Hkeys l (Permutation_refl l))).
  rewrite (ResolverProofs.keyed_events l' (Hkeys l' Hperm)).
  cbn [obind].
  rewrite !ResolverProofs.all_comparable_str by auto.
  do 2 f_equal. apply insertion_sort_unique.
  - now apply Permutation_map.
  - specialize (Hstr l (Permutation_refl l)).
    now rewrite Forall_map in Hstr.
  - now rewrite map_map.
Qed.

Section WithFormat.

Variable fromisoformat : string -> option datetime.
Variable strftime : datetime -> string.
Variable py_str : json -> string.

#[local] Abbreviation build_comments_text :=
  (build_comments_text fromisoformat strftime py_str).

(** X29.  Among two comments or more, one comment whose [created_at] is
    null makes [build_comments_text] raise [TypeError] before any block is
    formatted: [sorted] compares [None] with the other keys. *)
Theorem transcript_null_timestamp (comments : list json) (c : json) :
  Forall BotMainSpec.is_object comments ->
  In c comments -> created_key c = Ret JNull ->
  (2 <= List.length comments)%nat ->
  build_comments_text comments = Raise TypeError.
Proof.
  intros Hobj Hin Hnull Hlen.
  unfold build_comments_text.
  destruct comments as [|c0 cs]; [destruct Hin|].
  remember (c0 :: cs) as comments eqn:Hlist. cbv iota.
  unfold py_sorted. rewrite (keyed_objects comments Hobj). cbn [obind].
  rewrite all_comparable_null; [reflexivity| |].
  - rewrite map_map. cbn [fst]. apply in_map_iff.
    exists c. split; [|exact Hin]. unfold key_of. now rewrite Hnull.
  - now rewrite !length_map.
Qed.


(** X30.  The transcript does not depend on the order in which the
    comments are given, when their timestamps are strings no two of which
    are equal: the blocks follow the timestamps. *)
Theorem transcript_order_independent (comments comments' : list json) :
  Permutation comments comments' ->
  Forall (fun c => exists s, created_key c = Ret (JStr s)) comments ->
  NoDup (map key_of comments) ->
  build_comments_text comments = build_comments_text comments'.
Proof.
  intros Hperm Hl Hnd. unfold build_comments_text.
  destruct comments as [|c cs].
  - apply Permutation_nil in Hperm. now subst.
  - destruct comments' as [|c' cs'].
    + apply Permutation_sym, Permutation_nil in Hperm. discriminate.
    + now rewrite (py_sorted_unique (c :: cs) (c' :: cs') Hperm Hl Hnd).
Qed.

End WithFormat.

(** Two comments, the second of them written by [carol] with a null
    timestamp. *)
Lemma transcript_null_timestamp_witness :
  build_comments_text github_fromisoformat utc_strftime scalar_str
    comments_null_time
  = Raise TypeError.
Proof.
  apply (transcript_null_timestamp github_fromisoformat utc_strftime
           scalar_str comments_null_time (comment 2 "carol" JNull)).
  - repeat constructor; now eexists.
  - right. left. reflexivity.
  - reflexivity.
  - cbn. lia.
Defined.

(** The comments of bob and alice, given latest first and earliest first. *)
Lemma transcript_order_independent_witness :
  build_comments_text github_fromisoformat utc_strftime scalar_str late_first
  = build_comments_text github_fromisoformat utc_strftime scalar_str
      early_first.
Proof.
  apply (transcript_order_independent github_fromisoformat utc_strftime
           scalar_str late_first early_first).
  - apply perm_swap.
  - repeat constructor; eexists; reflexivity.
  - repeat constructor; cbn; intuition discriminate.
Defined.

End TranscriptProofs.
